(** * MetaBalance cart, scoring and gauge engine: a shallow embedding

    The development follows the TypeScript sources of the front end:

    - [components/CastleVerdeIndexGauge.tsx]  (zone classifier, needle animation),
    - [utils/cartStore.ts]                    (the zustand cart store),
    - [pages/App.tsx]                         (acquisition flows, single-item scoring),
    - [components/CastleVerdeIndexDisplay.tsx] (the cart's score card),
    - [components/Macro5Visualization.tsx]    (the bar chart),
    - [components/NutritionForm.tsx]          (the form: typing, validation, submission).

    A JavaScript [number] is an IEEE-754 binary64 value.  The embedding is
    written once over an interface [JsNumber] of the operations the sources
    use, and the interface has two instances: [Float64], Rocq's primitive
    binary64 floats, which evaluate exactly what the program evaluates, and
    [Exact], the rationals, in which rounding is absent.  What one run
    computes is evaluated in [Float64]; what holds of every number by the
    order of numbers alone is proved in both; what needs the laws of
    arithmetic is proved in [Exact], and says so. *)

From Stdlib Require Import ZArith QArith Qabs Qminmax Floats Uint63.
From Stdlib Require Import List String Ascii Bool DecimalString DecimalZ.
From Stdlib Require Import Lia Lqa Permutation.
Import ListNotations.

Set Implicit Arguments.

(* ================================================================== *)
(** * JavaScript numbers *)

Class JsNumber (N : Type) : Type := {
  num_of_Z : Z -> N;            (* an integer literal *)
  num_add  : N -> N -> N;       (* a + b *)
  num_sub  : N -> N -> N;       (* a - b *)
  num_mul  : N -> N -> N;       (* a * b *)
  num_div  : N -> N -> N;       (* a / b *)
  num_abs  : N -> N;            (* Math.abs(a) *)
  num_leb  : N -> N -> bool;    (* a <= b *)
  num_ltb  : N -> N -> bool;    (* a < b *)
  num_truthy : N -> bool;       (* ToBoolean(a): false on 0, -0 and NaN *)
  Math_min : N -> N -> N;
  Math_max : N -> N -> N
}.

Declare Scope js_scope.
Delimit Scope js_scope with js.
Infix "+" := num_add : js_scope.
Infix "-" := num_sub : js_scope.
Infix "*" := num_mul : js_scope.
Infix "/" := num_div : js_scope.
Infix "<=?" := num_leb : js_scope.
Infix "<?" := num_ltb : js_scope.
Notation "a >=? b" := (num_leb b a) (at level 70) : js_scope.
Notation "a >? b" := (num_ltb b a) (at level 70) : js_scope.

(** A decimal literal [n/d] (for instance [14.9] is [dec 149 10]).  In
    binary64 the quotient of two exactly representable integers is the
    correctly rounded value, which is what the JavaScript parser produces
    for a literal with so few digits. *)
Definition dec {N} `{JsNumber N} (n d : Z) : N :=
  (num_of_Z n / num_of_Z d)%js.

(** [a || b] on numbers. *)
Definition num_or {N} `{JsNumber N} (a b : N) : N :=
  if num_truthy a then a else b.

(** [a || b] where [a] may be [undefined]. *)
Definition opt_or {N} `{JsNumber N} (a : option N) (b : N) : N :=
  match a with
  | Some x => num_or x b
  | None => b
  end.

Module Float64.

Definition of_Z (z : Z) : float :=
  match z with
  | Z0 => PrimFloat.zero
  | Zpos _ => PrimFloat.of_uint63 (Uint63.of_Z z)
  | Zneg p => PrimFloat.opp (PrimFloat.of_uint63 (Uint63.of_Z (Zpos p)))
  end.

Definition truthy (x : float) : bool :=
  PrimFloat.ltb x PrimFloat.zero || PrimFloat.ltb PrimFloat.zero x.

(** [Math.max] and [Math.min]: NaN is contagious and [+0] is larger than [-0]. *)
Definition max (a b : float) : float :=
  if PrimFloat.is_nan a || PrimFloat.is_nan b then PrimFloat.nan
  else if PrimFloat.ltb a b then b
  else if PrimFloat.ltb b a then a
  else if PrimFloat.get_sign a then b else a.

Definition min (a b : float) : float :=
  if PrimFloat.is_nan a || PrimFloat.is_nan b then PrimFloat.nan
  else if PrimFloat.ltb a b then a
  else if PrimFloat.ltb b a then b
  else if PrimFloat.get_sign a then a else b.

(** The order of two positive finite binary64 values of mantissas [m1],
    [m2] and exponents [e1], [e2], as the comparisons' specification
    reads it: by exponent, then by mantissa. *)
Definition lex_le (e1 : Z) (m1 : positive) (e2 : Z) (m2 : positive) : Prop :=
  (e1 < e2)%Z \/ (e1 = e2 /\ (m1 <= m2)%positive).

Definition lex_lt (e1 : Z) (m1 : positive) (e2 : Z) (m2 : positive) : Prop :=
  (e1 < e2)%Z \/ (e1 = e2 /\ (m1 < m2)%positive).

#[global] Instance number : JsNumber float := {
  num_of_Z := of_Z;
  num_add := PrimFloat.add;
  num_sub := PrimFloat.sub;
  num_mul := PrimFloat.mul;
  num_div := PrimFloat.div;
  num_abs := PrimFloat.abs;
  num_leb := PrimFloat.leb;
  num_ltb := PrimFloat.ltb;
  num_truthy := truthy;
  Math_min := min;
  Math_max := max
}.

End Float64.

Module Exact.

Definition ltb (a b : Q) : bool := negb (Qle_bool b a).
Definition truthy (x : Q) : bool := negb (Qeq_bool x 0).
Definition max (a b : Q) : Q := if Qle_bool a b then b else a.
Definition min (a b : Q) : Q := if Qle_bool a b then a else b.

#[global] Instance number : JsNumber Q := {
  num_of_Z := inject_Z;
  num_add := Qplus;
  num_sub := Qminus;
  num_mul := Qmult;
  num_div := Qdiv;
  num_abs := Qabs;
  num_leb := Qle_bool;
  num_ltb := ltb;
  num_truthy := truthy;
  Math_min := min;
  Math_max := max
}.

End Exact.

(* ================================================================== *)
(** * Zone classifier  (CastleVerdeIndexGauge.tsx) *)

Module Gauge.

Section WithNumbers.
Context {N : Type} `{JsNumber N}.

Record Zone : Type := mkZone {
  label : string;
  range : N * N;
  color : string
}.

(** What [getZone] hands to the renderer: a label and a colour. *)
Record ZoneInfo : Type := mkInfo {
  info_label : string;
  info_color : string
}.

Definition info (z : Zone) : ZoneInfo := mkInfo (label z) (color z).

Definition zones : list Zone :=
  [ mkZone "Low"       (num_of_Z 0,  dec 149 10) "#2ECC71";
    mkZone "Caution"   (num_of_Z 15, dec 249 10) "#F4D03F";
    mkZone "Dangerous" (num_of_Z 25, dec 349 10) "#F5B041";
    mkZone "Red Zone"  (num_of_Z 35, num_of_Z 50) "#E74C3C" ].

Definition not_available : ZoneInfo := mkInfo "N/A" "#6b7280".

Definition in_range (score : N) (z : Zone) : bool :=
  ((score >=? fst (range z)) && (score <=? snd (range z)))%js.

(** [zones[zones.length - 1]] *)
Definition last_zone : Zone :=
  List.last zones (mkZone "" (num_of_Z 0, num_of_Z 0) "").

Definition getZone (score : option N) : ZoneInfo :=
  match score with
  | None => not_available
  | Some s =>
      match List.find (in_range s) zones with
      | Some z => info z
      | None =>
          if (s >? snd (range last_zone))%js then info last_zone
          else not_available
      end
  end.

(** ** The needle animation of [CastleVerdeIndexGauge] *)

Definition MAX_SCORE : N := num_of_Z 50.
Definition MIN_SCORE : N := num_of_Z 0.

(** The component's two [useState] cells. *)
Record GaugeState : Type := mkGauge {
  animatedScore : option N;
  isInitialRender : bool
}.

Definition mounted : GaugeState := mkGauge None true.

(** What the closure [animate] captures when the effect starts it. *)
Record Animation : Type := mkAnimation {
  startValue : N;
  targetValue : N;
  diff : N;
  duration : N;
  startTime : N
}.

(** [Math.max(MIN_SCORE, Math.min(x, MAX_SCORE))] *)
Definition clamp (x : N) : N := Math_max MIN_SCORE (Math_min x MAX_SCORE).

(** The body of [useEffect(.., [score])], run when the [score] prop has
    changed; [now] is the reading of [performance.now()].  It returns the
    state it leaves and the animation it hands to [requestAnimationFrame],
    if any. *)
Definition onScoreChange (score : option N) (now : N) (g : GaugeState)
  : GaugeState * option Animation :=
  match score with
  | None => (mkGauge None (isInitialRender g), None)
  | Some s =>
      if isInitialRender g then (mkGauge (Some s) false, None)
      else
        let startValue :=
          match animatedScore g with Some a => a | None => MIN_SCORE end in
        let targetValue := clamp s in
        let diff := (targetValue - startValue)%js in
        let duration :=
          Math_min (num_abs diff * num_of_Z 40)%js (num_of_Z 800) in
        (g, Some (mkAnimation startValue targetValue diff duration now))
  end.

(** [animate(currentTime)]: the value it passes to [setAnimatedScore], and
    whether it asks for another frame. *)
Definition animate (a : Animation) (currentTime : N) : N * bool :=
  let elapsed := (currentTime - startTime a)%js in
  if (elapsed >=? duration a)%js then (targetValue a, false)
  else
    let progress := (elapsed / duration a)%js in
    let easeOutQuad :=
      (num_of_Z 1 - (num_of_Z 1 - progress) * (num_of_Z 1 - progress))%js in
    ((startValue a + diff a * easeOutQuad)%js, true).

Definition frame (a : Animation) (currentTime : N) (g : GaugeState)
  : GaugeState * bool :=
  let (newValue, again) := animate a currentTime in
  (mkGauge (Some newValue) (isInitialRender g), again).

Definition clampedScore (g : GaugeState) : N :=
  match animatedScore g with
  | None => MIN_SCORE
  | Some a => clamp a
  end.

Definition acvScore (g : GaugeState) : N :=
  (clampedScore g * dec 75 100)%js.

(** The values [animate] displays at the frame times [times]. *)
Definition displayed_at (a : Animation) (times : list N) : list N :=
  map (fun t => fst (animate a t)) times.

(** Each value of the list is at most the next one. *)
Fixpoint nondecreasing (values : list N) : bool :=
  match values with
  | x :: (y :: _) as rest => (x <=? y)%js && nondecreasing rest
  | _ => true
  end.

End WithNumbers.

Arguments Zone : clear implicits.
Arguments GaugeState : clear implicits.
Arguments Animation : clear implicits.

End Gauge.

(* ================================================================== *)
(** * Strings *)

Module Js.

Definition lower_ascii (c : ascii) : ascii :=
  let n := nat_of_ascii c in
  if (65 <=? n)%nat && (n <=? 90)%nat then ascii_of_nat (n + 32) else c.

(** [s.toLowerCase()], on the ASCII part of the string. *)
Fixpoint toLowerCase (s : string) : string :=
  match s with
  | EmptyString => EmptyString
  | String c rest => String (lower_ascii c) (toLowerCase rest)
  end.

(** Strings hold the UTF-8 bytes of the text.  The white space and the line
    terminators that [trim] cuts are, in one byte, TAB, LF, VT, FF, CR and
    the space; in two bytes U+00A0; in three bytes U+1680, U+2000 to
    U+200A, U+2028, U+2029, U+202F, U+205F, U+3000 and U+FEFF. *)
Definition is_space (c : ascii) : bool :=
  let n := nat_of_ascii c in
  (n =? 32)%nat || ((9 <=? n)%nat && (n <=? 13)%nat).

Definition is_space2 (c1 c2 : ascii) : bool :=
  ((nat_of_ascii c1 =? 194) && (nat_of_ascii c2 =? 160))%nat.     (* U+00A0 *)

Definition is_space3 (c1 c2 c3 : ascii) : bool :=
  let n1 := nat_of_ascii c1 in
  let n2 := nat_of_ascii c2 in
  let n3 := nat_of_ascii c3 in
  (((n1 =? 225) && ((n2 =? 154) && (n3 =? 128)))                  (* U+1680 *)
   || ((n1 =? 226) && ((n2 =? 128)
                       && (((128 <=? n3) && (n3 <=? 138))         (* U+2000-200A *)
                           || (n3 =? 168) || (n3 =? 169)          (* U+2028, 2029 *)
                           || (n3 =? 175))))                      (* U+202F *)
   || ((n1 =? 226) && ((n2 =? 129) && (n3 =? 159)))               (* U+205F *)
   || ((n1 =? 227) && ((n2 =? 128) && (n3 =? 128)))               (* U+3000 *)
   || ((n1 =? 239) && ((n2 =? 187) && (n3 =? 191))))%nat.         (* U+FEFF *)

(** What follows the character a string starts with, when that character
    is white space. *)
Definition after_space (s : string) : option string :=
  match s with
  | String c1 rest1 =>
      if is_space c1 then Some rest1
      else
        match rest1 with
        | String c2 rest2 =>
            if is_space2 c1 c2 then Some rest2
            else
              match rest2 with
              | String c3 rest3 =>
                  if is_space3 c1 c2 c3 then Some rest3 else None
              | EmptyString => None
              end
        | EmptyString => None
        end
  | EmptyString => None
  end.

(** [!s.trim()]: the string is empty once the white space around it is cut,
    that is, it holds nothing but white space. *)
Fixpoint trim_is_empty (s : string) : bool :=
  match s with
  | EmptyString => true
  | String c1 rest1 =>
      if is_space c1 then trim_is_empty rest1
      else
        match rest1 with
        | String c2 rest2 =>
            if is_space2 c1 c2 then trim_is_empty rest2
            else
              match rest2 with
              | String c3 rest3 =>
                  is_space3 c1 c2 c3 && trim_is_empty rest3
              | EmptyString => false
              end
        | EmptyString => false
        end
  end.

(** A byte that continues a character of several bytes. *)
Definition continues (c : ascii) : bool :=
  ((128 <=? nat_of_ascii c) && (nat_of_ascii c <=? 191))%nat.

(** [n.toString()] of an integer-valued number such as [Date.now()]. *)
Definition toString (n : Z) : string :=
  NilEmpty.string_of_int (Z.to_int n).

(** [s || d] on strings: the empty string is falsy. *)
Definition str_or (s d : string) : string :=
  match s with
  | EmptyString => d
  | _ => s
  end.

End Js.

(* ================================================================== *)
(** * The cart store  (utils/cartStore.ts) *)

Module CartStore.

Section WithNumbers.
Context {N : Type} `{JsNumber N}.

Record MacroNutrients : Type := mkMacros {
  protein : N;
  fat : N;
  total_carbs : N;
  fiber : N;
  sugar : N
}.

(** A cart item as the store holds it at run time: [addItem] receives
    [{ name, macros }] from the page and adds [id]; [quantity] is absent
    until [updateItemQuantity] writes it; [calculateTotals] reads
    [item.macros?.x] and [item.quantity]. *)
Record CartItem : Type := mkItem {
  id : string;
  name : string;
  macros : option MacroNutrients;
  quantity : option N
}.

(** [Omit<CartItem, "id">] *)
Record ItemData : Type := mkItemData {
  data_name : string;
  data_macros : option MacroNutrients;
  data_quantity : option N
}.

Record CalculationRequest : Type := mkRequest {
  aggregated_input_data : MacroNutrients;
  anchor_id : string
}.

Record CastleVerdeIndexResponse : Type := mkResponse {
  predicted_spike : option N;
  input_data : MacroNutrients;
  balanced_macros : MacroNutrients;
  base_ratio : N;
  tier_label : string;
  tier_color : string
}.

(** [CartTotals extends CastleVerdeIndexResponse] with [itemCount]. *)
Record CartTotals : Type := mkTotals {
  response : CastleVerdeIndexResponse;
  itemCount : nat
}.

Record CartState : Type := mkCart {
  items : list CartItem;
  cartTotals : option CartTotals;
  anchorKey : string;
  error : option string
}.

Definition initial : CartState := mkCart [] None "protein" None.

(** zustand's [set(partial)]: the fields the partial object names are
    replaced, the others are kept. *)
Record Partial : Type := mkPartial {
  new_items : option (list CartItem);
  new_cartTotals : option (option CartTotals);
  new_anchorKey : option string;
  new_error : option (option string)
}.

Definition keep {A} (old : A) (new : option A) : A :=
  match new with
  | Some v => v
  | None => old
  end.

Definition set (p : Partial) (s : CartState) : CartState :=
  mkCart (keep (items s) (new_items p))
         (keep (cartTotals s) (new_cartTotals p))
         (keep (anchorKey s) (new_anchorKey p))
         (keep (error s) (new_error p)).

(** [set({ items: v })], [set({ cartTotals: v })], ... *)
Definition set_items (v : list CartItem) : CartState -> CartState :=
  set (mkPartial (Some v) None None None).
Definition set_cartTotals (v : option CartTotals) : CartState -> CartState :=
  set (mkPartial None (Some v) None None).
Definition set_anchorKey (v : string) : CartState -> CartState :=
  set (mkPartial None None (Some v) None).
Definition set_error (v : option string) : CartState -> CartState :=
  set (mkPartial None None None (Some v)).

(** [item.macros?.x || 0] *)
Definition macro_or_0 (f : MacroNutrients -> N) (item : CartItem) : N :=
  opt_or (option_map f (macros item)) (num_of_Z 0).

(** The reducer of [items.reduce(...)] in [calculateTotals]. *)
Definition accumulate (acc : MacroNutrients) (item : CartItem) : MacroNutrients :=
  let quantity := opt_or (quantity item) (num_of_Z 1) in
  (mkMacros (protein acc + macro_or_0 protein item * quantity)
            (fat acc + macro_or_0 fat item * quantity)
            (total_carbs acc + macro_or_0 total_carbs item * quantity)
            (fiber acc + macro_or_0 fiber item * quantity)
            (sugar acc + macro_or_0 sugar item * quantity))%js.

Definition zero_macros : MacroNutrients :=
  mkMacros (num_of_Z 0) (num_of_Z 0) (num_of_Z 0) (num_of_Z 0) (num_of_Z 0).

Definition aggregate (l : list CartItem) : MacroNutrients :=
  fold_left accumulate l zero_macros.

(** ** The aggregate as the specification words it

    "The element-wise sum over all cart items of (nutrient vector x
    quantity)", taken from left to right, with the quantity the reducer
    counts. *)

Definition vadd (a b : MacroNutrients) : MacroNutrients :=
  (mkMacros (protein a + protein b) (fat a + fat b)
            (total_carbs a + total_carbs b) (fiber a + fiber b)
            (sugar a + sugar b))%js.

Definition scale (v : MacroNutrients) (q : N) : MacroNutrients :=
  (mkMacros (protein v * q) (fat v * q) (total_carbs v * q) (fiber v * q)
            (sugar v * q))%js.

Definition vector (item : CartItem) : MacroNutrients :=
  mkMacros (macro_or_0 protein item) (macro_or_0 fat item)
           (macro_or_0 total_carbs item) (macro_or_0 fiber item)
           (macro_or_0 sugar item).

Definition counted_quantity (item : CartItem) : N :=
  opt_or (quantity item) (num_of_Z 1).

Definition contribution (item : CartItem) : MacroNutrients :=
  scale (vector item) (counted_quantity item).

Definition element_wise_sum (l : list CartItem) : MacroNutrients :=
  fold_left vadd (map contribution l) zero_macros.

(** ** [calculateTotals]

    The function is asynchronous.  Its body up to the [await] runs at the
    call ([calculateTotals_begin]); what it holds across the [await] is the
    request and the [items] it read ([Pending]); the rest runs when the
    call to the scoring service settles ([calculateTotals_settle]), on the
    store as it is by then. *)

Record Pending : Type := mkPending {
  requestBody : CalculationRequest;
  snapshot : list CartItem
}.

(** What [await brain.calculate_castle_verde_index(..)] followed by
    [await response.json()] yields: a parsed body, or a thrown value. *)
Inductive Thrown : Type :=
| ErrorObject (message : string)
| OtherValue.

Inductive Outcome : Type :=
| Fulfilled (result : CastleVerdeIndexResponse)
| Rejected (thrown : Thrown).

Definition calculateTotals_begin (s : CartState) : CartState * option Pending :=
  let s := set_error None s in
  match items s with
  | [] => (set_cartTotals None s, None)
  | _ :: _ =>
      (s, Some (mkPending (mkRequest (aggregate (items s)) (anchorKey s))
                          (items s)))
  end.

(** [error instanceof Error ? error.message : "Unknown error ..."] *)
Definition errorMessage (thrown : Thrown) : string :=
  match thrown with
  | ErrorObject message => message
  | OtherValue => "Unknown error calculating totals"
  end.

Definition calculateTotals_settle (p : Pending) (o : Outcome) (s : CartState)
  : CartState :=
  match o with
  | Fulfilled result =>
      set_cartTotals (Some (mkTotals result (List.length (snapshot p)))) s
  | Rejected thrown =>
      (* Keep stale cartTotals data, but set the error state *)
      set_error (Some (errorMessage thrown)) s
  end.

(** The scoring service, as a function of the request it receives. *)
Definition Service : Type := CalculationRequest -> Outcome.

(** The answer to a call in flight arrives. *)
Definition deliver (service : Service) (p : option Pending) (s : CartState)
  : CartState :=
  match p with
  | Some p => calculateTotals_settle p (service (requestBody p)) s
  | None => s
  end.

(** One call run to its end with nothing in between. *)
Definition calculateTotals (service : Service) (s : CartState) : CartState :=
  let (s', p) := calculateTotals_begin s in
  deliver service p s'.

(** ** The other actions.  Each returns the store after its synchronous
    part, and the scoring call it leaves in flight, if any.  [now] is the
    reading of [Date.now()]. *)

Definition addItem (now : Z) (itemData : ItemData) (s : CartState)
  : CartState * option Pending :=
  let newItem :=
    mkItem (Js.toString now) (data_name itemData) (data_macros itemData)
           (data_quantity itemData) in
  calculateTotals_begin (set_items (items s ++ [newItem]) s).

Definition removeItem (itemId : string) (s : CartState)
  : CartState * option Pending :=
  let s := set_items
             (filter (fun item => negb (String.eqb (id item) itemId)) (items s)) s in
  if (0 <? List.length (items s))%nat then calculateTotals_begin s
  else (set_cartTotals None s, None).

Definition updateItemQuantity (itemId : string) (q : N) (s : CartState)
  : CartState * option Pending :=
  calculateTotals_begin
    (set_items
       (map (fun item =>
               if String.eqb (id item) itemId
               then mkItem (id item) (name item) (macros item)
                           (Some (Math_max (num_of_Z 0) q))
               else item)
            (items s)) s).

Definition setAnchorKey (key : string) (s : CartState)
  : CartState * option Pending :=
  calculateTotals_begin (set_anchorKey key s).

Definition clearCart (s : CartState) : CartState :=
  set (mkPartial (Some []) (Some None) None None) s.

Definition setCartTotals (totals : option CartTotals) (s : CartState) : CartState :=
  set_cartTotals totals s.

End WithNumbers.

Arguments MacroNutrients : clear implicits.
Arguments CartItem : clear implicits.
Arguments ItemData : clear implicits.
Arguments CalculationRequest : clear implicits.
Arguments CastleVerdeIndexResponse : clear implicits.
Arguments CartTotals : clear implicits.
Arguments CartState : clear implicits.
Arguments Partial : clear implicits.
Arguments Pending : clear implicits.
Arguments Outcome : clear implicits.
Arguments Service : clear implicits.

End CartStore.

(* ================================================================== *)
(** * The page  (pages/App.tsx, components/NutritionForm.tsx) *)

Module App.

Definition anchorOptions : list (string * string) :=
  [ ("protein", "Protein"); ("fat", "Fat"); ("fiber", "Fiber");
    ("sugar", "Sugar"); ("TotalCarbs", "Total Carbohydrates") ]%string.

(** Helper to map UI anchor key values to API expected values. *)
Definition mapAnchorKeyToApiValue (uiAnchorKey : string) : string :=
  if String.eqb uiAnchorKey "TotalCarbs" then "total_carbs"%string
  else Js.toLowerCase uiAnchorKey.

(** Digits of a form field, most significant first. *)
Fixpoint digits_value (acc : Z) (s : string) : option Z :=
  match s with
  | EmptyString => Some acc
  | String c rest =>
      let n := nat_of_ascii c in
      if (48 <=? n)%nat && (n <=? 57)%nat
      then digits_value (10 * acc + Z.of_nat (n - 48)) rest
      else None
  end.

Fixpoint split_dot (s : string) : string * option string :=
  match s with
  | EmptyString => (EmptyString, None)
  | String c rest =>
      if Ascii.eqb c "."%char then (EmptyString, Some rest)
      else let (a, b) := split_dot rest in (String c a, b)
  end.

Section WithNumbers.
Context {N : Type} `{JsNumber N}.

(** A form value: [number | string]. *)
Inductive FormValue : Type :=
| FNum (n : N)
| FStr (s : string).

(** [Number(v) || 0].  On a string, [Number] is modelled on the texts the
    form lets through ([/^\d*\.?\d*$/]): the empty string is [0], digits
    with at most one dot are the decimal they spell, and anything else is
    [NaN], which [|| 0] turns into [0].  In [Float64] the decimal is the
    quotient of its digits by a power of ten, which is the number
    JavaScript reads as long as the text has at most 15 digits: both are
    then exact and the division rounds once. *)
Definition number_or_0 (v : FormValue) : N :=
  match v with
  | FNum n => num_or n (num_of_Z 0)
  | FStr s =>
      match split_dot s with
      | (whole, None) =>
          match digits_value 0 whole with
          | Some w => num_or (num_of_Z w) (num_of_Z 0)
          | None => num_of_Z 0
          end
      | (whole, Some frac) =>
          match digits_value 0 (whole ++ frac), frac, whole with
          | Some _, EmptyString, EmptyString => num_of_Z 0
          | Some d, _, _ =>
              num_or (num_of_Z d / num_of_Z (10 ^ Z.of_nat (String.length frac)))%js
                     (num_of_Z 0)
          | None, _, _ => num_of_Z 0
          end
      end
  end.

(** [NutritionData], the form's data. *)
Record NutritionData : Type := mkNutrition {
  nd_itemName : string;
  nd_protein : FormValue;
  nd_fat : FormValue;
  nd_sugar : FormValue;
  nd_totalCarbs : FormValue;
  nd_fiber : FormValue
}.

(** [OcrData]: the draft item, shared by the scan and the lookup flows and
    handed to the form as [initialData]. *)
Record OcrData : Type := mkOcrData {
  itemName : string;
  protein : FormValue;
  fat : FormValue;
  totalCarbs : FormValue;
  fiber : FormValue;
  sugar : FormValue;
  servings : option N
}.

(** The React state of [App] that the flows below read or write. *)
Record AppState : Type := mkApp {
  individualItemScore : option N;
  isCalculatingItem : bool;
  calculationItemError : option string;
  isLookingUp : bool;
  lookupError : option string;
  capturedImage : option string;
  isProcessingOcr : bool;
  ocrError : option string;
  ocrResultData : option OcrData;
  individualBalancedMacros : option (CartStore.MacroNutrients N);
  isFetchingIndividualBalance : bool;
  singleItemAnchorKey : string
}.

Definition initial : AppState :=
  mkApp None false None false None None false None None None false "protein".

(** The [useState] setters. *)
Definition setIndividualItemScore v (a : AppState) : AppState :=
  mkApp v (isCalculatingItem a) (calculationItemError a) (isLookingUp a)
    (lookupError a) (capturedImage a) (isProcessingOcr a) (ocrError a)
    (ocrResultData a) (individualBalancedMacros a)
    (isFetchingIndividualBalance a) (singleItemAnchorKey a).
Definition setIsCalculatingItem v (a : AppState) : AppState :=
  mkApp (individualItemScore a) v (calculationItemError a) (isLookingUp a)
    (lookupError a) (capturedImage a) (isProcessingOcr a) (ocrError a)
    (ocrResultData a) (individualBalancedMacros a)
    (isFetchingIndividualBalance a) (singleItemAnchorKey a).
Definition setCalculationItemError v (a : AppState) : AppState :=
  mkApp (individualItemScore a) (isCalculatingItem a) v (isLookingUp a)
    (lookupError a) (capturedImage a) (isProcessingOcr a) (ocrError a)
    (ocrResultData a) (individualBalancedMacros a)
    (isFetchingIndividualBalance a) (singleItemAnchorKey a).
Definition setIsLookingUp v (a : AppState) : AppState :=
  mkApp (individualItemScore a) (isCalculatingItem a) (calculationItemError a) v
    (lookupError a) (capturedImage a) (isProcessingOcr a) (ocrError a)
    (ocrResultData a) (individualBalancedMacros a)
    (isFetchingIndividualBalance a) (singleItemAnchorKey a).
Definition setLookupError v (a : AppState) : AppState :=
  mkApp (individualItemScore a) (isCalculatingItem a) (calculationItemError a)
    (isLookingUp a) v (capturedImage a) (isProcessingOcr a) (ocrError a)
    (ocrResultData a) (individualBalancedMacros a)
    (isFetchingIndividualBalance a) (singleItemAnchorKey a).
Definition setCapturedImage v (a : AppState) : AppState :=
  mkApp (individualItemScore a) (isCalculatingItem a) (calculationItemError a)
    (isLookingUp a) (lookupError a) v (isProcessingOcr a) (ocrError a)
    (ocrResultData a) (individualBalancedMacros a)
    (isFetchingIndividualBalance a) (singleItemAnchorKey a).
Definition setIsProcessingOcr v (a : AppState) : AppState :=
  mkApp (individualItemScore a) (isCalculatingItem a) (calculationItemError a)
    (isLookingUp a) (lookupError a) (capturedImage a) v (ocrError a)
    (ocrResultData a) (individualBalancedMacros a)
    (isFetchingIndividualBalance a) (singleItemAnchorKey a).
Definition setOcrError v (a : AppState) : AppState :=
  mkApp (individualItemScore a) (isCalculatingItem a) (calculationItemError a)
    (isLookingUp a) (lookupError a) (capturedImage a) (isProcessingOcr a) v
    (ocrResultData a) (individualBalancedMacros a)
    (isFetchingIndividualBalance a) (singleItemAnchorKey a).
Definition setOcrResultData v (a : AppState) : AppState :=
  mkApp (individualItemScore a) (isCalculatingItem a) (calculationItemError a)
    (isLookingUp a) (lookupError a) (capturedImage a) (isProcessingOcr a)
    (ocrError a) v (individualBalancedMacros a)
    (isFetchingIndividualBalance a) (singleItemAnchorKey a).
Definition setIndividualBalancedMacros v (a : AppState) : AppState :=
  mkApp (individualItemScore a) (isCalculatingItem a) (calculationItemError a)
    (isLookingUp a) (lookupError a) (capturedImage a) (isProcessingOcr a)
    (ocrError a) (ocrResultData a) v
    (isFetchingIndividualBalance a) (singleItemAnchorKey a).
Definition setIsFetchingIndividualBalance v (a : AppState) : AppState :=
  mkApp (individualItemScore a) (isCalculatingItem a) (calculationItemError a)
    (isLookingUp a) (lookupError a) (capturedImage a) (isProcessingOcr a)
    (ocrError a) (ocrResultData a) (individualBalancedMacros a)
    v (singleItemAnchorKey a).
Definition setSingleItemAnchorKey v (a : AppState) : AppState :=
  mkApp (individualItemScore a) (isCalculatingItem a) (calculationItemError a)
    (isLookingUp a) (lookupError a) (capturedImage a) (isProcessingOcr a)
    (ocrError a) (ocrResultData a) (individualBalancedMacros a)
    (isFetchingIndividualBalance a) v.

(** ** Scan flow: [processCapturedImage] *)

(** The OCR endpoint's body.  A nutrient field holds the text of the value
    received ([x?.toString()]), or nothing when the field is absent. *)
Record OcrResponse : Type := mkOcrResponse {
  ocr_protein : option string;
  ocr_total_fat : option string;
  ocr_total_carbohydrate : option string;
  ocr_dietary_fiber : option string;
  ocr_total_sugars : option string;
  ocr_servings : option N
}.

(** How the [try] block ends: with the parsed body, or with an [Error]
    thrown at any of its stages (blob conversion, transport, a response
    that is not ok, a body that is not JSON), whose message is carried. *)
Inductive OcrOutcome : Type :=
| OcrScanned (ocrData : OcrResponse)
| OcrFailed (message : string).

(** [x?.toString() ?? ''] *)
Definition text_or_empty (x : option string) : FormValue :=
  FStr (match x with Some t => t | None => EmptyString end).

Definition processCapturedImage (outcome : OcrOutcome) (a : AppState) : AppState :=
  let a := setIsProcessingOcr true a in
  let a := setOcrError None a in
  let a := setOcrResultData None a in       (* Clear previous OCR/Lookup data *)
  let a :=
    match outcome with
    | OcrScanned ocrData =>
        let mappedData :=
          mkOcrData "Scanned Item"
            (text_or_empty (ocr_protein ocrData))
            (text_or_empty (ocr_total_fat ocrData))
            (text_or_empty (ocr_total_carbohydrate ocrData))
            (text_or_empty (ocr_dietary_fiber ocrData))
            (text_or_empty (ocr_total_sugars ocrData))
            (ocr_servings ocrData) in
        setOcrResultData (Some mappedData) a
    | OcrFailed message =>
        let displayError :=
          Js.str_or message
            "Failed to process the image due to an unexpected error." in
        setOcrError (Some displayError) a
    end in
  let a := setIsProcessingOcr false a in
  setCapturedImage None a.

(** ** Single-item scoring: [calculateIndividualScore] *)

(** How the call to the scoring service ends for the page: a parsed body of
    a response that is ok, or an [Error] (transport, or a response that is
    not ok, whose details were joined into the message). *)
Inductive ScoreOutcome : Type :=
| Scored (resultData : CartStore.CastleVerdeIndexResponse N)
| ScoreFailed (message : string).

(** [apiRequestBody]; [anchorKey] is the cart store's, read by
    [useCartStore()]. *)
Definition individualRequest (nutritionInput : NutritionData) (anchorKey : string)
  : CartStore.CalculationRequest N :=
  let individualMacros :=
    CartStore.mkMacros
      (number_or_0 (nd_protein nutritionInput))
      (number_or_0 (nd_fat nutritionInput))
      (number_or_0 (nd_totalCarbs nutritionInput))
      (number_or_0 (nd_fiber nutritionInput))
      (number_or_0 (nd_sugar nutritionInput)) in
  CartStore.mkRequest individualMacros anchorKey.

Definition calculateIndividualScore_begin (a : AppState) : AppState :=
  let a := setIsCalculatingItem true a in
  let a := setIndividualItemScore None a in
  setCalculationItemError None a.

Definition calculateIndividualScore_settle (outcome : ScoreOutcome) (a : AppState)
  : AppState :=
  let a :=
    match outcome with
    | Scored resultData =>
        setIndividualItemScore (CartStore.predicted_spike resultData) a
    | ScoreFailed message =>
        let errorMessage :=
          Js.str_or message "An unexpected error occurred during calculation." in
        let a := setCalculationItemError (Some errorMessage) a in
        (* Set score to null on error to clear gauge if needed *)
        setIndividualItemScore None a
    end in
  setIsCalculatingItem false a.

Definition calculateIndividualScore
  (service : CartStore.CalculationRequest N -> ScoreOutcome)
  (nutritionInput : NutritionData) (anchorKey : string) (a : AppState)
  : AppState :=
  let a := calculateIndividualScore_begin a in
  calculateIndividualScore_settle
    (service (individualRequest nutritionInput anchorKey)) a.

(** ** Balanced macros of the single item: the effect
    [fetchIndividualBalancedMacros] *)

Definition balanceRequest (d : OcrData) (singleItemAnchorKey : string)
  : CartStore.CalculationRequest N :=
  let actualMacrosForApi :=
    CartStore.mkMacros
      (number_or_0 (protein d)) (number_or_0 (fat d))
      (number_or_0 (totalCarbs d)) (number_or_0 (fiber d))
      (number_or_0 (sugar d)) in
  CartStore.mkRequest actualMacrosForApi
    (mapAnchorKeyToApiValue singleItemAnchorKey).

Definition fetchIndividualBalancedMacros_begin (a : AppState)
  : AppState * option (CartStore.CalculationRequest N) :=
  match ocrResultData a, individualItemScore a with
  | Some d, Some _ =>
      if negb (isCalculatingItem a)
         && negb (String.eqb (singleItemAnchorKey a) EmptyString)
      then
        let a := setIsFetchingIndividualBalance true a in
        let a := setIndividualBalancedMacros None a in
        (a, Some (balanceRequest d (singleItemAnchorKey a)))
      else (setIndividualBalancedMacros None a, None)
  | _, _ => (setIndividualBalancedMacros None a, None)
  end.

Definition fetchIndividualBalancedMacros_settle (outcome : ScoreOutcome)
  (a : AppState) : AppState :=
  let a :=
    match outcome with
    | Scored resultData =>
        setIndividualBalancedMacros
          (Some (CartStore.balanced_macros resultData)) a
    | ScoreFailed _ => setIndividualBalancedMacros None a
    end in
  setIsFetchingIndividualBalance false a.

End WithNumbers.

Arguments FormValue : clear implicits.
Arguments NutritionData : clear implicits.
Arguments OcrData : clear implicits.
Arguments AppState : clear implicits.
Arguments OcrResponse : clear implicits.
Arguments OcrOutcome : clear implicits.
Arguments ScoreOutcome : clear implicits.

End App.

(* ================================================================== *)
(** * The cart's score card  (components/CastleVerdeIndexDisplay.tsx) *)

Module Display.

Section WithNumbers.
Context {N : Type} `{JsNumber N}.

Record Zone : Type := mkZone {
  label : string;
  range : N * N;
  color : string;
  bgColor : string
}.

Definition zones : list Zone :=
  [ mkZone "Low"       (num_of_Z 0,  dec 149 10) "#28a745" "bg-[#f5fef6]";
    mkZone "Caution"   (num_of_Z 15, dec 249 10) "#d3a00f" "bg-[#fffdf5]";
    mkZone "Dangerous" (num_of_Z 25, dec 349 10) "#d98c00" "bg-[#fff5f5]";
    mkZone "Red Zone"  (num_of_Z 35, num_of_Z 50) "#c0392b" "bg-[#fff5f5]" ].

Definition in_range (score : N) (z : Zone) : bool :=
  ((score >=? fst (range z)) && (score <=? snd (range z)))%js.

(** Helper function to find the zone based on the score:
    [zones.find(..) || null], and null for a null or negative score. *)
Definition getZone (score : option N) : option Zone :=
  match score with
  | None => None
  | Some s =>
      if (s <? num_of_Z 0)%js then None
      else List.find (in_range s) zones
  end.

(** What the card's content shows: the placeholder while loading, the
    error mark, the score (the number that [toFixed(1)] prints, its colour
    and, when a zone was found, the zone's label), or "N/A". *)
Inductive Content : Type :=
| Skeleton
| ErrorMark
| ScoreLine (score : N) (color : string) (risk : option string)
| NotAvailable.

Record Card : Type := mkCard {
  cardClass : string;          (* zone?.bgColor ?? 'bg-white' *)
  content : Content;
  errorLine : option string    (* !isLoading && error *)
}.

(** A string prop used as a condition: null, undefined and the empty
    string are falsy. *)
Definition truthy_text (t : option string) : bool :=
  match t with
  | Some (String _ _) => true
  | _ => false
  end.

Definition CastleVerdeIndexDisplay (score : option N) (isLoading : bool)
  (error : option string) : Card :=
  let zone := getZone score in
  mkCard
    (match zone with Some z => bgColor z | None => "bg-white" end)
    (if isLoading then Skeleton
     else if truthy_text error then ErrorMark
     else match score with
          | Some s =>
              ScoreLine s (match zone with Some z => color z | None => "#000" end)
                        (option_map label zone)
          | None => NotAvailable
          end)
    (if negb isLoading && truthy_text error then error else None).

End WithNumbers.

Arguments Zone : clear implicits.
Arguments Content : clear implicits.
Arguments Card : clear implicits.

End Display.

(* ================================================================== *)
(** * The gauge's needles  (components/CastleVerdeIndexGauge.tsx) *)

Module Needle.

Section WithNumbers.
Context {N : Type} `{JsNumber N}.

Definition GAUGE_START_ANGLE : N := num_of_Z (-90).
Definition GAUGE_END_ANGLE : N := num_of_Z 90.
Definition GAUGE_RANGE : N := (GAUGE_END_ANGLE - GAUGE_START_ANGLE)%js.

(** Helper function to convert score to angle (degrees). *)
Definition scoreToAngle (score minScore maxScore startAngle range : N) : N :=
  let scoreRatio :=
    ((Math_min maxScore (Math_max minScore score) - minScore)
     / (maxScore - minScore))%js in
  (startAngle + scoreRatio * range)%js.

Definition needleAngle (g : Gauge.GaugeState N) : N :=
  scoreToAngle (Gauge.clampedScore g) Gauge.MIN_SCORE Gauge.MAX_SCORE
               GAUGE_START_ANGLE GAUGE_RANGE.

Definition acvScoreAngle (g : Gauge.GaugeState N) : N :=
  scoreToAngle (Gauge.acvScore g) Gauge.MIN_SCORE Gauge.MAX_SCORE
               GAUGE_START_ANGLE GAUGE_RANGE.

(** The scale marks [[0, 10, 20, 30, 40, 50]] and the angle of each. *)
Definition scaleMarks : list N := map num_of_Z [0; 10; 20; 30; 40; 50]%Z.

Definition markAngle (mark : N) : N :=
  scoreToAngle mark Gauge.MIN_SCORE Gauge.MAX_SCORE GAUGE_START_ANGLE GAUGE_RANGE.

(** The conditions under which the coloured arc, the second (ACV) needle
    and the ACV label are drawn; [score] is the prop, [g] the state. *)
Definition showsGradientArc (score : option N) : bool :=
  match score with
  | Some s => (s >? Gauge.MIN_SCORE)%js
  | None => false
  end.

Definition showsAcvNeedle (score : option N) (g : Gauge.GaugeState N) : bool :=
  showsGradientArc score && (Gauge.clampedScore g >? Gauge.acvScore g)%js.

Definition showsAcvLabel (score : option N) (g : Gauge.GaugeState N) : bool :=
  match score with
  | Some _ => (Gauge.clampedScore g >? Gauge.acvScore g)%js
  | None => false
  end.

End WithNumbers.

End Needle.

(* ================================================================== *)
(** * The bar chart  (components/Macro5Visualization.tsx) *)

Module Macro5.

Section WithNumbers.
Context {N : Type} `{JsNumber N}.

Record Props : Type := mkProps {
  actualProtein : N;
  actualFiber : N;
  actualFat : N;
  actualSugar : N;
  actualTotalCarbs : N;
  balancedProtein : N;
  balancedFiber : N;
  balancedFat : N;
  balancedSugar : N;
  balancedTotalCarbs : N;
  anchorKey : option string;
  itemName : option string
}.

Record ChartDataPoint : Type := mkPoint {
  name : string;
  actual : N;
  balanced : N
}.

(** [Math.max(0, Number(x) || 0)] of a prop, which is a number. *)
Definition shown (x : N) : N :=
  Math_max (num_of_Z 0) (num_or x (num_of_Z 0)).

Definition data (p : Props) : list ChartDataPoint :=
  map (fun item => mkPoint (name item) (shown (actual item))
                           (shown (balanced item)))
      [ mkPoint "Protein" (actualProtein p) (balancedProtein p);
        mkPoint "Fiber" (actualFiber p) (balancedFiber p);
        mkPoint "Fat" (actualFat p) (balancedFat p);
        mkPoint "Sugar" (actualSugar p) (balancedSugar p);
        mkPoint "Total Carbs" (actualTotalCarbs p) (balancedTotalCarbs p) ].

Definition ACTUAL_BAR_COLOR : string := "#1d4ed8".
Definition BALANCED_BAR_COLOR : string := "#d97706".
Definition ANCHOR_BALANCED_COLOR : string := "#f97316".

(** [entry.name === anchorKey], [payload.value === anchorKey] *)
Definition isAnchor (value : string) (anchorKey : option string) : bool :=
  match anchorKey with
  | Some key => String.eqb value key
  | None => false
  end.

(** A bar's [Cell]. *)
Record Cell : Type := mkCell {
  fill : string;
  stroke : string;
  strokeWidth : nat
}.

Definition actualCell (entry : ChartDataPoint) (anchorKey : option string) : Cell :=
  mkCell ACTUAL_BAR_COLOR
         (if isAnchor (name entry) anchorKey then "black" else "none")
         (if isAnchor (name entry) anchorKey then 2 else 0).

Definition balancedCell (entry : ChartDataPoint) (anchorKey : option string) : Cell :=
  mkCell (if isAnchor (name entry) anchorKey
          then ANCHOR_BALANCED_COLOR else BALANCED_BAR_COLOR)
         (if isAnchor (name entry) anchorKey then "black" else "none")
         (if isAnchor (name entry) anchorKey then 2 else 0).

(** The axis label of a bar is bold when it is the anchor's. *)
Definition fontWeight (value : string) (anchorKey : option string) : string :=
  if isAnchor value anchorKey then "bold" else "normal".

End WithNumbers.

Arguments Props : clear implicits.
Arguments ChartDataPoint : clear implicits.

End Macro5.

(* ================================================================== *)
(** * Regular expressions *)

Module Regex.

#[local] Open Scope string_scope.

(** The expressions the sources' patterns are made of. *)
Inductive regex : Type :=
| Nothing                       (* matches no string *)
| Eps                           (* matches the empty string *)
| Chr (c : ascii)               (* a literal character *)
| Digit                         (* \d *)
| Cat (r1 r2 : regex)           (* r1 r2 *)
| Alt (r1 r2 : regex)           (* r1 | r2 *)
| Star (r : regex).             (* r* *)

(** [r?] *)
Definition Opt (r : regex) : regex := Alt r Eps.

Definition is_digit (c : ascii) : bool :=
  let n := nat_of_ascii c in (48 <=? n)%nat && (n <=? 57)%nat.

Fixpoint nullable (r : regex) : bool :=
  match r with
  | Nothing => false
  | Eps => true
  | Chr _ => false
  | Digit => false
  | Cat r1 r2 => nullable r1 && nullable r2
  | Alt r1 r2 => nullable r1 || nullable r2
  | Star _ => true
  end.

(** What is left of [r] to match once the character [c] has been read. *)
Fixpoint after (c : ascii) (r : regex) : regex :=
  match r with
  | Nothing => Nothing
  | Eps => Nothing
  | Chr d => if Ascii.eqb c d then Eps else Nothing
  | Digit => if is_digit c then Eps else Nothing
  | Cat r1 r2 =>
      if nullable r1 then Alt (Cat (after c r1) r2) (after c r2)
      else Cat (after c r1) r2
  | Alt r1 r2 => Alt (after c r1) (after c r2)
  | Star r1 => Cat (after c r1) (Star r1)
  end.

(** [/^r$/.test(s)]: the whole of [s] matches [r]. *)
Fixpoint test (r : regex) (s : string) : bool :=
  match s with
  | EmptyString => nullable r
  | String c rest => test (after c r) rest
  end.

(** The strings an expression matches. *)
Inductive matches : regex -> string -> Prop :=
| m_eps : matches Eps EmptyString
| m_chr c : matches (Chr c) (String c EmptyString)
| m_digit c : is_digit c = true -> matches Digit (String c EmptyString)
| m_cat r1 r2 s1 s2 :
    matches r1 s1 -> matches r2 s2 -> matches (Cat r1 r2) (s1 ++ s2)
| m_alt_l r1 r2 s : matches r1 s -> matches (Alt r1 r2) s
| m_alt_r r1 r2 s : matches r2 s -> matches (Alt r1 r2) s
| m_star_nil r : matches (Star r) EmptyString
| m_star_more r s1 s2 :
    matches r s1 -> matches (Star r) s2 -> matches (Star r) (s1 ++ s2).

End Regex.

(* ================================================================== *)
(** * The nutrition form  (components/NutritionForm.tsx) *)

Module NutritionForm.

#[local] Open Scope string_scope.

(** [keyof NutritionData], in the order of [Object.keys(formData)]. *)
Inductive Key : Type :=
| itemName | protein | fat | sugar | totalCarbs | fiber.

Definition keys : list Key := [itemName; protein; fat; sugar; totalCarbs; fiber].

Definition Key_eqb (a b : Key) : bool :=
  match a, b with
  | itemName, itemName | protein, protein | fat, fat | sugar, sugar
  | totalCarbs, totalCarbs | fiber, fiber => true
  | _, _ => false
  end.

(** [/^\d*\.?\d*$/] *)
Definition numeric : Regex.regex :=
  Regex.Cat (Regex.Star Regex.Digit)
            (Regex.Cat (Regex.Opt (Regex.Chr "."%char))
                       (Regex.Star Regex.Digit)).

(** A text made of digits and of at most [dots] dots. *)
Fixpoint digits_and_dots (dots : nat) (s : string) : bool :=
  match s with
  | EmptyString => true
  | String c rest =>
      if Regex.is_digit c then digits_and_dots dots rest
      else if Ascii.eqb c "."%char
           then match dots with
                | O => false
                | S fewer => digits_and_dots fewer rest
                end
           else false
  end.

(** [errors], a partial record of messages by key. *)
Definition Errors : Type := Key -> option string.

Definition no_errors : Errors := fun _ => None.

(** [{ ...prev, [name]: message }] *)
Definition with_error (name : Key) (message : option string) (prev : Errors)
  : Errors :=
  fun k => if Key_eqb k name then message else prev k.

Section WithNumbers.
Context {N : Type} `{JsNumber N}.

(** [formData[key]] *)
Definition field (key : Key) (d : App.NutritionData N) : App.FormValue N :=
  match key with
  | itemName => App.FStr (App.nd_itemName d)
  | protein => App.nd_protein d
  | fat => App.nd_fat d
  | sugar => App.nd_sugar d
  | totalCarbs => App.nd_totalCarbs d
  | fiber => App.nd_fiber d
  end.

(** [{ ...prev, [name]: value }] for the text [value] of an input. *)
Definition with_field (name : Key) (value : string) (prev : App.NutritionData N)
  : App.NutritionData N :=
  let v := App.FStr value in
  match name with
  | itemName =>
      App.mkNutrition value (App.nd_protein prev) (App.nd_fat prev)
        (App.nd_sugar prev) (App.nd_totalCarbs prev) (App.nd_fiber prev)
  | protein =>
      App.mkNutrition (App.nd_itemName prev) v (App.nd_fat prev)
        (App.nd_sugar prev) (App.nd_totalCarbs prev) (App.nd_fiber prev)
  | fat =>
      App.mkNutrition (App.nd_itemName prev) (App.nd_protein prev) v
        (App.nd_sugar prev) (App.nd_totalCarbs prev) (App.nd_fiber prev)
  | sugar =>
      App.mkNutrition (App.nd_itemName prev) (App.nd_protein prev)
        (App.nd_fat prev) v (App.nd_totalCarbs prev) (App.nd_fiber prev)
  | totalCarbs =>
      App.mkNutrition (App.nd_itemName prev) (App.nd_protein prev)
        (App.nd_fat prev) (App.nd_sugar prev) v (App.nd_fiber prev)
  | fiber =>
      App.mkNutrition (App.nd_itemName prev) (App.nd_protein prev)
        (App.nd_fat prev) (App.nd_sugar prev) (App.nd_totalCarbs prev) v
  end.

(** The component's two [useState] cells. *)
Record FormState : Type := mkForm {
  formData : App.NutritionData N;
  errors : Errors
}.

(** The form as it is mounted with no [initialData]. *)
Definition blank : FormState :=
  mkForm (App.mkNutrition "" (App.FStr "") (App.FStr "") (App.FStr "")
                          (App.FStr "") (App.FStr ""))
         no_errors.

(** [if (errors[name]) setErrors(prev => ({ ...prev, [name]: undefined }))] *)
Definition clear_error (name : Key) (shown : Errors) (st : FormState) : FormState :=
  if Display.truthy_text (shown name)
  then mkForm (formData st) (with_error name None (errors st))
  else st.

(** [handleChange], for the input of name [name] holding the text [value]. *)
Definition handleChange (name : Key) (value : string) (st : FormState)
  : FormState :=
  match name with
  | itemName =>
      clear_error name (errors st)
        (mkForm (with_field name value (formData st)) (errors st))
  | _ =>
      if Regex.test numeric value || String.eqb value ""
      then clear_error name (errors st)
             (mkForm (with_field name value (formData st)) (errors st))
      else st
  end.

(** The changes [events], applied in order, with no change of
    [initialData] in between (the effect on [initialData] resets the
    form's data from the page's draft). *)
Definition handleChanges (events : list (Key * string)) (st : FormState)
  : FormState :=
  fold_left (fun st event => handleChange (fst event) (snd event) st) events st.

(** Every field but the name holds a text of digits with at most one dot. *)
Definition numeric_fields (d : App.NutritionData N) : Prop :=
  forall key, key <> itemName ->
    exists text, field key d = App.FStr text /\ digits_and_dots 1 text = true.

(** [isNaN(x)] of a number: NaN is the one number that is not [<=] itself. *)
Definition isNaN (x : N) : bool := negb (x <=? x)%js.

Section WithConversion.

(** [Number(text)], the conversion of a string to a number. *)
Variable StringToNumber : string -> N.

(** [Number(value)] of a form value. *)
Definition Number (value : App.FormValue N) : N :=
  match value with
  | App.FNum n => n
  | App.FStr s => StringToNumber s
  end.

(** The message [validateForm] records for a field other than the name. *)
Definition complaint (value : App.FormValue N) : option string :=
  match value with
  | App.FStr EmptyString => Some "This field is required."
  | _ =>
      if isNaN (Number value) || (Number value <? num_of_Z 0)%js
      then Some "Must be a non-negative number."
      else None
  end.

Definition newErrors (d : App.NutritionData N) : Errors :=
  fun key =>
    match key with
    | itemName => None
    | _ => complaint (field key d)
    end.

(** [validateForm]: the state after [setErrors(newErrors)], and [isValid]. *)
Definition validateForm (st : FormState) : FormState * bool :=
  (mkForm (formData st) (newErrors (formData st)),
   forallb (fun key => match newErrors (formData st) key with
                       | None => true
                       | Some _ => false
                       end) keys).

Definition submittedData (d : App.NutritionData N) : App.NutritionData N :=
  App.mkNutrition (Js.str_or (App.nd_itemName d) "Unnamed Item")
    (App.FNum (Number (App.nd_protein d)))
    (App.FNum (Number (App.nd_fat d)))
    (App.FNum (Number (App.nd_sugar d)))
    (App.FNum (Number (App.nd_totalCarbs d)))
    (App.FNum (Number (App.nd_fiber d))).

(** [handleSubmit]: the state it leaves, and what it passes to [onSubmit],
    if it calls it. *)
Definition handleSubmit (st : FormState)
  : FormState * option (App.NutritionData N) :=
  let (st', isValid) := validateForm st in
  if isValid then (st', Some (submittedData (formData st)))
  else (st', None).

End WithConversion.

(** [handleAutoFillClick]: the state it leaves, and the name it passes to
    [onAutoFill], if it calls it. *)
Definition handleAutoFillClick (isLookingUp : bool) (st : FormState)
  : FormState * option string :=
  let named := negb (Js.trim_is_empty (App.nd_itemName (formData st))) in
  if negb isLookingUp && named
  then (st, Some (App.nd_itemName (formData st)))
  else if negb named
       then (mkForm (formData st)
                    (with_error itemName
                       (Some "Please enter an item name first.") (errors st)),
             None)
       else (st, None).

End WithNumbers.

Arguments FormState : clear implicits.

End NutritionForm.

(* ================================================================== *)
(** * The page, continued  (pages/App.tsx) *)

Module Page.

#[local] Open Scope string_scope.

(** [s.trim()]: the white space at the start is cut character by
    character; at the end, the string is kept up to the point from which
    nothing but white space follows. *)
Fixpoint trimStart (s : string) : string :=
  match s with
  | EmptyString => EmptyString
  | String c1 rest1 =>
      if Js.is_space c1 then trimStart rest1
      else
        match rest1 with
        | String c2 rest2 =>
            if Js.is_space2 c1 c2 then trimStart rest2
            else
              match rest2 with
              | String c3 rest3 =>
                  if Js.is_space3 c1 c2 c3 then trimStart rest3 else s
              | EmptyString => s
              end
        | EmptyString => s
        end
  end.

Fixpoint trimEnd (s : string) : string :=
  if Js.trim_is_empty s then EmptyString
  else
    match s with
    | EmptyString => EmptyString
    | String c rest => String c (trimEnd rest)
    end.

Definition trim (s : string) : string := trimEnd (trimStart s).

Section WithNumbers.
Context {N : Type} `{JsNumber N}.

(** The page: the state of [App] modelled so far, the cart store, and the
    [useState] cells of the submission and of the voice input. *)
Record PageState : Type := mkPage {
  app : App.AppState N;
  cart : CartStore.CartState N;
  isSubmittingItem : bool;
  submissionError : option string;
  isListening : bool;
  transcript : string;
  voiceError : option string
}.

Definition initial : PageState :=
  mkPage App.initial CartStore.initial false None false "" None.

Definition with_app (a : App.AppState N) (st : PageState) : PageState :=
  mkPage a (cart st) (isSubmittingItem st) (submissionError st)
         (isListening st) (transcript st) (voiceError st).
Definition with_cart (c : CartStore.CartState N) (st : PageState) : PageState :=
  mkPage (app st) c (isSubmittingItem st) (submissionError st)
         (isListening st) (transcript st) (voiceError st).
Definition setIsSubmittingItem (v : bool) (st : PageState) : PageState :=
  mkPage (app st) (cart st) v (submissionError st)
         (isListening st) (transcript st) (voiceError st).
Definition setSubmissionError (v : option string) (st : PageState) : PageState :=
  mkPage (app st) (cart st) (isSubmittingItem st) v
         (isListening st) (transcript st) (voiceError st).
Definition setIsListening (v : bool) (st : PageState) : PageState :=
  mkPage (app st) (cart st) (isSubmittingItem st) (submissionError st)
         v (transcript st) (voiceError st).
Definition setTranscript (v : string) (st : PageState) : PageState :=
  mkPage (app st) (cart st) (isSubmittingItem st) (submissionError st)
         (isListening st) v (voiceError st).

(** ** [handleAnalyzeAndAddToCart] *)

(** [ocrResultData?.servings ?? 1] *)
Definition draftServings (a : App.AppState N) : N :=
  match App.ocrResultData a with
  | Some d =>
      match App.servings d with
      | Some v => v
      | None => num_of_Z 1
      end
  | None => num_of_Z 1
  end.

(** [(ocrResultData?.servings ?? 1) > 0 ? (ocrResultData?.servings ?? 1) : 1] *)
Definition servings (a : App.AppState N) : N :=
  if (draftServings a >? num_of_Z 0)%js then draftServings a else num_of_Z 1.

(** Cart item data, multiplied by servings. *)
Definition multipliedMacros (data : App.NutritionData N) (servings : N)
  : CartStore.MacroNutrients N :=
  (CartStore.mkMacros
     (App.number_or_0 (App.nd_protein data) * servings)
     (App.number_or_0 (App.nd_fat data) * servings)
     (App.number_or_0 (App.nd_totalCarbs data) * servings)
     (App.number_or_0 (App.nd_fiber data) * servings)
     (App.number_or_0 (App.nd_sugar data) * servings))%js.

Definition cartItem (data : App.NutritionData N) (a : App.AppState N)
  : CartStore.ItemData N :=
  CartStore.mkItemData (Js.str_or (App.nd_itemName data) "Unnamed Item")
                       (Some (multipliedMacros data (servings a))) None.

(** The draft the submitted data leaves, so that the graph can display
    it.  The form's data carries no [servings] of its own. *)
Definition formDataForOcrState (data : App.NutritionData N) (a : App.AppState N)
  : App.OcrData N :=
  App.mkOcrData (Js.str_or (App.nd_itemName data) "Manually Added Item")
    (App.nd_protein data) (App.nd_fat data) (App.nd_totalCarbs data)
    (App.nd_fiber data) (App.nd_sugar data) (Some (draftServings a)).

(** The handler run to its end: the single-item scoring call is awaited,
    then the item is added to the cart, which leaves the cart's own scoring
    call in flight.  [now] is the reading of [Date.now()] in [addItem]. *)
Definition handleAnalyzeAndAddToCart
  (service : CartStore.CalculationRequest N -> App.ScoreOutcome N)
  (now : Z) (data : App.NutritionData N) (st : PageState)
  : PageState * option (CartStore.Pending N) :=
  let before := app st in
  let st := setIsSubmittingItem true st in
  let st := setSubmissionError None st in
  let a := App.setIndividualItemScore None (app st) in
  let a := App.setCalculationItemError None a in
  let a := App.setOcrResultData (Some (formDataForOcrState data before)) a in
  let a := App.calculateIndividualScore service data
             (CartStore.anchorKey (cart st)) a in
  (* runs even if individual calc failed *)
  let (c, pending) := CartStore.addItem now (cartItem data before) (cart st) in
  (setIsSubmittingItem false (with_cart c (with_app a st)), pending).

(** ** The lookup flow: [handleAutoFillRequest]

    The flow is modelled up to the request it sends: the guard on the
    name, the statements before the [try], and the [fetch] that the
    request code starts with.  From there on the source text is not well
    formed: a second, partly duplicated copy of the request code stands
    inside the [try], and the handling of the response that follows it
    refers to names of the first copy.  What the flow does with the answer
    is therefore not modelled.  The function returns the state it leaves
    and the [food_name] of the request it has sent, if any. *)

Definition handleAutoFillRequest_begin (itemName : string) (a : App.AppState N)
  : App.AppState N * option string :=
  if Js.trim_is_empty itemName then (a, None)
  else
    let a := App.setIsLookingUp true a in
    let a := App.setLookupError None a in
    let a := App.setOcrResultData None a in      (* Clear previous OCR/lookup results *)
    let a := App.setIndividualItemScore None a in
    let a := App.setCalculationItemError None a in
    (a, Some itemName).                          (* { food_name: itemName } *)

(** ** Voice input: the recognition's [onresult] handler.  It returns the
    state it leaves and the lookup requests it has started, in order. *)

Definition started (request : option string) : list string :=
  match request with
  | Some food_name => [food_name]
  | None => []
  end.

Definition onresult (currentTranscript : string) (st : PageState)
  : PageState * list string :=
  let st := setTranscript currentTranscript st in
  let (a1, first) := handleAutoFillRequest_begin currentTranscript (app st) in
  let (a2, second) :=
    if negb (Js.trim_is_empty currentTranscript)
    then handleAutoFillRequest_begin (trim currentTranscript) a1
    else (a1, None) in
  (setIsListening false (with_app a2 st), (started first ++ started second)%list).

(** ** The crop zone of [handleCapture] *)

Definition CROP_ZONE_X_PERCENT : N := dec 1 10.
Definition CROP_ZONE_Y_PERCENT : N := dec 3 10.
Definition CROP_ZONE_WIDTH_PERCENT : N := dec 8 10.
Definition CROP_ZONE_HEIGHT_PERCENT : N := dec 4 10.

Record CropZone : Type := mkCrop { sx : N; sy : N; sWidth : N; sHeight : N }.

Definition cropZone (videoWidth videoHeight : N) : CropZone :=
  (mkCrop (videoWidth * CROP_ZONE_X_PERCENT)
          (videoHeight * CROP_ZONE_Y_PERCENT)
          (videoWidth * CROP_ZONE_WIDTH_PERCENT)
          (videoHeight * CROP_ZONE_HEIGHT_PERCENT))%js.

(** ** What the page hands to the two bar charts *)

(** The single item's chart, drawn when there is a draft and a score and
    no scoring call is running. *)
Definition singleItemChart (a : App.AppState N) : option (Macro5.Props N) :=
  match App.ocrResultData a, App.individualItemScore a with
  | Some d, Some _ =>
      if negb (App.isCalculatingItem a)
      then
        let balanced f :=
          match App.individualBalancedMacros a with
          | Some m => f m
          | None => num_of_Z 0
          end in
        Some (Macro5.mkProps
                (App.number_or_0 (App.protein d))
                (App.number_or_0 (App.fiber d))
                (App.number_or_0 (App.fat d))
                (App.number_or_0 (App.sugar d))
                (App.number_or_0 (App.totalCarbs d))
                (balanced (@CartStore.protein N))
                (balanced (@CartStore.fiber N))
                (balanced (@CartStore.fat N))
                (balanced (@CartStore.sugar N))
                (balanced (@CartStore.total_carbs N))
                (Some (App.singleItemAnchorKey a))
                (Some (Js.str_or (App.itemName d) "Analyzed Item")))
      else None
  | _, _ => None
  end.

(** The cart's chart, drawn when the cart holds items and totals. *)
Definition cartChart (s : CartStore.CartState N) : option (Macro5.Props N) :=
  match CartStore.items s, CartStore.cartTotals s with
  | _ :: _, Some t =>
      let input := CartStore.input_data (CartStore.response t) in
      let balanced := CartStore.balanced_macros (CartStore.response t) in
      Some (Macro5.mkProps
              (CartStore.protein input) (CartStore.fiber input)
              (CartStore.fat input) (CartStore.sugar input)
              (CartStore.total_carbs input)
              (CartStore.protein balanced) (CartStore.fiber balanced)
              (CartStore.fat balanced) (CartStore.sugar balanced)
              (CartStore.total_carbs balanced)
              (Some (CartStore.anchorKey s))
              (Some "Combined Cart"))
  | _, _ => None
  end.

(** The alert "Cart Calculation Error".  It stands inside the card
    "Combined Cart Analysis", which is drawn when the cart holds items and
    totals, and is drawn there when [cartError] is set and not empty; the
    page displays [cartError] nowhere else. *)
Definition cartErrorAlert (s : CartStore.CartState N) : option string :=
  match CartStore.items s, CartStore.cartTotals s with
  | _ :: _, Some _ =>
      match CartStore.error s with
      | Some message => if String.eqb message "" then None else Some message
      | None => None
      end
  | _, _ => None
  end.

End WithNumbers.

Arguments PageState : clear implicits.
Arguments CropZone : clear implicits.

End Page.

(* ================================================================== *)
(** * Conditions of the cart that the theorems below speak of *)

Module Invariants.

Section WithNumbers.
Context {N : Type} `{JsNumber N}.

(** What a scoring call is started for: the items and the anchor of the
    store as they stand. *)
Definition request_for (s : CartStore.CartState N) : CartStore.Pending N :=
  CartStore.mkPending
    (CartStore.mkRequest (CartStore.aggregate (CartStore.items s))
                         (CartStore.anchorKey s))
    (CartStore.items s).

(** The condition an action leaves the store and its scoring call in. *)
Definition left_in_order (r : CartStore.CartState N * option (CartStore.Pending N))
  : Prop :=
  match CartStore.items (fst r) with
  | [] => CartStore.cartTotals (fst r) = None /\ snd r = None
  | _ :: _ =>
      CartStore.error (fst r) = None /\ snd r = Some (request_for (fst r))
  end.

(** Items added one after the other, each at its own reading of the clock. *)
Definition addItems (events : list (Z * CartStore.ItemData N))
  (s : CartStore.CartState N) : CartStore.CartState N :=
  fold_left (fun s event => fst (CartStore.addItem (fst event) (snd event) s))
            events s.

End WithNumbers.

(** A text with no capital letter of the ASCII alphabet. *)
Fixpoint no_capital (s : string) : bool :=
  match s with
  | EmptyString => true
  | String c rest =>
      let n := nat_of_ascii c in
      negb ((65 <=? n)%nat && (n <=? 90)%nat) && no_capital rest
  end.

(** In exact arithmetic: no nutrient and no quantity is negative. *)
Definition nonnegative (m : CartStore.MacroNutrients Q) : Prop :=
  0 <= CartStore.protein m /\ 0 <= CartStore.fat m
  /\ 0 <= CartStore.total_carbs m /\ 0 <= CartStore.fiber m
  /\ 0 <= CartStore.sugar m.

Definition sound_macros (m : option (CartStore.MacroNutrients Q)) : Prop :=
  match m with
  | Some v => nonnegative v
  | None => True
  end.

Definition sound_quantity (q : option Q) : Prop :=
  match q with
  | Some v => 0 <= v
  | None => True
  end.

Definition sound_item (item : CartStore.CartItem Q) : Prop :=
  sound_macros (CartStore.macros item) /\ sound_quantity (CartStore.quantity item).

Definition sound (s : CartStore.CartState Q) : Prop :=
  Forall sound_item (CartStore.items s).

End Invariants.

(* ================================================================== *)
(** * A form, typed and submitted, in exact arithmetic *)

Module Scenario.

#[local] Open Scope string_scope.

(** A conversion of the texts the form lets through: the decimal a text
    spells, and 0 for the empty text and for a lone dot. *)
Definition read (text : string) : Q := App.number_or_0 (App.FStr text).

(** The blank form after a name and five amounts have been typed. *)
Definition typed_form : NutritionForm.FormState Q :=
  NutritionForm.handleChanges
    [ (NutritionForm.itemName, "Porridge"); (NutritionForm.protein, "10");
      (NutritionForm.fat, "5"); (NutritionForm.sugar, "5");
      (NutritionForm.totalCarbs, "20"); (NutritionForm.fiber, "2.5") ]
    NutritionForm.blank.

(** A cart of one item, counted twice. *)
Definition cart_of_one : CartStore.CartState Q :=
  CartStore.mkCart
    [ CartStore.mkItem "1" "Oats"
        (Some (CartStore.mkMacros 10 5 20 2 5)) (Some 2) ]
    None "protein" None.

(** A scoring service that answers every request with the score 20,
    echoing the nutrients it was sent. *)
Definition scores_20 (request : CartStore.CalculationRequest Q)
  : App.ScoreOutcome Q :=
  App.Scored
    (CartStore.mkResponse (Some 20) (CartStore.aggregated_input_data request)
       (CartStore.aggregated_input_data request) 1 "Caution" "#d3a00f").

End Scenario.

(* ================================================================== *)
(** * Concrete carts and drafts, in binary64 *)

Module Sample.

Import CartStore.
#[local] Open Scope string_scope.

(** Whole grams. *)
Definition g (z : Z) : float := num_of_Z z.

Definition oats : ItemData float :=
  mkItemData "Oats" (Some (mkMacros (g 10) (g 5) (g 20) (g 2) (g 5))) None.

Definition milk : ItemData float :=
  mkItemData "Milk" (Some (mkMacros (g 5) (g 2) (g 10) (g 1) (g 2))) None.

(** The two items of the specification's end-to-end scenario. *)
Definition first_item : CartItem float :=
  mkItem "1" "first" (Some (mkMacros (g 10) (g 5) (g 20) (g 2) (g 5)))
         (Some (g 1)).

Definition second_item : CartItem float :=
  mkItem "2" "second" (Some (mkMacros (g 5) (g 2) (g 10) (g 1) (g 2)))
         (Some (g 2)).

(** An item all of whose nutrients weigh [n/10] grams. *)
Definition tenths (n : Z) : CartItem float :=
  let x := dec n 10 in
  mkItem (Js.toString n) "pinch" (Some (mkMacros x x x x x)) None.

(** A cart holding oats, added at the clock reading 1700000000000. *)
Definition one_item_cart : CartState float :=
  fst (addItem 1700000000000 oats initial).

(** A scoring service that answers every request, echoing the vector it
    was sent and naming the anchor it was asked for in [tier_label]. *)
Definition echo : Service float :=
  fun request =>
    Fulfilled
      (mkResponse (Some (g 20)) (aggregated_input_data request)
                  (aggregated_input_data request) (g 1)
                  (anchor_id request) "#000000").

(** A scoring service that is down. *)
Definition down : Service float :=
  fun _ => Rejected (ErrorObject "Failed to fetch").

(** The same two services as the page sees them. *)
Definition page_echo (request : CalculationRequest float) : App.ScoreOutcome float :=
  match echo request with
  | Fulfilled resultData => App.Scored resultData
  | Rejected thrown => App.ScoreFailed (errorMessage thrown)
  end.

Definition page_down (request : CalculationRequest float) : App.ScoreOutcome float :=
  App.ScoreFailed "Failed to fetch".

(** What the form submits for a bowl of porridge. *)
Definition porridge : App.NutritionData float :=
  App.mkNutrition "Porridge" (App.FNum (g 10)) (App.FNum (g 5))
                  (App.FNum (g 5)) (App.FNum (g 20)) (App.FNum (g 2)).

(** A draft left by an earlier scan. *)
Definition scanned_draft : App.OcrData float :=
  App.mkOcrData "Scanned Item" (App.FStr "10") (App.FStr "5") (App.FStr "20")
                (App.FStr "2") (App.FStr "5") (Some (g 2)).

(** The cart of oats after its totals have arrived and a recalculation
    for the anchor "fat" has then failed. *)
Definition failed_cart : CartState float :=
  let scored := calculateTotals echo one_item_cart in
  let (s, p) := setAnchorKey "fat" scored in
  deliver down p s.

End Sample.

(* ================================================================== *)
(** * Facts about the cart store *)

Section CartStoreFacts.
Context {N : Type} `{JsNumber N}.
Import CartStore.

Lemma set_items_frame (v : list (CartItem N)) (s : CartState N) :
  items (set_items v s) = v /\ cartTotals (set_items v s) = cartTotals s
  /\ anchorKey (set_items v s) = anchorKey s /\ error (set_items v s) = error s.
Proof. repeat split. Qed.

Lemma calculateTotals_begin_items (s : CartState N) :
  items (fst (calculateTotals_begin s)) = items s.
Proof.
  unfold calculateTotals_begin; simpl.
  destruct (items s) eqn:E; simpl; auto.
Qed.

Lemma calculateTotals_begin_anchorKey (s : CartState N) :
  anchorKey (fst (calculateTotals_begin s)) = anchorKey s.
Proof.
  unfold calculateTotals_begin; simpl.
  destruct (items s); reflexivity.
Qed.

(** The request left in flight carries the aggregate of the items and the
    store's [anchorKey] as it stands. *)
Lemma calculateTotals_begin_request (s : CartState N) (p : Pending N) :
  snd (calculateTotals_begin s) = Some p ->
  requestBody p = mkRequest (aggregate (items s)) (anchorKey s)
  /\ snapshot p = items s.
Proof.
  unfold calculateTotals_begin; simpl.
  destruct (items s); simpl; intros E; [discriminate|].
  injection E as <-. split; reflexivity.
Qed.

Lemma calculateTotals_begin_pending (s : CartState N) :
  items s <> [] -> exists p, snd (calculateTotals_begin s) = Some p.
Proof.
  unfold calculateTotals_begin; simpl.
  destruct (items s); simpl; intros E; [contradiction|].
  eexists; reflexivity.
Qed.

Lemma accumulate_contribution (acc : MacroNutrients N) (item : CartItem N) :
  accumulate acc item = vadd acc (contribution item).
Proof. reflexivity. Qed.

Lemma fold_accumulate (l : list (CartItem N)) (acc : MacroNutrients N) :
  fold_left accumulate l acc = fold_left vadd (map contribution l) acc.
Proof.
  revert acc; induction l as [|item l IH]; intros acc; simpl.
  - reflexivity.
  - rewrite IH, accumulate_contribution. reflexivity.
Qed.

Lemma aggregate_element_wise_sum (l : list (CartItem N)) :
  aggregate l = element_wise_sum l.
Proof. apply fold_accumulate. Qed.

Lemma aggregate_snoc (l : list (CartItem N)) (item : CartItem N) :
  aggregate (l ++ [item]) = vadd (aggregate l) (contribution item).
Proof.
  unfold aggregate. rewrite fold_left_app. simpl.
  apply accumulate_contribution.
Qed.

Lemma counted_quantity_cases (item : CartItem N) :
  counted_quantity item =
  match quantity item with
  | Some q => if num_truthy q then q else num_of_Z 1
  | None => num_of_Z 1
  end.
Proof. unfold counted_quantity, opt_or, num_or. destruct (quantity item); reflexivity. Qed.

Lemma updateItemQuantity_items (itemId : string) (q : N) (s : CartState N) :
  items (fst (updateItemQuantity itemId q s)) =
  map (fun item =>
         if String.eqb (id item) itemId
         then mkItem (id item) (name item) (macros item)
                     (Some (Math_max (num_of_Z 0) q))
         else item) (items s).
Proof. unfold updateItemQuantity. rewrite calculateTotals_begin_items. reflexivity. Qed.

Lemma updateItemQuantity_ids (itemId : string) (q : N) (s : CartState N) :
  map id (items (fst (updateItemQuantity itemId q s))) = map id (items s).
Proof.
  rewrite updateItemQuantity_items, map_map.
  apply map_ext; intros item. destruct (String.eqb (id item) itemId); reflexivity.
Qed.

Lemma updateItemQuantity_stored (itemId : string) (q : N) (s : CartState N)
  (item : CartItem N) :
  In item (items (fst (updateItemQuantity itemId q s))) ->
  id item = itemId ->
  quantity item = Some (Math_max (num_of_Z 0) q).
Proof.
  rewrite updateItemQuantity_items, in_map_iff.
  intros (old & E & _) Hid.
  destruct (String.eqb (id old) itemId) eqn:B; subst item; simpl in *.
  - reflexivity.
  - apply String.eqb_neq in B. contradiction.
Qed.

Lemma addItem_items (now : Z) (d : ItemData N) (s : CartState N) :
  items (fst (addItem now d s)) =
  items s ++ [mkItem (Js.toString now) (data_name d) (data_macros d)
                     (data_quantity d)].
Proof. unfold addItem. rewrite calculateTotals_begin_items. reflexivity. Qed.

Lemma removeItem_items (itemId : string) (s : CartState N) :
  items (fst (removeItem itemId s)) =
  filter (fun item => negb (String.eqb (id item) itemId)) (items s).
Proof.
  unfold removeItem.
  destruct (0 <? _)%nat; [rewrite calculateTotals_begin_items|]; reflexivity.
Qed.

Lemma setAnchorKey_items (key : string) (s : CartState N) :
  items (fst (setAnchorKey key s)) = items s.
Proof. unfold setAnchorKey. rewrite calculateTotals_begin_items. reflexivity. Qed.

Lemma calculateTotals_settle_items (p : Pending N) (o : Outcome N) (s : CartState N) :
  items (calculateTotals_settle p o s) = items s.
Proof. destruct o; reflexivity. Qed.

(** A rejected call writes [error] and nothing else. *)
Lemma calculateTotals_settle_rejected (p : Pending N) (t : Thrown) (s : CartState N) :
  cartTotals (calculateTotals_settle p (Rejected t) s) = cartTotals s
  /\ anchorKey (calculateTotals_settle p (Rejected t) s) = anchorKey s
  /\ exists m, error (calculateTotals_settle p (Rejected t) s) = Some m.
Proof. repeat split. eexists; reflexivity. Qed.

(** A fulfilled call writes [cartTotals], whatever the store holds by then. *)
Lemma calculateTotals_settle_fulfilled (p : Pending N)
  (r : CastleVerdeIndexResponse N) (s : CartState N) :
  cartTotals (calculateTotals_settle p (Fulfilled r) s)
  = Some (mkTotals r (List.length (snapshot p))).
Proof. reflexivity. Qed.

End CartStoreFacts.

(* ================================================================== *)
(** * The aggregate in exact arithmetic *)

Section ExactAggregate.
Import CartStore.

(** On the rationals of the standard library addition is commutative and
    associative up to equality of representations, not only up to [==]. *)
Lemma Qplus_comm_eq (a b : Q) : Qplus a b = Qplus b a.
Proof.
  destruct a as [an ad], b as [bn bd]. unfold Qplus; simpl.
  f_equal; [ring | apply Pos.mul_comm].
Qed.

Lemma Qplus_assoc_eq (a b c : Q) : Qplus (Qplus a b) c = Qplus a (Qplus b c).
Proof.
  destruct a as [an ad], b as [bn bd], c as [cn cd]. unfold Qplus; simpl.
  f_equal.
  - rewrite !Pos2Z.inj_mul. ring.
  - symmetry. apply Pos.mul_assoc.
Qed.

Lemma vadd_comm_exact (a b : MacroNutrients Q) : vadd a b = vadd b a.
Proof. unfold vadd; simpl. f_equal; apply Qplus_comm_eq. Qed.

Lemma vadd_assoc_exact (a b c : MacroNutrients Q) :
  vadd (vadd a b) c = vadd a (vadd b c).
Proof. unfold vadd; simpl. f_equal; apply Qplus_assoc_eq. Qed.

Lemma fold_vadd_permutation (l l' : list (MacroNutrients Q)) :
  Permutation l l' -> forall acc, fold_left vadd l acc = fold_left vadd l' acc.
Proof.
  induction 1 as [|x l l' _ IH|x y l|l l' l'' _ IH1 _ IH2]; intros acc; simpl.
  - reflexivity.
  - apply IH.
  - f_equal. rewrite !vadd_assoc_exact. f_equal. apply vadd_comm_exact.
  - rewrite IH1. apply IH2.
Qed.

Lemma aggregate_permutation_exact (l l' : list (CartItem Q)) :
  Permutation l l' -> aggregate l = aggregate l'.
Proof.
  intros P. rewrite !aggregate_element_wise_sum. unfold element_wise_sum.
  apply fold_vadd_permutation, Permutation_map, P.
Qed.

Lemma truthy_exact (q : Q) : num_truthy q = false <-> q == 0.
Proof.
  simpl. unfold Exact.truthy. rewrite negb_false_iff. apply Qeq_bool_iff.
Qed.

Lemma counted_quantity_zero_exact (item : CartItem Q) (q : Q) :
  quantity item = Some q -> q == 0 -> counted_quantity item = 1.
Proof.
  intros E Z. rewrite counted_quantity_cases, E.
  apply truthy_exact in Z. rewrite Z. reflexivity.
Qed.

Lemma Math_max_0_exact (q : Q) : 0 <= Math_max (num_of_Z 0) q.
Proof.
  simpl. unfold Exact.max.
  destruct (Qle_bool (inject_Z 0) q) eqn:E.
  - apply Qle_bool_iff in E. exact E.
  - apply Qle_refl.
Qed.

End ExactAggregate.

(* ================================================================== *)
(** * Item identity *)

Section Identity.
Context {N : Type} `{JsNumber N}.
Import CartStore.

Lemma toString_injective (m n : Z) : Js.toString m = Js.toString n -> m = n.
Proof.
  unfold Js.toString. intros E.
  apply (f_equal NilEmpty.int_of_string) in E.
  rewrite !NilEmpty.isi in E. injection E as E.
  apply (f_equal Z.of_int) in E. rewrite !DecimalZ.of_to in E. exact E.
Qed.

(** [addItem] leaves the items already in the cart as they are and puts the
    new one, with the clock reading as its id, after them. *)
Lemma addItem_keeps_existing (now : Z) (d : ItemData N) (s : CartState N) :
  exists newItem,
    items (fst (addItem now d s)) = items s ++ [newItem]
    /\ id newItem = Js.toString now.
Proof. eexists. rewrite addItem_items. split; reflexivity. Qed.

(** The ids stay pairwise distinct when the clock reading is not the id of
    an item already in the cart. *)
Lemma addItem_NoDup (now : Z) (d : ItemData N) (s : CartState N) :
  NoDup (map id (items s)) ->
  ~ In (Js.toString now) (map id (items s)) ->
  NoDup (map id (items (fst (addItem now d s)))).
Proof.
  intros ND fresh. rewrite addItem_items, map_app. simpl.
  apply NoDup_app; [exact ND|repeat constructor; intros []|].
  intros x Hx [<-|[]]. exact (fresh Hx).
Qed.

(** No action rewrites the id of an item: [updateItemQuantity] keeps the
    list of ids, [removeItem] keeps a sub-list of the items, and the
    settling of a scoring call and [setAnchorKey] keep the items. *)
Lemma ids_are_stable (s : CartState N) :
  (forall itemId q, map id (items (fst (updateItemQuantity itemId q s)))
                    = map id (items s))
  /\ (forall itemId item, In item (items (fst (removeItem itemId s)))
                          -> In item (items s))
  /\ (forall key, items (fst (setAnchorKey key s)) = items s)
  /\ (forall p o, items (calculateTotals_settle p o s) = items s).
Proof.
  repeat split.
  - intros; apply updateItemQuantity_ids.
  - intros itemId item. rewrite removeItem_items, filter_In. tauto.
  - intros; apply setAnchorKey_items.
  - intros; apply calculateTotals_settle_items.
Qed.

End Identity.

Section IdentityClaims.
Import CartStore Sample.

(** C9: two [addItem] calls that read the same value of [Date.now()] give
    their items the same id, so the ids in the cart are not pairwise
    distinct. *)
Theorem C9_same_clock_reading_same_id :
  let s1 := fst (addItem 1700000000000 oats initial) in
  let s2 := fst (addItem 1700000000000 milk s1) in
  map (@id float) (items s2) = ["1700000000000"; "1700000000000"]%string
  /\ map (@name float) (items s2) = ["Oats"; "Milk"]%string
  /\ ~ NoDup (map (@id float) (items s2)).
Proof.
  cbv zeta. split; [vm_compute; reflexivity|]. split; [vm_compute; reflexivity|].
  intros ND. vm_compute in ND. inversion ND as [|x l notin _]; subst.
  apply notin. left; reflexivity.
Qed.

End IdentityClaims.

(* ================================================================== *)
(** * Scoring calls: what is sent, and what a response does *)

Section PageFacts.
Context {N : Type} `{JsNumber N}.
Import CartStore App.

Lemma str_or_nonempty (s d : string) : d <> EmptyString -> Js.str_or s d <> EmptyString.
Proof. destruct s; simpl; [auto|discriminate]. Qed.

(** The single-item request carries the anchor key it is given, as it is. *)
Lemma individualRequest_anchor_id (nutritionInput : NutritionData N) (key : string) :
  anchor_id (individualRequest nutritionInput key) = key.
Proof. reflexivity. Qed.

(** The balanced-macro request carries the mapped single-item anchor key. *)
Lemma balanceRequest_anchor_id (d : OcrData N) (key : string) :
  anchor_id (balanceRequest d key) = mapAnchorKeyToApiValue key.
Proof. reflexivity. Qed.

(** After a failed single-item call the score is null and the error is set. *)
Lemma calculateIndividualScore_settle_failed (message : string) (a : AppState N) :
  let after := calculateIndividualScore_settle (ScoreFailed message) a in
  individualItemScore after = None
  /\ calculationItemError after
     = Some (Js.str_or message "An unexpected error occurred during calculation.")
  /\ isCalculatingItem after = false
  /\ ocrResultData after = ocrResultData a.
Proof. repeat split. Qed.

Lemma calculateIndividualScore_begin_clears (a : AppState N) :
  individualItemScore (calculateIndividualScore_begin a) = None
  /\ ocrResultData (calculateIndividualScore_begin a) = ocrResultData a.
Proof. split; reflexivity. Qed.

(** A failed scan: the draft is null, the scan's error is set, the busy
    flag is down, and the single-item score and the lookup's state are as
    they were. *)
Lemma processCapturedImage_failed (message : string) (a : AppState N) :
  let after := processCapturedImage (OcrFailed message) a in
  ocrResultData after = None
  /\ ocrError after
     = Some (Js.str_or message
               "Failed to process the image due to an unexpected error.")
  /\ isProcessingOcr after = false
  /\ capturedImage after = None
  /\ individualItemScore after = individualItemScore a
  /\ calculationItemError after = calculationItemError a
  /\ lookupError after = lookupError a
  /\ individualBalancedMacros after = individualBalancedMacros a
  /\ singleItemAnchorKey after = singleItemAnchorKey a.
Proof. repeat split. Qed.



End PageFacts.

Lemma mapAnchorKeyToApiValue_options :
  map (fun option => App.mapAnchorKeyToApiValue (fst option)) App.anchorOptions
  = ["protein"; "fat"; "fiber"; "sugar"; "total_carbs"]%string.
Proof. reflexivity. Qed.

Section ScoringClaims.
Import CartStore App Sample.
#[local] Open Scope string_scope.

(** C1: with the anchor "TotalCarbs" selected, the cart-level request and
    the single-item scoring request both carry [anchor_id = "TotalCarbs"],
    the key as the UI holds it; only the balanced-macro request passes it
    through [mapAnchorKeyToApiValue] and carries "total_carbs". *)
Theorem C1_TotalCarbs_is_sent_unmapped :
  let '(s, p) := setAnchorKey "TotalCarbs" one_item_cart in
  anchorKey s = "TotalCarbs"
  /\ option_map (fun p => anchor_id (requestBody p)) p = Some "TotalCarbs"
  /\ anchor_id (individualRequest porridge (anchorKey s)) = "TotalCarbs"
  /\ anchor_id (balanceRequest scanned_draft "TotalCarbs") = "total_carbs"
  /\ mapAnchorKeyToApiValue "TotalCarbs" = "total_carbs".
Proof. vm_compute. repeat split. Qed.

(** C2, as stated, fails for the single-item target: a failed call leaves
    the gauge's score null although a score of 20 was shown before it. *)
Lemma C2_failed_item_call_clears_score :
  let before := setIndividualItemScore (Some (g 20)) App.initial in
  let after := calculateIndividualScore page_down porridge "protein" before in
  individualItemScore before = Some (g 20)
  /\ individualItemScore after = None
  /\ calculationItemError after = Some "Failed to fetch".
Proof. vm_compute. repeat split. Qed.

(** C2, amended: a cart-level call that fails leaves [cartTotals] as it
    was and sets the store's [error]; a single-item call that fails leaves
    the single-item score null, whatever it was before, and sets
    [calculationItemError] to a message that is not empty. *)
Theorem C2_failed_scoring_call :
  (forall N (H : JsNumber N) (service : Service N) (s : CartState N)
          (p : Pending N) (thrown : Thrown),
      snd (calculateTotals_begin s) = Some p ->
      service (requestBody p) = Rejected thrown ->
      cartTotals (calculateTotals service s) = cartTotals s
      /\ error (calculateTotals service s) = Some (errorMessage thrown))
  /\ (forall N (H : JsNumber N) (service : CalculationRequest N -> ScoreOutcome N)
             (nutritionInput : NutritionData N) (key message : string)
             (a : AppState N),
        service (individualRequest nutritionInput key) = ScoreFailed message ->
        let after := calculateIndividualScore service nutritionInput key a in
        individualItemScore after = None
        /\ exists m, calculationItemError after = Some m /\ m <> "").
Proof.
  split.
  - intros N H service s p thrown B R. unfold calculateTotals.
    destruct (calculateTotals_begin s) as [s' q] eqn:E. simpl in B. subst q.
    simpl. rewrite R. simpl.
    unfold calculateTotals_begin in E. simpl in E.
    destruct (items s); [discriminate|]. injection E as <- _.
    split; reflexivity.
  - intros N H service nutritionInput key message a F.
    unfold calculateIndividualScore. rewrite F.
    split; [reflexivity|]. eexists; split; [reflexivity|].
    apply str_or_nonempty. discriminate.
Qed.

(** The amended C2 at work: the cart has a settled result, then the
    service goes down; and the page had shown a score of 20. *)
Lemma C2_witness :
  let settled := calculateTotals echo one_item_cart in
  let before := setIndividualItemScore (Some (g 20)) App.initial in
  (cartTotals settled <> None
   /\ cartTotals (calculateTotals down settled) = cartTotals settled
   /\ error (calculateTotals down settled) = Some "Failed to fetch")
  /\ individualItemScore
       (calculateIndividualScore page_down porridge "protein" before) = None.
Proof.
  cbv zeta. destruct C2_failed_scoring_call as [cart page]. split.
  - split; [vm_compute; discriminate|].
    eapply (cart float _ down _ _ (ErrorObject "Failed to fetch"));
      [vm_compute; reflexivity|reflexivity].
  - apply (page float _ page_down porridge "protein" "Failed to fetch").
    reflexivity.
Defined.

(** C7, as stated, fails: the anchor is set to "fat" and then to "sugar";
    the answer to the second request arrives first and is displayed, then
    the answer to the first request arrives and replaces it, so the result
    left on display is the one computed for "fat" while the anchor selected
    is "sugar". *)
Lemma C7_late_answer_to_first_trigger_wins :
  let '(s1, first) := setAnchorKey "fat" one_item_cart in
  let '(s2, second) := setAnchorKey "sugar" s1 in
  let displayed s := option_map (fun t => tier_label (response t)) (cartTotals s) in
  displayed (deliver echo second s2) = Some "sugar"
  /\ displayed (deliver echo first (deliver echo second s2)) = Some "fat"
  /\ anchorKey (deliver echo first (deliver echo second s2)) = "sugar".
Proof. vm_compute. repeat split. Qed.

(** C7, amended: the store holds no sequence number; every answer that
    arrives with a result replaces [cartTotals], so of two requests in
    flight the one whose answer arrives last is the one left on display,
    whichever of the two was triggered first. *)
Theorem C7_last_answer_to_arrive_is_displayed :
  forall N (H : JsNumber N) (s : CartState N) (first second : Pending N)
         (r1 r2 : CastleVerdeIndexResponse N),
    cartTotals (calculateTotals_settle second (Fulfilled r2)
                  (calculateTotals_settle first (Fulfilled r1) s))
    = Some (mkTotals r2 (List.length (snapshot second)))
    /\ cartTotals (calculateTotals_settle first (Fulfilled r1)
                     (calculateTotals_settle second (Fulfilled r2) s))
       = Some (mkTotals r1 (List.length (snapshot first))).
Proof. intros. split; reflexivity. Qed.




End ScoringClaims.

(* ================================================================== *)
(** * Emptying the cart *)

Section ClearCartClaim.
Import CartStore Sample.
#[local] Open Scope string_scope.

(** C10, as stated, fails: the message of a failed calculation is on
    display in the card of the cart's analysis; [clearCart] leaves it in
    the store, but the page displays it no longer, and the item added next
    clears it. *)
Lemma C10_error_is_out_of_sight_after_clearCart :
  Page.cartErrorAlert failed_cart = Some "Failed to fetch"
  /\ error (clearCart failed_cart) = Some "Failed to fetch"
  /\ Page.cartErrorAlert (clearCart failed_cart) = None
  /\ error (fst (addItem 1700000000001 milk (clearCart failed_cart))) = None.
Proof. vm_compute. repeat split. Qed.

(** C10, amended: [clearCart] replaces [items] by the empty list and
    [cartTotals] by null in a single [set]; [anchorKey] and [error] keep
    the values they had in the store, so the selected anchor survives a
    clear and an earlier error message is still set after it.  The message
    is not displayed, though: the alert that shows it is part of a card
    drawn only for a cart with items and totals, the answer to a call still
    in flight does not bring it back, and [addItem], the one action that
    puts an item into the cart, clears the error. *)
Theorem C10_clearCart_frame :
  forall N (H : JsNumber N) (s : CartState N),
    clearCart s = set (mkPartial (Some []) (Some None) None None) s
    /\ items (clearCart s) = []
    /\ cartTotals (clearCart s) = None
    /\ anchorKey (clearCart s) = anchorKey s
    /\ error (clearCart s) = error s
    /\ Page.cartErrorAlert (clearCart s) = None
    /\ (forall (p : Pending N) (o : Outcome N),
          Page.cartErrorAlert (calculateTotals_settle p o (clearCart s)) = None)
    /\ (forall (now : Z) (itemData : ItemData N),
          error (fst (addItem now itemData (clearCart s))) = None).
Proof.
  intros N H s.
  split; [reflexivity|]. split; [reflexivity|]. split; [reflexivity|].
  split; [reflexivity|]. split; [reflexivity|]. split; [reflexivity|]. split.
  - intros p [result|thrown]; reflexivity.
  - intros now itemData. unfold addItem, calculateTotals_begin.
    destruct (items (set_error None (set_items _ (clearCart s)))); reflexivity.
Qed.

End ClearCartClaim.

(* ================================================================== *)
(** * Order of binary64 numbers *)

Section Binary64Order.
Import Float64.

Lemma SFleb_positive (m1 m2 : positive) (e1 e2 : Z) :
  SFleb (S754_finite false m1 e1) (S754_finite false m2 e2) = true
  <-> lex_le e1 m1 e2 m2.
Proof.
  unfold SFleb, SFcompare, lex_le.
  destruct (Z.compare_spec e1 e2) as [E|L|G].
  - change (PosDef.Pos.compare_cont Eq m1 m2) with (Pos.compare m1 m2).
    destruct (Pos.compare_spec m1 m2); split; intros; try discriminate; try lia.
  - split; intros; [lia|reflexivity].
  - split; intros; [discriminate|lia].
Qed.

Lemma SFltb_positive (m1 m2 : positive) (e1 e2 : Z) :
  SFltb (S754_finite false m1 e1) (S754_finite false m2 e2) = true
  <-> lex_lt e1 m1 e2 m2.
Proof.
  unfold SFltb, SFcompare, lex_lt.
  destruct (Z.compare_spec e1 e2) as [E|L|G].
  - change (PosDef.Pos.compare_cont Eq m1 m2) with (Pos.compare m1 m2).
    destruct (Pos.compare_spec m1 m2); split; intros; try discriminate; try lia.
  - split; intros; [lia|reflexivity].
  - split; intros; [discriminate|lia].
Qed.

Lemma SFeqb_same (sign : bool) (m : positive) (e : Z) :
  SFeqb (S754_finite sign m e) (S754_finite sign m e) = true.
Proof.
  unfold SFeqb, SFcompare. rewrite Z.compare_refl.
  change (PosDef.Pos.compare_cont Eq m m) with (Pos.compare m m).
  rewrite Pos.compare_refl. destruct sign; reflexivity.
Qed.

Lemma SFleb_positive_false (m1 m2 : positive) (e1 e2 : Z) :
  SFleb (S754_finite false m1 e1) (S754_finite false m2 e2) = false
  <-> lex_lt e2 m2 e1 m1.
Proof.
  rewrite <- not_true_iff_false, SFleb_positive. unfold lex_le, lex_lt. lia.
Qed.

Lemma SFltb_positive_false (m1 m2 : positive) (e1 e2 : Z) :
  SFltb (S754_finite false m1 e1) (S754_finite false m2 e2) = false
  <-> lex_le e2 m2 e1 m1.
Proof.
  rewrite <- not_true_iff_false, SFltb_positive. unfold lex_le, lex_lt. lia.
Qed.

End Binary64Order.

(** A mantissa constant under a name of its own: the arithmetic below is
    linear in the names, with the order of the constants they stand for as
    its only facts about them. *)
Lemma name_mantissa (c : positive) : { m : positive | m = c }.
Proof. exists c. reflexivity. Qed.

Ltac name_one c :=
  let m := fresh "m" in
  let E := fresh "E" in
  destruct (name_mantissa c) as [m E]; rewrite <- E.

Ltac name_mantissas :=
  repeat match goal with
         | |- context [Pos.lt ?a ?b] =>
             first [ tryif is_var a then fail else name_one a
                   | tryif is_var b then fail else name_one b ]
         | |- context [Pos.le ?a ?b] =>
             first [ tryif is_var a then fail else name_one a
                   | tryif is_var b then fail else name_one b ]
         end.

Ltac order_mantissas :=
  repeat match goal with
         | E1 : ?m1 = ?c1, E2 : ?m2 = ?c2 |- _ =>
             is_var m1; is_var m2;
             lazymatch type of m1 with positive => idtac end;
             lazymatch type of m2 with positive => idtac end;
             let r := eval vm_compute in (Pos.compare c1 c2) in
             lazymatch r with
             | Lt =>
                 lazymatch goal with
                 | _ : Pos.lt m1 m2 |- _ => fail
                 | _ => assert (Pos.lt m1 m2)
                     by (rewrite E1, E2; vm_compute; reflexivity)
                 end
             end
         end;
  repeat match goal with
         | E : ?m = _ |- _ =>
             is_var m; lazymatch type of m with positive => clear E end
         end.

(** Comparisons of one binary64 number [s] with constants: the boolean
    facts at hand are read on the specification of the comparisons, [s] is
    split into its kinds, and what is left is linear arithmetic on
    exponents and mantissas. *)
Ltac sf_done :=
  cbv beta iota delta [SFleb SFltb SFeqb SFcompare];
  unfold Float64.lex_le, Float64.lex_lt;
  name_mantissas; intros;
  first [discriminate | reflexivity | (order_mantissas; lia)].

Ltac float_order s :=
  cbv [num_leb num_ltb num_of_Z Float64.number] in *;
  repeat match goal with
         | H : _ = true |- _ => revert H
         | H : _ = false |- _ => revert H
         end;
  rewrite ?FloatAxioms.leb_spec, ?FloatAxioms.ltb_spec, ?FloatAxioms.eqb_spec;
  let x := fresh "x" in
  set (x := Prim2SF s); clearbody x;
  repeat match goal with
         | |- context [Prim2SF ?c] =>
             let v := eval vm_compute in (Prim2SF c) in
             let E := fresh "E" in
             assert (E : Prim2SF c = v) by (vm_compute; reflexivity);
             rewrite E; clear E
         end;
  destruct x as [[|]|[|]| |[|] mx ex];
  rewrite ?SFeqb_same, ?SFleb_positive, ?SFltb_positive,
    ?SFleb_positive_false, ?SFltb_positive_false;
  sf_done.

Section Binary64Facts.
#[local] Open Scope js_scope.

(** A negative score is below every lower bound. *)
Lemma below_zero_binary64 (s : float) :
  (s <? num_of_Z 0) = true ->
  (s >=? num_of_Z 0) = false /\ (s >=? num_of_Z 15) = false
  /\ (s >=? num_of_Z 25) = false /\ (s >=? num_of_Z 35) = false
  /\ (s >? num_of_Z 50) = false.
Proof. intros B. repeat split; float_order s. Qed.

(** A score above 50 is above every upper bound. *)
Lemma above_50_binary64 (s : float) :
  (s >? num_of_Z 50) = true ->
  (s <=? dec 149 10) = false /\ (s <=? dec 249 10) = false
  /\ (s <=? dec 349 10) = false /\ (s <=? num_of_Z 50) = false.
Proof. intros A. repeat split; float_order s. Qed.

(** A score at or above a tier's lower bound is above the upper bounds of
    the tiers before it. *)
Lemma lower_bounds_binary64 (s : float) :
  ((s >=? num_of_Z 15) = true -> (s <=? dec 149 10) = false)
  /\ ((s >=? num_of_Z 25) = true ->
      (s <=? dec 149 10) = false /\ (s <=? dec 249 10) = false)
  /\ ((s >=? num_of_Z 35) = true ->
      (s <=? dec 149 10) = false /\ (s <=? dec 249 10) = false
      /\ (s <=? dec 349 10) = false)
  /\ ((s >=? num_of_Z 35) = true -> (s <=? num_of_Z 50) = false ->
      (s >? num_of_Z 50) = true).
Proof. repeat split; intros; float_order s. Qed.

(** A score strictly between two tiers is in neither, nor in any other. *)
Lemma gaps_binary64 (s : float) :
  ((s >? dec 149 10) = true -> (s <? num_of_Z 15) = true ->
   (s <=? dec 149 10) = false /\ (s >=? num_of_Z 15) = false
   /\ (s >=? num_of_Z 25) = false /\ (s >=? num_of_Z 35) = false
   /\ (s >? num_of_Z 50) = false)
  /\ ((s >? dec 249 10) = true -> (s <? num_of_Z 25) = true ->
      (s <=? dec 149 10) = false /\ (s <=? dec 249 10) = false
      /\ (s >=? num_of_Z 25) = false /\ (s >=? num_of_Z 35) = false
      /\ (s >? num_of_Z 50) = false)
  /\ ((s >? dec 349 10) = true -> (s <? num_of_Z 35) = true ->
      (s <=? dec 149 10) = false /\ (s <=? dec 249 10) = false
      /\ (s <=? dec 349 10) = false /\ (s >=? num_of_Z 35) = false
      /\ (s >? num_of_Z 50) = false).
Proof. repeat split; intros; float_order s. Qed.

(** NaN compares false with everything. *)
Lemma nan_binary64 (s : float) :
  PrimFloat.is_nan s = true ->
  (s >=? num_of_Z 0) = false /\ (s >=? num_of_Z 15) = false
  /\ (s >=? num_of_Z 25) = false /\ (s >=? num_of_Z 35) = false
  /\ (s >? num_of_Z 50) = false.
Proof.
  unfold PrimFloat.is_nan. rewrite negb_true_iff. intros B.
  repeat split; float_order s.
Qed.

Lemma ltb_leb_binary64 (x y : float) :
  PrimFloat.ltb x y = true -> PrimFloat.leb x y = true.
Proof.
  rewrite FloatAxioms.ltb_spec, FloatAxioms.leb_spec. unfold SFltb, SFleb.
  destruct (SFcompare (Prim2SF x) (Prim2SF y)) as [[| |]|]; congruence.
Qed.

(** [Math.max(0, q)] of a number that is not NaN is not negative. *)
Lemma Math_max_0_binary64 (q : float) :
  PrimFloat.is_nan q = false ->
  (num_of_Z 0 <=? Math_max (num_of_Z 0) q) = true.
Proof.
  intros NN. cbv [num_leb num_of_Z Math_max Float64.number Float64.of_Z].
  unfold Float64.max. change (PrimFloat.is_nan PrimFloat.zero) with false.
  rewrite NN. cbn [orb].
  destruct (PrimFloat.ltb PrimFloat.zero q) eqn:L.
  - apply ltb_leb_binary64, L.
  - destruct (PrimFloat.ltb q PrimFloat.zero); reflexivity.
Qed.

End Binary64Facts.

(* ================================================================== *)
(** * The claims about the aggregate *)

Section AggregateClaims.
Import CartStore Sample.

(** C4, as stated, fails: after [updateItemQuantity] has stored the
    quantity 0 for the only item of the cart, the aggregate sent for scoring
    is that item's whole nutrient vector, not the empty aggregate. *)
Lemma C4_zero_quantity_counted_once :
  let '(s, p) := updateItemQuantity "1700000000000" (g 0) one_item_cart in
  map (@quantity float) (items s) = [Some (g 0)]
  /\ option_map (fun p => aggregated_input_data (requestBody p)) p
     = Some (mkMacros (g 10) (g 5) (g 20) (g 2) (g 5))
  /\ aggregate (items s) <> aggregate [].
Proof.
  vm_compute. repeat split. intros E. discriminate E.
Qed.

(** C4, amended: the aggregate is the element-wise sum, from left to right,
    of each item's nutrient vector times the quantity counted for it; the
    quantity counted is the item's own when that is a number other than 0
    and NaN, and 1 when it is missing, 0 or NaN, so an item of quantity 0
    contributes its vector once; [updateItemQuantity] stores
    [Math.max(0, q)] on the item it names, which is not negative when [q]
    is a number (binary64 other than NaN, or exact). *)
Theorem C4_aggregate_weighs_by_counted_quantity :
  (forall N (H : JsNumber N) (l : list (CartItem N)),
      aggregate l = element_wise_sum l)
  /\ (forall N (H : JsNumber N) (item : CartItem N) (q : N),
        quantity item = Some q -> num_truthy q = true ->
        contribution item = scale (vector item) q)
  /\ (forall N (H : JsNumber N) (item : CartItem N) (q : N),
        quantity item = Some q -> num_truthy q = false ->
        contribution item = scale (vector item) (num_of_Z 1))
  /\ (forall N (H : JsNumber N) (item : CartItem N),
        quantity item = None ->
        contribution item = scale (vector item) (num_of_Z 1))
  /\ num_truthy (num_of_Z 0 : float) = false
  /\ (forall q : Q, num_truthy q = false <-> q == 0)
  /\ (forall N (H : JsNumber N) itemId (q : N) (s : CartState N) item,
        In item (items (fst (updateItemQuantity itemId q s))) ->
        id item = itemId ->
        quantity item = Some (Math_max (num_of_Z 0) q))
  /\ (forall q : float,
        PrimFloat.is_nan q = false ->
        (num_of_Z 0 <=? Math_max (num_of_Z 0) q)%js = true)
  /\ (forall q : Q, 0 <= Math_max (num_of_Z 0) q).
Proof.
  split; [|split; [|split; [|split; [|split; [|split; [|split; [|split]]]]]]].
  - intros; apply aggregate_element_wise_sum.
  - intros N H item q E T. unfold contribution.
    rewrite counted_quantity_cases, E, T. reflexivity.
  - intros N H item q E T. unfold contribution.
    rewrite counted_quantity_cases, E, T. reflexivity.
  - intros N H item E. unfold contribution.
    rewrite counted_quantity_cases, E. reflexivity.
  - reflexivity.
  - apply truthy_exact.
  - intros N H itemId q s item. apply updateItemQuantity_stored.
  - apply Math_max_0_binary64.
  - apply Math_max_0_exact.
Qed.

(** The amended C4 at work: an item stored with quantity 0 weighs as much
    as the same item counted once. *)
Lemma C4_witness :
  let item := mkItem "7" "rice" (Some (mkMacros (g 3) (g 1) (g 28) (g 1) (g 0)))
                     (Some (g 0)) in
  quantity item = Some (g 0)
  /\ num_truthy (g 0) = false
  /\ contribution item = scale (vector item) (g 1).
Proof.
  split; [reflexivity|]. split; [reflexivity|].
  destruct C4_aggregate_weighs_by_counted_quantity as (_ & _ & zero & _).
  apply (zero float _ _ (g 0)); reflexivity.
Defined.

(** C5, as stated, fails in binary64: three items weighing 0.1, 0.2 and
    0.3 grams aggregate to 0.6000000000000001 in that order and to 0.6 in
    the reverse order. *)
Lemma C5_order_changes_aggregate :
  Permutation [tenths 1; tenths 2; tenths 3] [tenths 3; tenths 2; tenths 1]
  /\ aggregate [tenths 1; tenths 2; tenths 3]
     <> aggregate [tenths 3; tenths 2; tenths 1].
Proof.
  split.
  - apply (Permutation_rev [tenths 1; tenths 2; tenths 3]).
  - vm_compute. intros E. discriminate E.
Qed.

(** C5, amended: the request [calculateTotals] sends is computed from the
    current items and anchor alone (nothing of an earlier aggregate, total
    or error enters it), so recomputing on an unchanged cart gives the same
    request; in exact arithmetic the aggregate does not depend on the order
    of the items; and the two-item cart of the scenario aggregates, in
    binary64, to 20, 9, 40, 4 and 9 grams. *)
Theorem C5_aggregate_is_a_full_reduction :
  (forall N (H : JsNumber N) (s s' : CartState N),
      items s = items s' -> anchorKey s = anchorKey s' ->
      snd (calculateTotals_begin s) = snd (calculateTotals_begin s'))
  /\ (forall l l' : list (CartItem Q),
        Permutation l l' -> aggregate l = aggregate l')
  /\ aggregate [first_item; second_item]
     = mkMacros (g 20) (g 9) (g 40) (g 4) (g 9).
Proof.
  split; [|split].
  - intros N H s s' Ei Ea. unfold calculateTotals_begin; simpl.
    rewrite Ei, Ea. destruct (items s'); reflexivity.
  - apply aggregate_permutation_exact.
  - vm_compute. reflexivity.
Qed.

(** The amended C5 at work: two rational items, in either order. *)
Lemma C5_witness :
  let a := mkItem "1" "a" (Some (mkMacros (1#10) 0 (3#10) 0 0)) None in
  let b := mkItem "2" "b" (Some (mkMacros (2#10) 0 (1#3) 0 0)) (Some 2) in
  Permutation [a; b] [b; a] /\ aggregate [a; b] = aggregate [b; a].
Proof.
  intros a b. split; [apply perm_swap|].
  destruct C5_aggregate_is_a_full_reduction as (_ & perm & _).
  apply perm, perm_swap.
Defined.

End AggregateClaims.

(* ================================================================== *)
(** * The zone classifier *)

Section ZoneFacts.
Import Gauge.
#[local] Open Scope string_scope.

Lemma getZone_null (N : Type) (H : JsNumber N) :
  getZone (@None N) = not_available.
Proof. reflexivity. Qed.

(** The scores the specification lists, in binary64. *)
Lemma getZone_listed_scores :
  map (fun score : float => info_label (getZone (Some score)))
      [dec 149 10; dec 150 10; dec 249 10; dec 250 10; dec 349 10; dec 350 10;
       num_of_Z 0; num_of_Z 50; num_of_Z 75; num_of_Z (-1)]
  = ["Low"; "Caution"; "Caution"; "Dangerous"; "Dangerous"; "Red Zone";
     "Low"; "Red Zone"; "Red Zone"; "N/A"].
Proof. vm_compute. reflexivity. Qed.

Lemma Qle_bool_reflect (a b : Q) : reflect (a <= b) (Qle_bool a b).
Proof. apply iff_reflect. symmetry. apply Qle_bool_iff. Qed.

Ltac q_cases :=
  repeat match goal with
         | |- context [Qle_bool ?a ?b] => destruct (Qle_bool_reflect a b)
         end.

Lemma zones_exact :
  @zones Q _ =
  [ mkZone "Low" (0, 149#10) "#2ECC71";
    mkZone "Caution" (15, 249#10) "#F4D03F";
    mkZone "Dangerous" (25, 349#10) "#F5B041";
    mkZone "Red Zone" (35, 50) "#E74C3C" ].
Proof. reflexivity. Qed.

(** The classifier on an exact score, with the zone table laid out. *)
Lemma getZone_exact_unfold (s : Q) :
  getZone (Some s) =
  if Qle_bool 0 s && Qle_bool s (149#10) then mkInfo "Low" "#2ECC71"
  else if Qle_bool 15 s && Qle_bool s (249#10) then mkInfo "Caution" "#F4D03F"
  else if Qle_bool 25 s && Qle_bool s (349#10) then mkInfo "Dangerous" "#F5B041"
  else if Qle_bool 35 s && Qle_bool s 50 then mkInfo "Red Zone" "#E74C3C"
  else if negb (Qle_bool s 50) then mkInfo "Red Zone" "#E74C3C"
  else mkInfo "N/A" "#6b7280".
Proof.
  unfold getZone. rewrite zones_exact. unfold last_zone. rewrite zones_exact.
  unfold in_range. cbn [find fst snd range last info label color].
  change (num_leb (N:=Q)) with Qle_bool.
  repeat match goal with
         | |- context [Qle_bool ?a ?b && Qle_bool ?c ?d] =>
             destruct (Qle_bool a b && Qle_bool c d); [reflexivity|]
         end.
  reflexivity.
Qed.

(** Where the classifier, on exact scores, answers what: the four tiers on
    their ranges, Red Zone above 50, and N/A below 0 and in the three gaps
    between one tier's upper bound and the next tier's lower bound. *)
Lemma getZone_exact_cases (s : Q) :
  (0 <= s <= 149#10 -> info_label (getZone (Some s)) = "Low")
  /\ (15 <= s <= 249#10 -> info_label (getZone (Some s)) = "Caution")
  /\ (25 <= s <= 349#10 -> info_label (getZone (Some s)) = "Dangerous")
  /\ (35 <= s -> info_label (getZone (Some s)) = "Red Zone")
  /\ (s < 0 -> getZone (Some s) = not_available)
  /\ (149#10 < s < 15 \/ 249#10 < s < 25 \/ 349#10 < s < 35 ->
      getZone (Some s) = not_available).
Proof.
  rewrite getZone_exact_unfold.
  repeat split; intros R; q_cases; simpl; try reflexivity; exfalso; lra.
Qed.

(** The classifier on a binary64 score, with the zone table laid out. *)
Lemma getZone_binary64_unfold (s : float) :
  getZone (Some s) =
  (if (s >=? num_of_Z 0) && (s <=? dec 149 10) then mkInfo "Low" "#2ECC71"
   else if (s >=? num_of_Z 15) && (s <=? dec 249 10)
        then mkInfo "Caution" "#F4D03F"
   else if (s >=? num_of_Z 25) && (s <=? dec 349 10)
        then mkInfo "Dangerous" "#F5B041"
   else if (s >=? num_of_Z 35) && (s <=? num_of_Z 50)
        then mkInfo "Red Zone" "#E74C3C"
   else if s >? num_of_Z 50 then mkInfo "Red Zone" "#E74C3C"
   else mkInfo "N/A" "#6b7280")%js.
Proof.
  unfold getZone, zones, last_zone, in_range.
  cbn [find last fst snd range info label color].
  repeat match goal with
         | |- context [(?a && ?b)%bool] => destruct (a && b); [reflexivity|]
         end.
  reflexivity.
Qed.

(** Where the classifier answers what on binary64 scores: as on exact
    scores, and N/A on NaN. *)
Lemma getZone_binary64_cases (s : float) :
  (((s >=? num_of_Z 0) && (s <=? dec 149 10))%js = true ->
   info_label (getZone (Some s)) = "Low")
  /\ (((s >=? num_of_Z 15) && (s <=? dec 249 10))%js = true ->
      info_label (getZone (Some s)) = "Caution")
  /\ (((s >=? num_of_Z 25) && (s <=? dec 349 10))%js = true ->
      info_label (getZone (Some s)) = "Dangerous")
  /\ ((s >=? num_of_Z 35)%js = true ->
      info_label (getZone (Some s)) = "Red Zone")
  /\ ((s <? num_of_Z 0)%js = true -> getZone (Some s) = not_available)
  /\ (((s >? dec 149 10) && (s <? num_of_Z 15)
       || (s >? dec 249 10) && (s <? num_of_Z 25)
       || (s >? dec 349 10) && (s <? num_of_Z 35))%js = true ->
      getZone (Some s) = not_available)
  /\ (PrimFloat.is_nan s = true -> getZone (Some s) = not_available).
Proof.
  rewrite getZone_binary64_unfold.
  destruct (lower_bounds_binary64 s) as (L15 & L25 & L35 & L50).
  destruct (gaps_binary64 s) as (G1 & G2 & G3).
  split; [|split; [|split; [|split; [|split; [|split]]]]].
  - intros R. rewrite R. reflexivity.
  - intros R. apply andb_prop in R as [R1 R2].
    rewrite (L15 R1), andb_false_r, R1, R2. reflexivity.
  - intros R. apply andb_prop in R as [R1 R2].
    destruct (L25 R1) as [F1 F2].
    rewrite F1, F2, !andb_false_r, R1, R2. reflexivity.
  - intros R. destruct (L35 R) as (F1 & F2 & F3).
    rewrite F1, F2, F3, !andb_false_r, R. cbn [andb].
    destruct (num_leb s (num_of_Z 50)) eqn:U; [reflexivity|].
    rewrite (L50 R eq_refl). reflexivity.
  - intros B. destruct (below_zero_binary64 B) as (F0 & F15 & F25 & F35 & F50).
    rewrite F0, F15, F25, F35, F50. reflexivity.
  - intros G. apply orb_prop in G as [G|G]; [apply orb_prop in G as [G|G]|];
      apply andb_prop in G as [A B].
    + destruct (G1 A B) as (F1 & F15 & F25 & F35 & F50).
      rewrite F1, F15, F25, F35, F50, !andb_false_r. reflexivity.
    + destruct (G2 A B) as (F1 & F2 & F25 & F35 & F50).
      rewrite F1, F2, F25, F35, F50, !andb_false_r. reflexivity.
    + destruct (G3 A B) as (F1 & F2 & F3 & F35 & F50).
      rewrite F1, F2, F3, F35, F50, !andb_false_r. reflexivity.
  - intros B. destruct (nan_binary64 s B) as (F0 & F15 & F25 & F35 & F50).
    rewrite F0, F15, F25, F35, F50. reflexivity.
Qed.

(** C3: the score 14.95 lies in [0, 50], and the classifier answers
    "N/A" for it, as it does for 24.95 and 34.95: a score between one
    tier's upper bound and the next tier's lower bound is in no tier. *)
Theorem C3_score_in_a_gap_is_unclassified :
  let score : float := dec 1495 100 in
  (num_of_Z 0 <=? score)%js = true
  /\ (score <=? num_of_Z 50)%js = true
  /\ getZone (Some score) = not_available
  /\ getZone (Some (dec 2495 100 : float)) = not_available
  /\ getZone (Some (dec 3495 100 : float)) = not_available.
Proof. vm_compute. repeat split. Qed.

End ZoneFacts.

(* ================================================================== *)
(** * The needle animation *)

Section AnimationFacts.
Import Gauge.

(** As long as the score is null the component stays as it was mounted. *)
Lemma mounted_while_null (N : Type) (H : JsNumber N) (times : list N) :
  fold_left (fun g now => fst (onScoreChange None now g)) times mounted
  = mounted.
Proof. induction times as [|t times IH]; simpl; [reflexivity|exact IH]. Qed.

Lemma clamp_exact (s : Q) : 0 <= s -> s <= 50 -> clamp s = s.
Proof.
  intros L U. unfold clamp, MIN_SCORE, MAX_SCORE. simpl.
  unfold Exact.max, Exact.min.
  change (inject_Z 50) with 50. change (inject_Z 0) with 0.
  destruct (Qle_bool_reflect s 50); [|contradiction].
  destruct (Qle_bool_reflect 0 s); [|contradiction]. reflexivity.
Qed.

Lemma Math_min_exact (a b : Q) : Math_min a b == Qmin a b.
Proof.
  simpl. unfold Exact.min.
  destruct (Qle_bool_reflect a b) as [L|L].
  - symmetry. apply Q.min_l. exact L.
  - symmetry. apply Q.min_r. apply Qlt_le_weak, Qnot_le_lt, L.
Qed.

(** The animation the effect starts on a score that is not the first. *)
Lemma onScoreChange_later (N : Type) (H : JsNumber N) (s now : N)
  (shown : option N) :
  let start := match shown with Some v => v | None => MIN_SCORE end in
  onScoreChange (Some s) now (mkGauge shown false)
  = (mkGauge shown false,
     Some (mkAnimation start (clamp s) (clamp s - start)%js
             (Math_min (num_abs (clamp s - start) * num_of_Z 40)%js
                       (num_of_Z 800))
             now)).
Proof. reflexivity. Qed.

Lemma animate_finished (a : Animation Q) (t : Q) :
  duration a <= t - startTime a -> animate a t = (targetValue a, false).
Proof.
  intros F. unfold animate. simpl.
  destruct (Qle_bool_reflect (duration a) (t - startTime a)); [reflexivity|contradiction].
Qed.

Lemma animate_running (a : Animation Q) (t : Q) :
  t - startTime a < duration a ->
  snd (animate a t) = true
  /\ fst (animate a t)
     == startValue a
        + diff a * (1 - (1 - (t - startTime a) / duration a) ^ 2).
Proof.
  intros R. unfold animate. simpl.
  destruct (Qle_bool_reflect (duration a) (t - startTime a)) as [F|_].
  - exfalso. apply (Qlt_not_le _ _ R F).
  - simpl. split; [reflexivity|]. change (inject_Z 1) with 1.
    simpl. ring.
Qed.

(** The animation from a displayed 0 to the target 20, started at [now]. *)
Lemma animation_0_20 (now : Q) :
  onScoreChange (Some 20) now (mkGauge (Some 0) false)
  = (mkGauge (Some 0) false, Some (mkAnimation 0 20 (20 - 0) 800 now)).
Proof. reflexivity. Qed.

Lemma animate_0_20 (now t : Q) :
  fst (animate (mkAnimation 0 20 (20 - 0) 800 now) t) ==
  if Qle_bool 800 (t - now) then 20
  else 20 * (1 - (1 - (t - now) / 800) * (1 - (t - now) / 800)).
Proof.
  unfold animate. simpl.
  destruct (Qle_bool 800 (t - now)); simpl; [reflexivity|].
  change (inject_Z 1) with 1. ring.
Qed.

Lemma animate_0_20_monotone (now t1 t2 : Q) :
  t1 <= t2 ->
  fst (animate (mkAnimation 0 20 (20 - 0) 800 now) t1)
  <= fst (animate (mkAnimation 0 20 (20 - 0) 800 now) t2).
Proof.
  intros L. rewrite !animate_0_20.
  destruct (Qle_bool_reflect 800 (t1 - now)) as [F1|F1];
    destruct (Qle_bool_reflect 800 (t2 - now)) as [F2|F2].
  - lra.
  - exfalso. lra.
  - generalize (1 - (t1 - now) / 800). intros x.
    clear L F1 F2 now t1 t2. nra.
  - unfold Qdiv. change (/ 800) with (1 # 800).
    assert (X2 : 0 <= 1 - (t2 - now) * (1 # 800)) by lra.
    assert (X12 : 1 - (t2 - now) * (1 # 800) <= 1 - (t1 - now) * (1 # 800)) by lra.
    revert X2 X12.
    generalize (1 - (t1 - now) * (1 # 800)), (1 - (t2 - now) * (1 # 800)).
    intros x1 x2 X2 X12.
    clear L F1 F2 now t1 t2. nra.
Qed.

(** The same animation in binary64, sampled at every millisecond from its
    start to two milliseconds past its end: the values never decrease and
    the last ones are exactly 20. *)
Lemma animate_0_20_binary64 :
  let now : float := num_of_Z 1000 in
  let times := map (fun k => num_of_Z (1000 + Z.of_nat k)) (seq 0 803) in
  exists a,
    onScoreChange (Some (num_of_Z 20)) now (mkGauge (Some (num_of_Z 0)) false)
    = (mkGauge (Some (num_of_Z 0)) false, Some a)
    /\ duration a = num_of_Z 800
    /\ nondecreasing (displayed_at a times) = true
    /\ skipn 800 (displayed_at a times)
       = [num_of_Z 20; num_of_Z 20; num_of_Z 20].
Proof.
  eexists. split; [vm_compute; reflexivity|]. vm_compute. repeat split.
Qed.

(** C8: the first score that is not null after mounting is displayed at
    once, with no animation.  A later score [s] starts an animation from
    the value displayed at that moment (0 when none is) to the target [s]
    clamped into [0, 50] (that is [s] itself when it lies there), lasting
    [min(|target - start| * 40, 800)] ms, whose value at elapsed time [e]
    below the duration is [start + (target - start) * (1 - (1 - e/d)^2)]
    and is the target from the duration on.  From a displayed 0 to the
    target 20 the duration is 800 ms, the value never decreases over time,
    and it is exactly 20 from the end of the duration on.  Numbers are
    exact here. *)
Theorem C8_gauge_animation :
  (forall (nulls : list Q) (s now : Q),
      onScoreChange (Some s) now
        (fold_left (fun g t => fst (onScoreChange None t g)) nulls mounted)
      = (mkGauge (Some s) false, None))
  /\ (forall (s now : Q) (shown : option Q),
        exists a,
          onScoreChange (Some s) now (mkGauge shown false)
          = (mkGauge shown false, Some a)
          /\ startValue a = match shown with Some v => v | None => 0 end
          /\ targetValue a = clamp s
          /\ (0 <= s <= 50 -> targetValue a = s)
          /\ startTime a = now
          /\ duration a == Qmin (Qabs (targetValue a - startValue a) * 40) 800
          /\ (forall t, t - now < duration a ->
                snd (animate a t) = true
                /\ fst (animate a t)
                   == startValue a
                      + (targetValue a - startValue a)
                        * (1 - (1 - (t - now) / duration a) ^ 2))
          /\ (forall t, duration a <= t - now ->
                animate a t = (targetValue a, false)))
  /\ (forall now : Q,
        exists a,
          onScoreChange (Some 20) now (mkGauge (Some 0) false)
          = (mkGauge (Some 0) false, Some a)
          /\ duration a == 800
          /\ (forall t1 t2, t1 <= t2 ->
                fst (animate a t1) <= fst (animate a t2))
          /\ (forall t, now + duration a <= t -> fst (animate a t) = 20)).
Proof.
  split; [|split].
  - intros nulls s now. rewrite mounted_while_null. reflexivity.
  - intros s now shown. rewrite onScoreChange_later. eexists.
    split; [reflexivity|]. cbn [startValue targetValue startTime duration].
    split; [reflexivity|]. split; [reflexivity|].
    split; [intros [L U]; apply clamp_exact; assumption|].
    split; [reflexivity|]. split; [apply Math_min_exact|]. split.
    + intros t R. apply (@animate_running (mkAnimation _ _ _ _ now) t R).
    + intros t F. apply animate_finished, F.
  - intros now. rewrite animation_0_20. eexists. split; [reflexivity|].
    cbn [duration]. split; [reflexivity|]. split.
    + intros t1 t2. apply animate_0_20_monotone.
    + intros t F. rewrite animate_finished; [reflexivity|].
      cbn [duration startTime]. lra.
Qed.

(** C8 at work: the animation from 0 to 20 started at time 0, looked at
    100 ms and 400 ms after its start and at its end. *)
Lemma C8_witness :
  exists a,
    onScoreChange (Some 20) 0 (mkGauge (Some 0) false)
    = (mkGauge (Some 0) false, Some a)
    /\ 100 <= 400
    /\ fst (animate a 100) <= fst (animate a 400)
    /\ fst (animate a 800) = 20.
Proof.
  destruct C8_gauge_animation as (_ & _ & from_0_to_20).
  destruct (from_0_to_20 0) as (a & E & D & M & F).
  exists a. split; [exact E|].
  assert (L : 100 <= 400) by (apply Qle_bool_iff; reflexivity).
  split; [exact L|]. split; [apply M, L|].
  apply F. rewrite D. apply Qle_bool_iff; reflexivity.
Defined.

End AnimationFacts.

(* ================================================================== *)
(** * The cart store's actions, one after another *)

Section CartStoreActions.
Context {N : Type} `{JsNumber N}.
Import CartStore Invariants.

Lemma set_items_same (s : CartState N) : set_items (items s) s = s.
Proof. destruct s; reflexivity. Qed.

Lemma filter_other_ids (itemId : string) (l : list (CartItem N)) :
  ~ In itemId (map id l) ->
  filter (fun item => negb (String.eqb (id item) itemId)) l = l.
Proof.
  induction l as [|item l IH]; simpl; intros fresh; [reflexivity|].
  destruct (String.eqb_spec (id item) itemId) as [E|_]; simpl.
  - exfalso. apply fresh. left. exact E.
  - f_equal. apply IH. intros I. apply fresh. right. exact I.
Qed.

Lemma map_other_ids (itemId : string) (q : N) (l : list (CartItem N)) :
  ~ In itemId (map id l) ->
  map (fun item =>
         if String.eqb (id item) itemId
         then mkItem (id item) (name item) (macros item)
                     (Some (Math_max (num_of_Z 0) q))
         else item) l = l.
Proof.
  induction l as [|item l IH]; simpl; intros fresh; [reflexivity|].
  destruct (String.eqb_spec (id item) itemId) as [E|_].
  - exfalso. apply fresh. left. exact E.
  - f_equal. apply IH. intros I. apply fresh. right. exact I.
Qed.

Lemma calculateTotals_begin_nonempty (s : CartState N) :
  items s <> [] ->
  calculateTotals_begin s = (set_error None s, Some (request_for s)).
Proof.
  unfold calculateTotals_begin, request_for. simpl.
  destruct (items s) eqn:E; [intros C; contradiction|reflexivity].
Qed.

Lemma calculateTotals_begin_empty (s : CartState N) :
  items s = [] ->
  calculateTotals_begin s = (set_cartTotals None (set_error None s), None).
Proof.
  unfold calculateTotals_begin. simpl. intros E. rewrite E. reflexivity.
Qed.

(** Removing the item that [addItem] has just added gives back the items
    the cart held, when the clock reading is not the id of one of them. *)
Theorem removeItem_undoes_addItem (now : Z) (d : ItemData N) (s : CartState N) :
  ~ In (Js.toString now) (map id (items s)) ->
  items (fst (removeItem (Js.toString now) (fst (addItem now d s)))) = items s.
Proof.
  intros fresh. rewrite removeItem_items, addItem_items, filter_app.
  rewrite (filter_other_ids _ _ fresh). simpl.
  rewrite String.eqb_refl. simpl. apply app_nil_r.
Qed.

(** An id that no item of the cart has: [removeItem] and
    [updateItemQuantity] change no item, and what they do is what
    [calculateTotals] does when it starts ([removeItem] on a cart that
    holds items; on an empty cart it sets [cartTotals] to null and leaves
    [error] as it is). *)
Theorem unknown_id_only_recalculates (itemId : string) (s : CartState N) :
  ~ In itemId (map id (items s)) ->
  (forall q, updateItemQuantity itemId q s = calculateTotals_begin s)
  /\ (items s <> [] -> removeItem itemId s = calculateTotals_begin s)
  /\ (items s = [] -> removeItem itemId s = (set_cartTotals None s, None)).
Proof.
  intros fresh. split; [|split].
  - intros q. unfold updateItemQuantity.
    rewrite (map_other_ids _ q _ fresh), set_items_same. reflexivity.
  - intros F. unfold removeItem.
    rewrite (filter_other_ids _ _ fresh), set_items_same.
    destruct (items s); [contradiction|reflexivity].
  - intros E. unfold removeItem.
    rewrite (filter_other_ids _ _ fresh), set_items_same, E. reflexivity.
Qed.

Lemma requantified_twice (itemId : string) (q1 q2 : N) (l : list (CartItem N)) :
  map (fun item =>
         if String.eqb (id item) itemId
         then mkItem (id item) (name item) (macros item)
                     (Some (Math_max (num_of_Z 0) q2))
         else item)
      (map (fun item =>
              if String.eqb (id item) itemId
              then mkItem (id item) (name item) (macros item)
                          (Some (Math_max (num_of_Z 0) q1))
              else item) l)
  = map (fun item =>
           if String.eqb (id item) itemId
           then mkItem (id item) (name item) (macros item)
                       (Some (Math_max (num_of_Z 0) q2))
           else item) l.
Proof.
  rewrite map_map. apply map_ext. intros item.
  destruct (String.eqb (id item) itemId) eqn:E; simpl; rewrite E; reflexivity.
Qed.

(** Two quantity updates of the same item, one after the other, leave
    what the second alone leaves: the same store and the same request. *)
Theorem updateItemQuantity_last_write_wins (itemId : string) (q1 q2 : N)
  (s : CartState N) :
  updateItemQuantity itemId q2 (fst (updateItemQuantity itemId q1 s))
  = updateItemQuantity itemId q2 s.
Proof.
  unfold updateItemQuantity at 1 3.
  rewrite updateItemQuantity_items, requantified_twice.
  destruct s as [l t k e]. unfold updateItemQuantity, calculateTotals_begin.
  simpl. destruct l as [|item l]; reflexivity.
Qed.

(** Whatever the store holds before, each action leaves it in one of two
    conditions: empty, with no totals and no scoring call started; or
    holding items, with no error and a scoring call started for exactly
    these items and the anchor selected. *)
Theorem every_action_requests_what_it_leaves (s : CartState N) :
  (forall now d, left_in_order (addItem now d s))
  /\ (forall itemId, left_in_order (removeItem itemId s))
  /\ (forall itemId q, left_in_order (updateItemQuantity itemId q s))
  /\ (forall key, left_in_order (setAnchorKey key s))
  /\ left_in_order (calculateTotals_begin s)
  /\ left_in_order (clearCart s, None).
Proof.
  assert (B : forall s' : CartState N, left_in_order (calculateTotals_begin s')).
  { intros [l t k e]. unfold left_in_order, calculateTotals_begin, request_for.
    simpl. destruct l; simpl; split; reflexivity. }
  repeat split; intros; try apply B.
  unfold removeItem.
  destruct (0 <? _)%nat eqn:L; [apply B|].
  apply Nat.ltb_ge in L. unfold left_in_order. simpl in *.
  destruct (filter _ (items s)); simpl in *; [split; reflexivity|lia].
Qed.

(** [calculateTotals] run to its end.  On an empty cart nothing is asked
    of the service, and totals and error end null.  On a cart that holds
    items, an answer becomes the totals, with the number of items, and the
    error ends null; a failure leaves the totals as they were and becomes
    the error.  Items and anchor are as they were in all three cases. *)
Theorem calculateTotals_to_its_end (service : Service N) (s : CartState N) :
  (items s = [] ->
   calculateTotals service s = mkCart [] None (anchorKey s) None)
  /\ (forall result,
        items s <> [] ->
        service (mkRequest (aggregate (items s)) (anchorKey s))
        = Fulfilled result ->
        calculateTotals service s
        = mkCart (items s) (Some (mkTotals result (List.length (items s))))
                 (anchorKey s) None)
  /\ (forall thrown,
        items s <> [] ->
        service (mkRequest (aggregate (items s)) (anchorKey s))
        = Rejected thrown ->
        calculateTotals service s
        = mkCart (items s) (cartTotals s) (anchorKey s)
                 (Some (errorMessage thrown))).
Proof.
  unfold calculateTotals. split; [|split].
  - intros E. rewrite (calculateTotals_begin_empty _ E). simpl.
    unfold set_cartTotals, set_error, set. simpl. rewrite E. reflexivity.
  - intros result F A.
    rewrite (calculateTotals_begin_nonempty _ F). simpl. rewrite A.
    reflexivity.
  - intros thrown F A.
    rewrite (calculateTotals_begin_nonempty _ F). simpl. rewrite A.
    reflexivity.
Qed.

Lemma addItem_pending (now : Z) (d : ItemData N) (s : CartState N) :
  snd (addItem now d s) = Some (request_for (fst (addItem now d s))).
Proof.
  unfold addItem. rewrite calculateTotals_begin_nonempty; [reflexivity|].
  simpl. intros E. apply app_eq_nil in E as [_ E]. discriminate E.
Qed.

Lemma addItem_requestBody (now : Z) (d : ItemData N) (s : CartState N) :
  option_map (@requestBody N) (snd (addItem now d s))
  = Some (mkRequest
            (vadd (aggregate (items s))
                  (contribution (mkItem (Js.toString now) (data_name d)
                                        (data_macros d) (data_quantity d))))
            (anchorKey s)).
Proof.
  unfold addItem.
  rewrite calculateTotals_begin_nonempty.
  - simpl. unfold request_for. simpl. rewrite aggregate_snoc. reflexivity.
  - simpl. intros E. apply app_eq_nil in E as [_ E]. discriminate E.
Qed.

(** [addItem] in full: the new item stands after the items the cart held,
    the totals are left as they were while the call is in flight, the error
    is cleared, and the call started carries the aggregate of the items the
    cart held plus the new item's contribution, and the anchor selected. *)
Theorem addItem_request (now : Z) (d : ItemData N) (s : CartState N) :
  let newItem := mkItem (Js.toString now) (data_name d) (data_macros d)
                        (data_quantity d) in
  addItem now d s
  = (mkCart (items s ++ [newItem]) (cartTotals s) (anchorKey s) None,
     Some (mkPending
             (mkRequest (vadd (aggregate (items s)) (contribution newItem))
                        (anchorKey s))
             (items s ++ [newItem]))).
Proof.
  cbv zeta. unfold addItem.
  rewrite calculateTotals_begin_nonempty.
  - unfold request_for. simpl. rewrite aggregate_snoc. reflexivity.
  - simpl. intros E. apply app_eq_nil in E as [_ E]. discriminate E.
Qed.

(** [itemCount] is the number of items when the call was started, not when
    its answer arrives: of two items added one after the other, the answer
    to the first call counts one item less than the cart holds by then. *)
Theorem itemCount_is_taken_at_the_request (now1 now2 : Z) (d1 d2 : ItemData N)
  (s : CartState N) (result : CastleVerdeIndexResponse N) :
  let '(s1, first) := addItem now1 d1 s in
  let '(s2, second) := addItem now2 d2 s1 in
  let s3 := deliver (fun _ => Fulfilled result) first s2 in
  option_map (@itemCount N) (cartTotals s3) = Some (List.length (items s) + 1)%nat
  /\ List.length (items s3) = (List.length (items s) + 2)%nat.
Proof.
  pose proof (addItem_items now1 d1 s) as I1.
  destruct (addItem now1 d1 s) as [s1 first] eqn:A1.
  pose proof (addItem_items now2 d2 s1) as I2.
  destruct (addItem now2 d2 s1) as [s2 second] eqn:A2.
  cbv zeta. simpl in I1, I2.
  unfold addItem in A1. rewrite calculateTotals_begin_nonempty in A1.
  - injection A1 as <- <-. simpl. split.
    + rewrite length_app. reflexivity.
    + rewrite I1 in I2. rewrite I2, !length_app. simpl. lia.
  - simpl. intros E. apply app_eq_nil in E as [_ E]. discriminate E.
Qed.

(** [clearCart] does not stop a call in flight: its answer arrives on the
    empty cart and becomes the totals, with the count of the cart that was
    cleared; the item added next is shown with these totals until the
    answer to its own call arrives. *)
Theorem answer_after_clearCart (key : string) (now : Z) (d : ItemData N)
  (s : CartState N) (result : CastleVerdeIndexResponse N) :
  items s <> [] ->
  let '(s1, inFlight) := setAnchorKey key s in
  let s2 := clearCart s1 in
  let s3 := deliver (fun _ => Fulfilled result) inFlight s2 in
  let '(s4, _) := addItem now d s3 in
  items s2 = [] /\ cartTotals s2 = None
  /\ items s3 = []
  /\ cartTotals s3 = Some (mkTotals result (List.length (items s)))
  /\ List.length (items s4) = 1%nat
  /\ cartTotals s4 = Some (mkTotals result (List.length (items s)))
  /\ option_map (@Macro5.actualProtein N) (Page.cartChart s4)
     = Some (protein (input_data result)).
Proof.
  intros F. unfold setAnchorKey.
  rewrite calculateTotals_begin_nonempty by exact F.
  cbv zeta. unfold addItem. rewrite calculateTotals_begin_nonempty.
  - simpl. repeat split.
  - simpl. discriminate.
Qed.

End CartStoreActions.

(* ================================================================== *)
(** * The cart in exact arithmetic: nothing negative is sent *)

Section SoundCart.
Import CartStore Invariants.

Lemma nonnegative_term (a b c : Q) : 0 <= a -> 0 <= b -> 0 <= c -> 0 <= a + b * c.
Proof.
  intros A B C. pose proof (Qmult_le_0_compat b c B C) as M.
  revert M. generalize (b * c). intros x M. lra.
Qed.

Lemma num_or_nonnegative_exact (x : Q) : 0 <= x -> 0 <= num_or x (num_of_Z 0).
Proof.
  intros L. unfold num_or. destruct (num_truthy x); [exact L|apply Qle_refl].
Qed.

Lemma macro_or_0_nonnegative (f : MacroNutrients Q -> Q) (item : CartItem Q) :
  (forall m, macros item = Some m -> 0 <= f m) -> 0 <= macro_or_0 f item.
Proof.
  intros S. unfold macro_or_0, opt_or.
  destruct (macros item) as [m|]; simpl.
  - apply num_or_nonnegative_exact, S. reflexivity.
  - apply Qle_refl.
Qed.

Lemma counted_quantity_nonnegative (item : CartItem Q) :
  sound_quantity (quantity item) -> 0 <= counted_quantity item.
Proof.
  unfold counted_quantity, opt_or, num_or, sound_quantity.
  destruct (quantity item) as [q|]; [|discriminate].
  destruct (num_truthy q); [auto|discriminate].
Qed.

Lemma accumulate_nonnegative (acc : MacroNutrients Q) (item : CartItem Q) :
  nonnegative acc -> sound_item item -> nonnegative (accumulate acc item).
Proof.
  intros (A1 & A2 & A3 & A4 & A5) [M Q0].
  pose proof (counted_quantity_nonnegative _ Q0) as C.
  unfold sound_macros in M.
  unfold nonnegative, accumulate. fold (counted_quantity item). simpl.
  repeat split; apply nonnegative_term; try assumption;
    apply macro_or_0_nonnegative; intros m E; rewrite E in M;
    destruct M as (M1 & M2 & M3 & M4 & M5); assumption.
Qed.

Lemma aggregate_nonnegative (l : list (CartItem Q)) :
  Forall sound_item l -> nonnegative (aggregate l).
Proof.
  unfold aggregate.
  assert (Z : nonnegative zero_macros) by (repeat split; discriminate).
  revert Z. generalize (@zero_macros Q _).
  induction l as [|item l IH]; intros acc A S; simpl; [exact A|].
  inversion S as [|? ? S1 S2]; subst.
  apply IH; [apply accumulate_nonnegative; assumption|exact S2].
Qed.

(** In exact arithmetic: a cart whose items carry no negative nutrient and
    no negative quantity stays so under every action ([addItem] of such an
    item, [updateItemQuantity] with any quantity, negative ones included),
    and every scoring request started for it carries an aggregate with no
    negative nutrient. *)
Theorem requests_are_never_negative_exact (s : CartState Q) :
  sound s ->
  (forall now d,
      sound_macros (data_macros d) -> sound_quantity (data_quantity d) ->
      sound (fst (addItem now d s)))
  /\ (forall itemId, sound (fst (removeItem itemId s)))
  /\ (forall itemId q, sound (fst (updateItemQuantity itemId q s)))
  /\ (forall key, sound (fst (setAnchorKey key s)))
  /\ (forall p o, sound (calculateTotals_settle p o s))
  /\ sound (clearCart s)
  /\ (forall p, snd (calculateTotals_begin s) = Some p ->
                nonnegative (aggregated_input_data (requestBody p))).
Proof.
  unfold sound. intros S.
  split; [|split; [|split; [|split; [|split; [|split]]]]].
  - intros now d M Q0. rewrite addItem_items. apply Forall_app. split; [exact S|].
    repeat constructor; assumption.
  - intros itemId. rewrite removeItem_items. apply Forall_forall.
    intros item I. apply filter_In in I as [I _].
    rewrite Forall_forall in S. apply S, I.
  - intros itemId q. rewrite updateItemQuantity_items. apply Forall_forall.
    intros item I. apply in_map_iff in I as (old & E & I).
    rewrite Forall_forall in S. specialize (S old I).
    destruct (String.eqb (id old) itemId); subst item; [|exact S].
    split; [apply S|]. simpl. apply Math_max_0_exact.
  - intros key. rewrite setAnchorKey_items. exact S.
  - intros p o. rewrite calculateTotals_settle_items. exact S.
  - constructor.
  - intros p B. apply calculateTotals_begin_request in B as [B _].
    rewrite B. simpl. apply aggregate_nonnegative, S.
Qed.

End SoundCart.

(* ================================================================== *)
(** * Submitting the form: [handleAnalyzeAndAddToCart] *)

Section SubmitFacts.
Context {N : Type} `{JsNumber N}.
Import CartStore App Page.
#[local] Open Scope string_scope.

Lemma calculateIndividualScore_draft
  (service : CalculationRequest N -> ScoreOutcome N)
  (nutritionInput : NutritionData N) (key : string) (a : AppState N) :
  ocrResultData (calculateIndividualScore service nutritionInput key a)
  = ocrResultData a.
Proof.
  unfold calculateIndividualScore. destruct (service _); reflexivity.
Qed.

Lemma handleAnalyzeAndAddToCart_cart
  (service : CalculationRequest N -> ScoreOutcome N) (now : Z)
  (data : NutritionData N) (st : PageState N) :
  cart (fst (handleAnalyzeAndAddToCart service now data st))
  = fst (addItem now (cartItem data (app st)) (cart st))
  /\ snd (handleAnalyzeAndAddToCart service now data st)
     = snd (addItem now (cartItem data (app st)) (cart st)).
Proof.
  unfold handleAnalyzeAndAddToCart.
  cbn [cart app setSubmissionError setIsSubmittingItem].
  destruct (addItem now _ (cart st)); split; reflexivity.
Qed.

Lemma handleAnalyzeAndAddToCart_draft
  (service : CalculationRequest N -> ScoreOutcome N) (now : Z)
  (data : NutritionData N) (st : PageState N) :
  ocrResultData (app (fst (handleAnalyzeAndAddToCart service now data st)))
  = Some (formDataForOcrState data (app st)).
Proof.
  unfold handleAnalyzeAndAddToCart.
  cbn [cart app setSubmissionError setIsSubmittingItem].
  destruct (addItem now _ (cart st)). simpl.
  apply calculateIndividualScore_draft.
Qed.

(** The item is added to the cart whatever the single-item scoring call
    answers: the cart ends with the item after the ones it held, named by
    the form's name (or "Unnamed Item"), its nutrients multiplied by the
    servings; a cart-level scoring call is started for the enlarged cart;
    the draft is the submitted data; the submission ends with no error of
    its own; and the single-item score and error are what the scoring call
    left. *)
Theorem handleAnalyzeAndAddToCart_adds_the_item
  (service : CalculationRequest N -> ScoreOutcome N) (now : Z)
  (data : NutritionData N) (st : PageState N) :
  let newItem :=
    mkItem (Js.toString now) (Js.str_or (nd_itemName data) "Unnamed Item")
           (Some (multipliedMacros data (servings (app st)))) None in
  let '(after, pending) := handleAnalyzeAndAddToCart service now data st in
  items (cart after) = (items (cart st) ++ [newItem])%list
  /\ option_map (@requestBody N) pending
     = Some (mkRequest (vadd (aggregate (items (cart st))) (contribution newItem))
                       (anchorKey (cart st)))
  /\ isSubmittingItem after = false
  /\ submissionError after = None
  /\ ocrResultData (app after) = Some (formDataForOcrState data (app st))
  /\ (forall message,
        service (individualRequest data (anchorKey (cart st)))
        = ScoreFailed message ->
        individualItemScore (app after) = None
        /\ calculationItemError (app after)
           = Some (Js.str_or message
                     "An unexpected error occurred during calculation."))
  /\ (forall resultData,
        service (individualRequest data (anchorKey (cart st)))
        = Scored resultData ->
        individualItemScore (app after) = predicted_spike resultData
        /\ calculationItemError (app after) = None).
Proof.
  cbv zeta. unfold handleAnalyzeAndAddToCart.
  cbn [cart app setSubmissionError setIsSubmittingItem].
  pose proof (addItem_items now (cartItem data (app st)) (cart st)) as I.
  pose proof (addItem_requestBody now (cartItem data (app st)) (cart st)) as R.
  destruct (addItem now (cartItem data (app st)) (cart st)) as [c pending].
  simpl in I, R. simpl.
  split; [exact I|]. split; [exact R|]. split; [reflexivity|].
  split; [reflexivity|].
  unfold calculateIndividualScore.
  split; [destruct (service _); reflexivity|].
  split; [intros message E|intros resultData E]; rewrite E; split; reflexivity.
Qed.

(** The servings read off a scanned label stay with the draft: the item
    submitted after the scan is added with its nutrients multiplied by
    them, and so is the item submitted after that one, although it was
    typed by hand. *)
Theorem scanned_servings_stick (ocrData : OcrResponse N) (v : N)
  (service1 service2 : CalculationRequest N -> ScoreOutcome N)
  (now1 now2 : Z) (data1 data2 : NutritionData N) (page : PageState N) :
  ocr_servings ocrData = Some v ->
  (v >? num_of_Z 0)%js = true ->
  let scanned :=
    with_app (processCapturedImage (OcrScanned ocrData) (app page)) page in
  let first := fst (handleAnalyzeAndAddToCart service1 now1 data1 scanned) in
  let second := fst (handleAnalyzeAndAddToCart service2 now2 data2 first) in
  servings (app scanned) = v
  /\ servings (app first) = v
  /\ servings (app second) = v
  /\ map (@macros N) (items (cart second))
     = (map (@macros N) (items (cart page))
        ++ [Some (multipliedMacros data1 v); Some (multipliedMacros data2 v)])%list.
Proof.
  intros V P. cbv zeta.
  set (scanned := with_app _ page).
  assert (S0 : servings (app scanned) = v).
  { unfold servings, draftServings, scanned. simpl. rewrite V, P. reflexivity. }
  set (first := fst (handleAnalyzeAndAddToCart service1 now1 data1 scanned)).
  assert (D1 : draftServings (app first) = v).
  { unfold draftServings at 1. unfold first.
    rewrite handleAnalyzeAndAddToCart_draft. simpl.
    unfold draftServings, scanned. simpl. rewrite V. reflexivity. }
  assert (S1 : servings (app first) = v).
  { unfold servings. rewrite D1, P. reflexivity. }
  set (second := fst (handleAnalyzeAndAddToCart service2 now2 data2 first)).
  assert (D2 : draftServings (app second) = v).
  { unfold draftServings at 1. unfold second.
    rewrite handleAnalyzeAndAddToCart_draft. simpl. exact D1. }
  split; [exact S0|]. split; [exact S1|]. split.
  - unfold servings. rewrite D2, P. reflexivity.
  - unfold second.
    rewrite (proj1 (handleAnalyzeAndAddToCart_cart service2 now2 data2 first)).
    rewrite addItem_items. unfold first.
    rewrite (proj1 (handleAnalyzeAndAddToCart_cart service1 now1 data1 scanned)).
    rewrite addItem_items. fold first.
    rewrite !map_app, <- app_assoc. unfold cartItem.
    cbn [map macros data_macros]. rewrite S0, S1. reflexivity.
Qed.

End SubmitFacts.

Section ServingsFacts.
Import App Page.
#[local] Open Scope js_scope.

Lemma servings_positive_exact (a : AppState Q) : (0 < servings a)%Q.
Proof.
  unfold servings.
  destruct (draftServings a >? num_of_Z 0) eqn:P; [|reflexivity].
  simpl in P. unfold Exact.ltb in P. apply negb_true_iff in P.
  apply Qnot_le_lt. intros L. apply Qle_bool_iff in L.
  change (inject_Z 0) with 0%Q in P. congruence.
Qed.

(** The servings an item is multiplied by are positive, whatever the draft
    holds: a count that is missing, null, zero, negative or NaN is replaced
    by 1, and with no draft they are 1. *)
Theorem servings_are_positive :
  (forall a : AppState float, (servings a >? num_of_Z 0) = true)
  /\ (forall a : AppState Q, (0 < servings a)%Q)
  /\ (forall (N : Type) (H : JsNumber N) (a : AppState N),
        (draftServings a >? num_of_Z 0) = false -> servings a = num_of_Z 1)
  /\ (forall (N : Type) (H : JsNumber N) (a : AppState N),
        ocrResultData a = None -> servings a = num_of_Z 1).
Proof.
  split; [|split; [|split]].
  - intros a. unfold servings.
    destruct (draftServings a >? num_of_Z 0) eqn:P; [exact P|reflexivity].
  - apply servings_positive_exact.
  - intros N H a P. unfold servings. rewrite P. reflexivity.
  - intros N H a E. unfold servings, draftServings. rewrite E.
    destruct (num_of_Z 1 >? num_of_Z 0); reflexivity.
Qed.

End ServingsFacts.

(* ================================================================== *)
(** * White space, the voice input, and the balancing effect *)

Section TrimFacts.
Import Js Page.
#[local] Open Scope string_scope.

Lemma trim_is_empty_eq (s : string) :
  trim_is_empty s
  = match s with
    | EmptyString => true
    | _ => match after_space s with
           | Some rest => trim_is_empty rest
           | None => false
           end
    end.
Proof.
  destruct s as [|c1 [|c2 [|c3 rest]]]; simpl; try reflexivity.
  - destruct (is_space c1); reflexivity.
  - destruct (is_space c1); [reflexivity|].
    destruct (is_space2 c1 c2); reflexivity.
  - destruct (is_space c1); [reflexivity|].
    destruct (is_space2 c1 c2); [reflexivity|].
    destruct (is_space3 c1 c2 c3); reflexivity.
Qed.

Lemma trimStart_eq (s : string) :
  trimStart s
  = match after_space s with
    | Some rest => trimStart rest
    | None => s
    end.
Proof.
  destruct s as [|c1 [|c2 [|c3 rest]]]; simpl; try reflexivity.
  - destruct (is_space c1); reflexivity.
  - destruct (is_space c1); [reflexivity|].
    destruct (is_space2 c1 c2); reflexivity.
  - destruct (is_space c1); [reflexivity|].
    destruct (is_space2 c1 c2); [reflexivity|].
    destruct (is_space3 c1 c2 c3); reflexivity.
Qed.

Lemma trimEnd_eq (s : string) :
  trimEnd s
  = if trim_is_empty s then ""
    else match s with
         | "" => ""
         | String c rest => String c (trimEnd rest)
         end.
Proof. destruct s; reflexivity. Qed.

Lemma after_space_shorter (s rest : string) :
  after_space s = Some rest -> (String.length rest < String.length s)%nat.
Proof.
  destruct s as [|c1 [|c2 [|c3 tail]]]; simpl; try discriminate.
  - destruct (is_space c1); [|discriminate]. intros E. injection E as <-.
    simpl. lia.
  - destruct (is_space c1); [intros E; injection E as <-; simpl; lia|].
    destruct (is_space2 c1 c2); [|discriminate].
    intros E; injection E as <-; simpl; lia.
  - destruct (is_space c1); [intros E; injection E as <-; simpl; lia|].
    destruct (is_space2 c1 c2); [intros E; injection E as <-; simpl; lia|].
    destruct (is_space3 c1 c2 c3); [|discriminate].
    intros E; injection E as <-; simpl; lia.
Qed.

Lemma continues_bounds (c : ascii) :
  continues c = true -> (128 <= nat_of_ascii c <= 191)%nat.
Proof.
  unfold continues. intros C. apply andb_true_iff in C as [L U].
  apply Nat.leb_le in L. apply Nat.leb_le in U. lia.
Qed.

Lemma is_space2_continues (c1 c2 : ascii) :
  is_space2 c1 c2 = true -> continues c2 = true.
Proof.
  unfold is_space2, continues. intros S.
  apply andb_true_iff in S as [_ S]. apply Nat.eqb_eq in S. rewrite S.
  reflexivity.
Qed.

Lemma is_space3_continues (c1 c2 c3 : ascii) :
  is_space3 c1 c2 c3 = true -> continues c2 = true /\ continues c3 = true.
Proof.
  unfold is_space3, continues.
  set (n1 := nat_of_ascii c1). set (n2 := nat_of_ascii c2).
  set (n3 := nat_of_ascii c3). intros S.
  assert (B : (128 <= n2 <= 191 /\ 128 <= n3 <= 191)%nat).
  { repeat (apply orb_true_iff in S as [S|S]);
      repeat match goal with
             | X : (_ && _) = true |- _ => apply andb_true_iff in X as [? ?]
             | X : (_ || _) = true |- _ => apply orb_true_iff in X as [?|?]
             | X : (_ =? _)%nat = true |- _ => apply Nat.eqb_eq in X
             | X : (_ <=? _)%nat = true |- _ => apply Nat.leb_le in X
             end; lia. }
  destruct B as [[L2 U2] [L3 U3]].
  apply Nat.leb_le in L2, U2, L3, U3. rewrite L2, U2, L3, U3. split; reflexivity.
Qed.

Lemma neqb (n k : nat) : n <> k -> (n =? k)%nat = false.
Proof. apply Nat.eqb_neq. Qed.

Lemma continues_starts_no_space (c : ascii) (rest : string) :
  continues c = true -> after_space (String c rest) = None.
Proof.
  intros C. apply continues_bounds in C.
  assert (S1 : is_space c = false).
  { unfold is_space. rewrite neqb by lia. simpl.
    replace (nat_of_ascii c <=? 13)%nat with false
      by (symmetry; apply Nat.leb_gt; lia).
    apply andb_false_r. }
  assert (S2 : forall c2, is_space2 c c2 = false).
  { intros c2. unfold is_space2. rewrite neqb by lia. reflexivity. }
  assert (S3 : forall c2 c3, is_space3 c c2 c3 = false).
  { intros c2 c3. unfold is_space3.
    rewrite !(@neqb (nat_of_ascii c)) by lia. reflexivity. }
  simpl. rewrite S1.
  destruct rest as [|c2 [|c3 rest]]; [reflexivity| |]; rewrite S2;
    [reflexivity|]. rewrite S3. reflexivity.
Qed.

Lemma continues_not_blank (c : ascii) (rest : string) :
  continues c = true -> trim_is_empty (String c rest) = false.
Proof.
  intros C. rewrite trim_is_empty_eq, continues_starts_no_space by exact C.
  reflexivity.
Qed.

Lemma by_length (P : string -> Prop) :
  (forall s, (forall r, (String.length r < String.length s)%nat -> P r) -> P s) ->
  forall s, P s.
Proof.
  intros Step s.
  assert (G : forall n r, (String.length r < n)%nat -> P r).
  { induction n as [|n IH]; intros r L; [lia|].
    apply Step. intros r' L'. apply IH. lia. }
  apply (G (S (String.length s))). lia.
Qed.

Lemma trimStart_keeps_blankness (s : string) :
  trim_is_empty (trimStart s) = trim_is_empty s.
Proof.
  induction s as [s IH] using by_length.
  rewrite trimStart_eq, (trim_is_empty_eq s).
  destruct (after_space s) as [rest|] eqn:A.
  - rewrite (IH rest (@after_space_shorter _ rest A)).
    destruct s; [discriminate A|reflexivity].
  - destruct s; [reflexivity|].
    rewrite trim_is_empty_eq, A. reflexivity.
Qed.

(** What [trimEnd] keeps starts as the string does. *)
Lemma trimEnd_starts (c : ascii) (s : string) :
  after_space (String c s) = None ->
  after_space (String c (trimEnd s)) = None.
Proof.
  simpl. destruct (is_space c); [discriminate|].
  rewrite (trimEnd_eq s).
  destruct (trim_is_empty s); [reflexivity|].
  destruct s as [|c2 s2]; [reflexivity|].
  destruct (is_space2 c c2); [discriminate|].
  rewrite (trimEnd_eq s2).
  destruct (trim_is_empty s2); [reflexivity|].
  destruct s2 as [|c3 s3]; [reflexivity|].
  destruct (is_space3 c c2 c3); [discriminate|reflexivity].
Qed.

Lemma trimEnd_not_blank (c : ascii) (s : string) :
  trim_is_empty (String c s) = false ->
  trimEnd (String c s) = String c (trimEnd s).
Proof. intros B. rewrite trimEnd_eq, B. reflexivity. Qed.

Lemma trimEnd_keeps_blankness (s : string) :
  trim_is_empty (trimEnd s) = trim_is_empty s.
Proof.
  induction s as [s IH] using by_length.
  destruct (trim_is_empty s) eqn:B.
  - rewrite trimEnd_eq, B. reflexivity.
  - destruct s as [|c1 rest1]; [discriminate B|].
    rewrite (@trimEnd_not_blank c1 rest1 B).
    pose proof B as B'. rewrite trim_is_empty_eq in B'.
    destruct (after_space (String c1 rest1)) as [rest|] eqn:A.
    + (* the string starts with white space *)
      assert (K : trim_is_empty (trimEnd rest) = false).
      { rewrite (IH rest (@after_space_shorter _ rest A)). exact B'. }
      revert A. simpl.
      destruct (is_space c1) eqn:S1.
      { intros E. injection E as <-. exact K. }
      destruct rest1 as [|c2 rest2]; [discriminate|].
      destruct (is_space2 c1 c2) eqn:S2.
      { intros E. injection E as <-.
        rewrite (@trimEnd_not_blank c2 rest2
                   (@continues_not_blank c2 rest2
                      (@is_space2_continues c1 c2 S2))).
        rewrite S2. exact K. }
      destruct rest2 as [|c3 rest3]; [discriminate|].
      destruct (is_space3 c1 c2 c3) eqn:S3; [|discriminate].
      intros E. injection E as <-.
      destruct (@is_space3_continues c1 c2 c3 S3) as [C2 C3].
      rewrite (@trimEnd_not_blank c2 (String c3 rest3)
                 (@continues_not_blank c2 (String c3 rest3) C2)).
      rewrite (@trimEnd_not_blank c3 rest3 (@continues_not_blank c3 rest3 C3)).
      rewrite S2, S3. exact K.
    + rewrite trim_is_empty_eq, (@trimEnd_starts c1 rest1 A). reflexivity.
Qed.

Lemma trim_keeps_blankness (s : string) :
  trim_is_empty (trim s) = trim_is_empty s.
Proof.
  unfold trim. rewrite trimEnd_keeps_blankness. apply trimStart_keeps_blankness.
Qed.

(** [!s.trim()] holds exactly when [s.trim()] is the empty string. *)
Lemma trim_is_empty_trim (s : string) :
  trim_is_empty s = true <-> trim s = "".
Proof.
  split.
  - intros B. unfold trim. rewrite trimEnd_eq, trimStart_keeps_blankness, B.
    reflexivity.
  - intros E. rewrite <- trim_keeps_blankness, E. reflexivity.
Qed.

(** A no-break space, a space, "oats", an em space (U+2003) and a line
    feed: [trim] leaves "oats". *)
Example trim_oats :
  let nbsp := String (ascii_of_nat 194) (String (ascii_of_nat 160) EmptyString) in
  let emsp :=
    String (ascii_of_nat 226)
      (String (ascii_of_nat 128) (String (ascii_of_nat 131) EmptyString)) in
  let lf := String (ascii_of_nat 10) EmptyString in
  trim (nbsp ++ " oats" ++ emsp ++ lf) = "oats"
  /\ trim_is_empty (nbsp ++ emsp ++ lf) = true
  /\ trim "rolled  oats " = "rolled  oats".
Proof. vm_compute. repeat split. Qed.

End TrimFacts.

Section LookupFacts.
Context {N : Type} `{JsNumber N}.
Import CartStore App Page.
#[local] Open Scope string_scope.

(** A voice result starts the lookup twice when the transcript is not
    blank, once for the transcript as heard and once for the transcript
    trimmed, and leaves the page looking up with draft, score and errors
    cleared; a blank transcript starts no lookup and leaves the page's
    state as it was.  Either way the transcript is kept for display and
    listening ends. *)
Theorem onresult_starts_the_lookup_twice (currentTranscript : string)
  (st : PageState N) :
  let '(after, requests) := onresult currentTranscript st in
  transcript after = currentTranscript
  /\ isListening after = false
  /\ cart after = cart st
  /\ (Js.trim_is_empty currentTranscript = true ->
      requests = [] /\ app after = app st)
  /\ (Js.trim_is_empty currentTranscript = false ->
      requests = [currentTranscript; trim currentTranscript]
      /\ isLookingUp (app after) = true
      /\ ocrResultData (app after) = None
      /\ individualItemScore (app after) = None
      /\ lookupError (app after) = None
      /\ calculationItemError (app after) = None).
Proof.
  unfold onresult, handleAutoFillRequest_begin.
  rewrite trim_keeps_blankness.
  destruct (Js.trim_is_empty currentTranscript); simpl;
    repeat split; intros; try discriminate; reflexivity.
Qed.

(** The balancing effect and the single item's chart go together.  When
    the chart is drawn and the single-item anchor is not empty, the effect
    starts a request that carries, nutrient by nutrient, the actual values
    the chart draws, and the anchor mapped by [mapAnchorKeyToApiValue];
    it clears the balanced macros and raises its flag.  When no chart is
    drawn (no draft, no score, or a scoring call running), or the anchor is
    empty, the effect starts no request and clears the balanced macros. *)
Theorem balancing_request_carries_what_the_chart_draws (a : AppState N) :
  (forall props,
      singleItemChart a = Some props ->
      singleItemAnchorKey a <> "" ->
      exists request,
        snd (fetchIndividualBalancedMacros_begin a) = Some request
        /\ aggregated_input_data request
           = mkMacros (Macro5.actualProtein props) (Macro5.actualFat props)
                      (Macro5.actualTotalCarbs props)
                      (Macro5.actualFiber props) (Macro5.actualSugar props)
        /\ anchor_id request = mapAnchorKeyToApiValue (singleItemAnchorKey a)
        /\ Macro5.anchorKey props = Some (singleItemAnchorKey a)
        /\ individualBalancedMacros (fst (fetchIndividualBalancedMacros_begin a))
           = None
        /\ isFetchingIndividualBalance
             (fst (fetchIndividualBalancedMacros_begin a)) = true)
  /\ (singleItemChart a = None \/ singleItemAnchorKey a = "" ->
      snd (fetchIndividualBalancedMacros_begin a) = None
      /\ individualBalancedMacros (fst (fetchIndividualBalancedMacros_begin a))
         = None).
Proof.
  unfold fetchIndividualBalancedMacros_begin, singleItemChart.
  destruct (ocrResultData a) as [d|]; [|split; [discriminate|split; reflexivity]].
  destruct (individualItemScore a) as [score|];
    [|split; [discriminate|split; reflexivity]].
  destruct (isCalculatingItem a); simpl;
    [split; [discriminate|split; reflexivity]|].
  destruct (String.eqb_spec (singleItemAnchorKey a) "") as [E|K]; simpl.
  - split; [intros props _ K; contradiction|]. intros _. split; reflexivity.
  - split.
    + intros props P _. injection P as <-.
      eexists. split; [reflexivity|]. repeat split.
    + intros [P|E]; [discriminate P|contradiction].
Qed.

End LookupFacts.

(* ================================================================== *)
(** * The crop zone of the camera capture *)

Section CropFacts.
Import Page.

(** In exact arithmetic the rectangle cut out of a video frame lies inside
    the frame: it starts a tenth of the width from the left and three
    tenths of the height from the top, and ends a tenth of the width from
    the right and three tenths of the height from the bottom.  In binary64,
    on a frame of 1280 by 720, it is the rectangle of 1024 by 288 at
    (128, 216). *)
Theorem cropZone_lies_inside_the_frame :
  (forall videoWidth videoHeight : Q,
      0 <= videoWidth -> 0 <= videoHeight ->
      let zone := cropZone videoWidth videoHeight in
      0 <= sx zone /\ 0 <= sy zone
      /\ 0 <= sWidth zone /\ 0 <= sHeight zone
      /\ sx zone + sWidth zone == videoWidth - videoWidth * (1 # 10)
      /\ sy zone + sHeight zone == videoHeight - videoHeight * (3 # 10)
      /\ sx zone + sWidth zone <= videoWidth
      /\ sy zone + sHeight zone <= videoHeight)
  /\ cropZone (num_of_Z 1280 : float) (num_of_Z 720)
     = mkCrop (num_of_Z 128) (num_of_Z 216) (num_of_Z 1024) (num_of_Z 288).
Proof.
  split; [|vm_compute; reflexivity].
  intros w h W Hh. cbv zeta. unfold cropZone. simpl.
  unfold CROP_ZONE_X_PERCENT, CROP_ZONE_Y_PERCENT, CROP_ZONE_WIDTH_PERCENT,
    CROP_ZONE_HEIGHT_PERCENT, dec. simpl.
  change (inject_Z 1 / inject_Z 10) with (1 # 10).
  change (inject_Z 3 / inject_Z 10) with (3 # 10).
  change (inject_Z 8 / inject_Z 10) with (8 # 10).
  change (inject_Z 4 / inject_Z 10) with (4 # 10).
  repeat split; lra.
Qed.

End CropFacts.

(* ================================================================== *)
(** * The cart's score card and the gauge *)

Section DisplayFacts.
Import Gauge.
#[local] Open Scope string_scope.
#[local] Open Scope js_scope.

(** Whenever the card finds a zone for a score, the gauge classifies the
    score under the same label; the two tables give the zone different
    colours. *)
Theorem card_and_gauge_agree_on_the_label (N : Type) (H : JsNumber N)
  (score : option N) :
  match Display.getZone score with
  | Some zone =>
      info_label (getZone score) = Display.label zone
      /\ info_color (getZone score) <> Display.color zone
  | None => True
  end.
Proof.
  destruct score as [s|]; [|exact I].
  unfold Display.getZone, getZone, Display.zones, zones, Display.in_range,
    in_range.
  destruct (s <? num_of_Z 0); [exact I|].
  cbn [find fst snd range Display.range].
  repeat match goal with
         | |- context [if (?a && ?b)%bool then _ else _] =>
             destruct (a && b)%bool;
             [cbn; split; [reflexivity|discriminate]|]
         end.
  exact I.
Qed.

Lemma card_zone_binary64 (s : float) :
  Display.getZone (Some s) =
  if s <? num_of_Z 0 then None
  else if (s >=? num_of_Z 0) && (s <=? dec 149 10)
       then Some (Display.mkZone "Low" (num_of_Z 0, dec 149 10)
                                 "#28a745" "bg-[#f5fef6]")
  else if (s >=? num_of_Z 15) && (s <=? dec 249 10)
       then Some (Display.mkZone "Caution" (num_of_Z 15, dec 249 10)
                                 "#d3a00f" "bg-[#fffdf5]")
  else if (s >=? num_of_Z 25) && (s <=? dec 349 10)
       then Some (Display.mkZone "Dangerous" (num_of_Z 25, dec 349 10)
                                 "#d98c00" "bg-[#fff5f5]")
  else if (s >=? num_of_Z 35) && (s <=? num_of_Z 50)
       then Some (Display.mkZone "Red Zone" (num_of_Z 35, num_of_Z 50)
                                 "#c0392b" "bg-[#fff5f5]")
  else None.
Proof.
  unfold Display.getZone, Display.zones, Display.in_range.
  cbn [find fst snd Display.range].
  destruct (s <? num_of_Z 0); [reflexivity|].
  repeat match goal with
         | |- context [if (?a && ?b)%bool then _ else _] =>
             destruct (a && b)%bool; [reflexivity|]
         end.
  reflexivity.
Qed.

Lemma card_zone_exact (s : Q) :
  Display.getZone (Some s) =
  if negb (Qle_bool 0 s) then None
  else if Qle_bool 0 s && Qle_bool s (149#10)
       then Some (Display.mkZone "Low" (0, 149#10) "#28a745" "bg-[#f5fef6]")
  else if Qle_bool 15 s && Qle_bool s (249#10)
       then Some (Display.mkZone "Caution" (15, 249#10) "#d3a00f" "bg-[#fffdf5]")
  else if Qle_bool 25 s && Qle_bool s (349#10)
       then Some (Display.mkZone "Dangerous" (25, 349#10) "#d98c00"
                                 "bg-[#fff5f5]")
  else if Qle_bool 35 s && Qle_bool s 50
       then Some (Display.mkZone "Red Zone" (35, 50) "#c0392b" "bg-[#fff5f5]")
  else None.
Proof. reflexivity. Qed.

(** Where the card finds no zone for a score, the gauge answers "N/A",
    except above 50, where the gauge answers "Red Zone" and the card, given
    no error, prints the score in black on white with no risk label.  In
    binary64 and in exact arithmetic. *)
Theorem card_without_a_zone :
  (forall s : float,
      Display.getZone (Some s) = None ->
      getZone (Some s)
      = if s >? num_of_Z 50 then mkInfo "Red Zone" "#E74C3C" else not_available)
  /\ (forall s : float,
        (s >? num_of_Z 50) = true ->
        Display.CastleVerdeIndexDisplay (Some s) false None
        = Display.mkCard "bg-white" (Display.ScoreLine s "#000" None) None)
  /\ (forall s : Q,
        Display.getZone (Some s) = None ->
        getZone (Some s)
        = if s >? num_of_Z 50 then mkInfo "Red Zone" "#E74C3C" else not_available)
  /\ (forall s : Q,
        (50 < s)%Q ->
        Display.CastleVerdeIndexDisplay (Some s) false None
        = Display.mkCard "bg-white" (Display.ScoreLine s "#000" None) None).
Proof.
  split; [|split; [|split]].
  - intros s. rewrite card_zone_binary64, getZone_binary64_unfold.
    destruct (s <? num_of_Z 0) eqn:Neg.
    + intros _. destruct (below_zero_binary64 Neg) as (F0 & F15 & F25 & F35 & F50).
      rewrite F0, F15, F25, F35, F50. reflexivity.
    + repeat match goal with
             | |- context [if (?a && ?b)%bool then _ else _] =>
                 destruct (a && b)%bool; [discriminate|]
             end.
      reflexivity.
  - intros s A. unfold Display.CastleVerdeIndexDisplay.
    rewrite card_zone_binary64.
    destruct (above_50_binary64 A) as (F1 & F2 & F3 & F4).
    rewrite F1, F2, F3, F4, !andb_false_r.
    destruct (s <? num_of_Z 0); reflexivity.
  - intros s. rewrite card_zone_exact, getZone_exact_unfold.
    change (num_ltb (N:=Q) (num_of_Z 50) s) with (negb (Qle_bool s 50)).
    repeat match goal with
           | |- context [Qle_bool ?a ?b] => destruct (Qle_bool_reflect a b)
           end; simpl; intros E; try reflexivity; try discriminate E;
      exfalso; lra.
  - intros s A. unfold Display.CastleVerdeIndexDisplay.
    rewrite card_zone_exact.
    repeat match goal with
           | |- context [Qle_bool ?a ?b] => destruct (Qle_bool_reflect a b)
           end; simpl; try reflexivity; exfalso; lra.
Qed.

End DisplayFacts.

(* ================================================================== *)
(** * The gauge's needles *)

Section NeedleFacts.
Import Gauge Needle.

Lemma scoreToAngle_exact (s : Q) :
  markAngle s ==
  (if Qle_bool 0 s then if Qle_bool 50 s then 50 else s else 0) * (18 # 5) - 90.
Proof.
  unfold markAngle, scoreToAngle, GAUGE_START_ANGLE, GAUGE_RANGE,
    GAUGE_END_ANGLE, MIN_SCORE, MAX_SCORE. simpl.
  unfold Exact.min, Exact.max.
  change (inject_Z 0) with 0. change (inject_Z 50) with 50.
  change (inject_Z 90) with 90. change (inject_Z (-90)) with (-90 # 1).
  destruct (Qle_bool_reflect 0 s) as [P|P].
  - destruct (Qle_bool_reflect 50 s) as [U|U]; field.
  - destruct (Qle_bool_reflect 50 0) as [U|U]; [exfalso; lra|field].
Qed.

Lemma clampedScore_exact (g : GaugeState Q) :
  0 <= clampedScore g <= 50.
Proof.
  unfold clampedScore. destruct (animatedScore g) as [a|].
  - unfold clamp, MIN_SCORE, MAX_SCORE. simpl. unfold Exact.max, Exact.min.
    change (inject_Z 0) with 0. change (inject_Z 50) with 50.
    destruct (Qle_bool_reflect a 50) as [U|U];
      [destruct (Qle_bool_reflect 0 a) as [P|P]
      |destruct (Qle_bool_reflect 0 50) as [P|P]]; lra.
  - unfold MIN_SCORE. simpl. change (inject_Z 0) with 0. lra.
Qed.

Lemma clampedScore_positive (g : GaugeState Q) :
  match animatedScore g with
  | Some a => 0 < a <-> 0 < clampedScore g
  | None => clampedScore g == 0
  end.
Proof.
  unfold clampedScore. destruct (animatedScore g) as [a|].
  - unfold clamp, MIN_SCORE, MAX_SCORE. simpl. unfold Exact.max, Exact.min.
    change (inject_Z 0) with 0. change (inject_Z 50) with 50.
    destruct (Qle_bool_reflect a 50) as [U|U];
      [destruct (Qle_bool_reflect 0 a) as [P|P]
      |destruct (Qle_bool_reflect 0 50) as [P|P]]; split; lra.
  - reflexivity.
Qed.

Lemma acvScore_exact (g : GaugeState Q) :
  acvScore g == clampedScore g * (3 # 4).
Proof.
  unfold acvScore, dec. simpl.
  change (inject_Z 75 / inject_Z 100) with (75 # 100). field.
Qed.

(** In exact arithmetic.  The angle of a score grows with the score and
    stays between -90 and 90 degrees, the ends of the scale; the main needle
    stands at [clampedScore * 3.6 - 90] degrees, and the second needle never
    beyond it.  The second needle's label is drawn exactly when a score is
    given and the animated score is above 0.  In binary64 the six scale
    marks stand at -90, -54, -18, 18, 54 and 90 degrees. *)
Theorem needle_angles :
  (forall s1 s2 : Q, s1 <= s2 -> markAngle s1 <= markAngle s2)
  /\ (forall s : Q, -90 <= markAngle s <= 90)
  /\ (forall g : GaugeState Q,
        needleAngle g == clampedScore g * (18 # 5) - 90
        /\ -90 <= acvScoreAngle g
        /\ acvScoreAngle g <= needleAngle g
        /\ needleAngle g <= 90)
  /\ (forall (g : GaugeState Q) (score : Q),
        showsAcvLabel (Some score) g = true
        <-> exists a, animatedScore g = Some a /\ 0 < a)
  /\ map (@markAngle float _) scaleMarks
     = map num_of_Z [-90; -54; -18; 18; 54; 90]%Z.
Proof.
  assert (M : forall s1 s2 : Q, s1 <= s2 -> markAngle s1 <= markAngle s2).
  { intros s1 s2 L. rewrite !scoreToAngle_exact.
    destruct (Qle_bool_reflect 0 s1); destruct (Qle_bool_reflect 50 s1);
      destruct (Qle_bool_reflect 0 s2); destruct (Qle_bool_reflect 50 s2); lra. }
  assert (B : forall s : Q, -90 <= markAngle s <= 90).
  { intros s. rewrite scoreToAngle_exact.
    destruct (Qle_bool_reflect 0 s); destruct (Qle_bool_reflect 50 s); lra. }
  split; [exact M|]. split; [exact B|]. split; [|split].
  - intros g. pose proof (clampedScore_exact g) as [P U].
    pose proof (acvScore_exact g) as A.
    change (needleAngle g) with (markAngle (clampedScore g)).
    change (acvScoreAngle g) with (markAngle (acvScore g)).
    split; [|split; [apply B|split; [apply M; lra|apply B]]].
    rewrite scoreToAngle_exact.
    destruct (Qle_bool_reflect 0 (clampedScore g)) as [_|C]; [|contradiction].
    destruct (Qle_bool_reflect 50 (clampedScore g)) as [L|_]; lra.
  - intros g score. unfold showsAcvLabel.
    pose proof (acvScore_exact g) as A.
    pose proof (clampedScore_positive g) as C.
    change (num_ltb (N:=Q) (acvScore g) (clampedScore g))
      with (negb (Qle_bool (clampedScore g) (acvScore g))).
    destruct (Qle_bool_reflect (clampedScore g) (acvScore g)) as [L|L]; simpl.
    + split; [discriminate|]. intros (a & E & Pa). exfalso.
      rewrite E in C. apply C in Pa. lra.
    + split; [intros _|reflexivity].
      destruct (animatedScore g) as [a|].
      * exists a. split; [reflexivity|]. apply C. lra.
      * exfalso. lra.
  - vm_compute. reflexivity.
Qed.

End NeedleFacts.

(* ================================================================== *)
(** * The bar chart *)

Section Macro5Facts.
Import Macro5.
#[local] Open Scope string_scope.
#[local] Open Scope js_scope.

Lemma compared_is_not_nan (x y : float) :
  PrimFloat.ltb x y = true ->
  PrimFloat.is_nan x = false /\ PrimFloat.is_nan y = false.
Proof.
  unfold PrimFloat.is_nan.
  rewrite FloatAxioms.ltb_spec, !FloatAxioms.eqb_spec.
  destruct (Prim2SF x) as [[|]|[|]| |[|] mx ex];
    destruct (Prim2SF y) as [[|]|[|]| |[|] my ey];
    intros L; try discriminate L; rewrite ?SFeqb_same; split; reflexivity.
Qed.

Lemma shown_binary64 (x : float) :
  (num_of_Z 0 <=? shown x) = true
  /\ ((num_of_Z 0 <? x) = true -> shown x = x).
Proof.
  unfold shown, num_or. split.
  - destruct (num_truthy x) eqn:T; [|vm_compute; reflexivity].
    apply Math_max_0_binary64.
    simpl in T. unfold Float64.truthy in T.
    apply orb_prop in T as [T|T]; apply compared_is_not_nan in T; tauto.
  - intros P. simpl in P. simpl. unfold Float64.truthy.
    change (Float64.of_Z 0) with PrimFloat.zero in *.
    rewrite P, orb_true_r. unfold Float64.max.
    destruct (compared_is_not_nan P) as [_ NN].
    change (PrimFloat.is_nan PrimFloat.zero) with false.
    rewrite NN, P. reflexivity.
Qed.

Lemma shown_exact (x : Q) :
  (0 <= shown x)%Q /\ ((0 < x)%Q -> shown x = x).
Proof.
  unfold shown, num_or. split.
  - destruct (num_truthy x); apply Math_max_0_exact.
  - intros P. simpl. unfold Exact.truthy, Exact.max.
    change (inject_Z 0) with 0%Q.
    destruct (Qeq_bool x 0) eqn:E.
    + apply Qeq_bool_iff in E. exfalso. lra.
    + simpl. destruct (Qle_bool_reflect 0 x) as [_|C]; [reflexivity|].
      exfalso. lra.
Qed.

(** The chart draws five bars in a fixed order, and no bar is ever drawn
    for a negative value or for NaN: a value that is negative, zero or NaN
    is drawn as 0, a positive value as it is.  In binary64 and in exact
    arithmetic. *)
Theorem bars_are_never_negative :
  (forall (N : Type) (H : JsNumber N) (p : Props N),
      map (@name N) (data p)
      = ["Protein"; "Fiber"; "Fat"; "Sugar"; "Total Carbs"])
  /\ (forall (p : Props float) (entry : ChartDataPoint float),
        In entry (data p) ->
        (num_of_Z 0 <=? actual entry) = true
        /\ (num_of_Z 0 <=? balanced entry) = true)
  /\ (forall x : float, (num_of_Z 0 <? x) = true -> shown x = x)
  /\ (forall x : float, (num_of_Z 0 <? x) = false -> shown x = num_of_Z 0)
  /\ (forall (p : Props Q) (entry : ChartDataPoint Q),
        In entry (data p) -> (0 <= actual entry)%Q /\ (0 <= balanced entry)%Q)
  /\ (forall x : Q, (0 < x)%Q -> shown x = x).
Proof.
  split; [reflexivity|]. split; [|split; [|split; [|split]]].
  - intros p entry I. unfold data in I. apply in_map_iff in I as (raw & <- & _).
    simpl. split; apply shown_binary64.
  - intros x. apply shown_binary64.
  - intros x P. unfold shown, num_or. simpl. unfold Float64.truthy.
    simpl in P. change (Float64.of_Z 0) with PrimFloat.zero in *. rewrite P.
    rewrite orb_false_r. unfold Float64.max.
    change (PrimFloat.is_nan PrimFloat.zero) with false.
    destruct (PrimFloat.ltb x PrimFloat.zero) eqn:Neg.
    + destruct (compared_is_not_nan Neg) as [NN _].
      rewrite NN, ?P, ?Neg. reflexivity.
    + vm_compute. reflexivity.
  - intros p entry I. unfold data in I. apply in_map_iff in I as (raw & <- & _).
    simpl. split; apply shown_exact.
  - intros x. apply shown_exact.
Qed.

(** A bar is marked as the anchor's when the anchor key is the bar's name
    as the chart prints it.  The keys the page's two anchor selections can
    hold are none of these names, so on the page's charts, the single
    item's and the cart's, no bar is outlined, no balanced bar takes the
    anchor colour and no axis label is bold. *)
Theorem no_bar_is_marked_for_the_pages_anchors (N : Type) (H : JsNumber N) :
  (forall (p : Props N) (key : string) (entry : ChartDataPoint N),
      In key (map fst App.anchorOptions) ->
      In entry (data p) ->
      isAnchor (name entry) (Some key) = false)
  /\ (forall (a : App.AppState N) (p : Props N) (entry : ChartDataPoint N),
        In (App.singleItemAnchorKey a) (map fst App.anchorOptions) ->
        Page.singleItemChart a = Some p ->
        In entry (data p) ->
        actualCell entry (anchorKey p) = mkCell ACTUAL_BAR_COLOR "none" 0
        /\ balancedCell entry (anchorKey p) = mkCell BALANCED_BAR_COLOR "none" 0
        /\ fontWeight (name entry) (anchorKey p) = "normal")
  /\ (forall (s : CartStore.CartState N) (p : Props N) (entry : ChartDataPoint N),
        In (CartStore.anchorKey s) (map fst App.anchorOptions) ->
        Page.cartChart s = Some p ->
        In entry (data p) ->
        actualCell entry (anchorKey p) = mkCell ACTUAL_BAR_COLOR "none" 0
        /\ balancedCell entry (anchorKey p) = mkCell BALANCED_BAR_COLOR "none" 0
        /\ fontWeight (name entry) (anchorKey p) = "normal")
  /\ (forall (p : Props N),
        map (fun entry => isAnchor (name entry) (Some "Total Carbs")) (data p)
        = [false; false; false; false; true]).
Proof.
  assert (A : forall (p : Props N) (key : string) (entry : ChartDataPoint N),
             In key (map fst App.anchorOptions) ->
             In entry (data p) ->
             isAnchor (name entry) (Some key) = false).
  { intros p key entry K I. unfold data in I.
    apply in_map_iff in I as (raw & <- & I). simpl in K, I.
    repeat match goal with
           | D : _ \/ _ |- _ => destruct D as [D|D]
           | D : False |- _ => destruct D
           end; subst; reflexivity. }
  split; [exact A|]. split; [|split].
  - intros a p entry K C I. 
    assert (E : anchorKey p = Some (App.singleItemAnchorKey a)).
    { unfold Page.singleItemChart in C.
      destruct (App.ocrResultData a); [|discriminate].
      destruct (App.individualItemScore a); [|discriminate].
      destruct (negb _); [|discriminate].
      injection C as <-. reflexivity. }
    unfold actualCell, balancedCell, fontWeight.
    rewrite E, (A p _ entry K I). repeat split.
  - intros s p entry K C I.
    assert (E : anchorKey p = Some (CartStore.anchorKey s)).
    { unfold Page.cartChart in C.
      destruct (CartStore.items s); [discriminate|].
      destruct (CartStore.cartTotals s); [|discriminate].
      injection C as <-. reflexivity. }
    unfold actualCell, balancedCell, fontWeight.
    rewrite E, (A p _ entry K I). repeat split.
  - intros p. reflexivity.
Qed.

End Macro5Facts.

(* ================================================================== *)
(** * Regular expressions: the test decides the match *)

Section RegexFacts.
Import Regex.
#[local] Open Scope string_scope.

Lemma append_empty (s1 s2 : string) : s1 ++ s2 = "" -> s1 = "" /\ s2 = "".
Proof. destruct s1; simpl; [auto|discriminate]. Qed.

Lemma nullable_matches (r : regex) : nullable r = true <-> matches r "".
Proof.
  split.
  - induction r; simpl; intros E; try discriminate.
    + constructor.
    + apply andb_prop in E as [E1 E2].
      apply (m_cat (IHr1 E1) (IHr2 E2)).
    + apply orb_prop in E as [E|E]; [apply m_alt_l|apply m_alt_r]; auto.
    + constructor.
  - intros M. remember "" as s eqn:E.
    induction M; simpl; try discriminate; try reflexivity.
    + apply append_empty in E as [E1 E2]. rewrite IHM1, IHM2; auto.
    + rewrite IHM; auto.
    + rewrite IHM; auto. apply orb_true_r.
Qed.

Lemma after_matches (c : ascii) (r : regex) (s : string) :
  matches (after c r) s <-> matches r (String c s).
Proof.
  split.
  - revert s. induction r; simpl; intros s M.
    + inversion M.
    + inversion M.
    + destruct (Ascii.eqb_spec c c0); inversion M; subst. constructor.
    + destruct (is_digit c) eqn:D; inversion M; subst. constructor. exact D.
    + destruct (nullable r1) eqn:E.
      * inversion M as [| | | |? ? ? M1|? ? ? M2| |]; subst.
        -- inversion M1 as [| | |? ? s1 s2 A B| | | |]; subst.
           apply (m_cat (IHr1 _ A) B).
        -- apply nullable_matches in E.
           apply (m_cat E (IHr2 _ M2)).
      * inversion M as [| | |? ? s1 s2 A B| | | |]; subst.
        apply (m_cat (IHr1 _ A) B).
    + inversion M; subst; [apply m_alt_l|apply m_alt_r]; auto.
    + inversion M as [| | |? ? s1 s2 A B| | | |]; subst.
      apply (m_star_more (IHr _ A) B).
  - intros M. remember (String c s) as w eqn:E. revert c s E.
    induction M; intros c0 s0 E; simpl; try discriminate.
    + injection E as -> <-. rewrite Ascii.eqb_refl. constructor.
    + injection E as -> <-. rewrite H. constructor.
    + destruct s1 as [|c1 s1]; simpl in E.
      * subst s2. apply nullable_matches in M1. rewrite M1.
        apply m_alt_r. apply IHM2. reflexivity.
      * injection E as -> <-.
        specialize (IHM1 _ _ eq_refl).
        destruct (nullable r1); [apply m_alt_l|]; apply (m_cat IHM1 M2).
    + apply m_alt_l. apply IHM. exact E.
    + apply m_alt_r. apply IHM. exact E.
    + destruct s1 as [|c1 s1]; simpl in E.
      * apply IHM2. exact E.
      * injection E as -> <-. apply (m_cat (IHM1 _ _ eq_refl) M2).
Qed.

Lemma test_matches (r : regex) (s : string) : test r s = true <-> matches r s.
Proof.
  revert r. induction s as [|c s IH]; intros r; simpl.
  - apply nullable_matches.
  - rewrite IH. apply after_matches.
Qed.

End RegexFacts.

(* ================================================================== *)
(** * The nutrition form *)

Section NumericText.
Import Regex NutritionForm.
#[local] Open Scope string_scope.

Lemma digits_match (s : string) :
  digits_and_dots 0 s = true <-> matches (Star Digit) s.
Proof.
  split.
  - induction s as [|c s IH]; simpl; intros E; [constructor|].
    destruct (is_digit c) eqn:D.
    + apply (m_star_more (m_digit c D) (IH E)).
    + destruct (Ascii.eqb c "."); discriminate.
  - intros M. remember (Star Digit) as r eqn:E.
    induction M; try discriminate; [reflexivity|].
    injection E as ->. inversion M1 as [| |c D| | | | |]; subst. simpl.
    rewrite D. apply IHM2. reflexivity.
Qed.

Lemma more_dots (n : nat) (s : string) :
  digits_and_dots n s = true -> digits_and_dots (S n) s = true.
Proof.
  revert n. induction s as [|c s IH]; intros n; simpl; [reflexivity|].
  destruct (is_digit c); [apply IH|].
  destruct (Ascii.eqb c "."); [|discriminate].
  destruct n; [discriminate|apply IH].
Qed.

Lemma digits_then (n : nat) (s1 s2 : string) :
  digits_and_dots 0 s1 = true ->
  digits_and_dots n (s1 ++ s2) = digits_and_dots n s2.
Proof.
  induction s1 as [|c s1 IH]; simpl; intros E; [reflexivity|].
  destruct (is_digit c); [apply IH, E|].
  destruct (Ascii.eqb c "."); discriminate.
Qed.

Lemma numeric_matches (s : string) :
  matches numeric s <-> digits_and_dots 1 s = true.
Proof.
  unfold numeric, Opt. split.
  - intros M.
    inversion M as [| | |? ? s1 rest M1 M23| | | |]; subst.
    inversion M23 as [| | |? ? s2 s3 M2 M3| | | |]; subst.
    apply digits_match in M1, M3.
    rewrite (@digits_then _ _ _ M1).
    inversion M2 as [| | | |? ? ? D|? ? ? D| |]; subst; inversion D; subst; simpl.
    + exact M3.
    + apply more_dots, M3.
  - induction s as [|c s IH]; simpl; intros E.
    + apply (m_cat (s1 := "") (s2 := "")); [constructor|].
      apply (m_cat (s1 := "") (s2 := "")); [apply m_alt_r|]; constructor.
    + destruct (is_digit c) eqn:D.
      * specialize (IH E).
        inversion IH as [| | |? ? s1 rest M1 M23| | | |]; subst.
        apply (m_cat (s1 := String c s1) (s2 := rest)); [|exact M23].
        apply (m_star_more (m_digit c D) M1).
      * destruct (Ascii.eqb_spec c "."); [subst c|discriminate].
        apply digits_match in E.
        apply (m_cat (s1 := "") (s2 := String "." s)); [constructor|].
        apply (m_cat (s1 := ".") (s2 := s)); [apply m_alt_l; constructor|exact E].
Qed.

(** The pattern of the numeric inputs, [/^\d*\.?\d*$/], accepts a text
    exactly when it is made of digits and at most one dot. *)
Lemma numeric_test (value : string) :
  test numeric value = digits_and_dots 1 value.
Proof.
  destruct (digits_and_dots 1 value) eqn:E.
  - apply test_matches, numeric_matches, E.
  - apply not_true_is_false. intros T.
    apply test_matches, numeric_matches in T. congruence.
Qed.

End NumericText.

Section FormFacts.
Context {N : Type} `{JsNumber N}.
Import NutritionForm.
#[local] Open Scope string_scope.

Lemma field_with_field (name key : Key) (value : string) (d : App.NutritionData N) :
  field key (with_field name value d)
  = if Key_eqb key name then App.FStr value else field key d.
Proof. destruct name, key; reflexivity. Qed.

Lemma formData_clear_error (name : Key) (shown : Errors) (st : FormState N) :
  formData (clear_error name shown st) = formData st.
Proof. unfold clear_error. destruct (Display.truthy_text _); reflexivity. Qed.

Lemma Key_eqb_eq (a b : Key) : Key_eqb a b = true <-> a = b.
Proof. destruct a, b; simpl; split; intros E; congruence. Qed.

Lemma accepted_text (value : string) :
  (Regex.test numeric value || String.eqb value "") = digits_and_dots 1 value.
Proof.
  rewrite numeric_test.
  destruct (String.eqb_spec value "") as [->|_]; [reflexivity|apply orb_false_r].
Qed.

Lemma handleChange_of_a_nutrient (name : Key) (value : string)
  (st : FormState N) :
  name <> itemName ->
  handleChange name value st
  = if digits_and_dots 1 value
    then clear_error name (errors st)
           (mkForm (with_field name value (formData st)) (errors st))
    else st.
Proof.
  intros NotName. unfold handleChange. rewrite accepted_text.
  destruct name; try reflexivity. contradiction.
Qed.

(** What [handleChange] lets into a field other than the name: a text made
    of digits and at most one dot replaces the field's value, and any other
    text (one with a sign, an exponent, a space or a second dot) leaves the
    whole form as it was.  The alternative [value === ''] of the test adds
    nothing to the pattern. *)
Theorem handleChange_filters_numeric_text (name : Key) (value : string)
  (st : FormState N) :
  name <> itemName ->
  (Regex.test numeric value || String.eqb value "") = digits_and_dots 1 value
  /\ (digits_and_dots 1 value = true ->
      formData (handleChange name value st)
      = with_field name value (formData st)
      /\ field name (formData (handleChange name value st)) = App.FStr value
      /\ (forall key, key <> name ->
            field key (formData (handleChange name value st))
            = field key (formData st)))
  /\ (digits_and_dots 1 value = false -> handleChange name value st = st).
Proof.
  intros NotName. split; [apply accepted_text|].
  rewrite (handleChange_of_a_nutrient value st NotName).
  split; intros E; rewrite E; [|reflexivity].
  rewrite formData_clear_error. cbn [formData]. split; [reflexivity|].
  split.
  - rewrite field_with_field.
    assert (R : Key_eqb name name = true) by (apply Key_eqb_eq; reflexivity).
    rewrite R. reflexivity.
  - intros key D. rewrite field_with_field.
    destruct (Key_eqb key name) eqn:K; [|reflexivity].
    apply Key_eqb_eq in K. contradiction.
Qed.

Lemma handleChange_numeric_fields (name : Key) (value : string)
  (st : FormState N) :
  numeric_fields (formData st) ->
  numeric_fields (formData (handleChange name value st)).
Proof.
  intros F key K.
  assert (D : name = itemName \/ name <> itemName)
    by (destruct name; (left; reflexivity) || (right; discriminate)).
  destruct D as [->|NotName].
  - unfold handleChange. rewrite formData_clear_error. cbn [formData].
    rewrite field_with_field.
    destruct (Key_eqb key itemName) eqn:E;
      [apply Key_eqb_eq in E; contradiction|apply F, K].
  - rewrite (handleChange_of_a_nutrient value st NotName).
    destruct (digits_and_dots 1 value) eqn:D; [|apply F, K].
    rewrite formData_clear_error. cbn [formData]. rewrite field_with_field.
    destruct (Key_eqb key name); [|apply F, K].
    exists value. split; [reflexivity|exact D].
Qed.

(** Starting from the blank form, whatever is typed into whichever inputs,
    each of the five nutrient fields holds a text made of digits and at
    most one dot. *)
Theorem typing_keeps_numeric_text (events : list (Key * string)) :
  numeric_fields (formData (handleChanges events (@blank N))).
Proof.
  unfold handleChanges.
  assert (B : numeric_fields (formData (@blank N))).
  { intros key K. exists "". destruct key; try contradiction;
      split; reflexivity. }
  revert B. generalize (@blank N).
  induction events as [|event events IH]; intros st F; simpl; [exact F|].
  apply IH, handleChange_numeric_fields, F.
Qed.

Section WithConversion.
Variable StringToNumber : string -> N.

Lemma complaint_none (value : App.FormValue N) :
  complaint StringToNumber value = None ->
  value <> App.FStr ""
  /\ isNaN (Number StringToNumber value) = false
  /\ (Number StringToNumber value <? num_of_Z 0)%js = false.
Proof.
  unfold complaint. destruct value as [n|[|c s]]; try discriminate;
    (destruct (isNaN _) eqn:A; [discriminate|]);
    (destruct (_ <? _)%js eqn:B; [discriminate|]);
    intros _; repeat split; discriminate.
Qed.

Lemma complaint_some (value : App.FormValue N) (message : string) :
  complaint StringToNumber value = Some message ->
  message = "This field is required."
  \/ message = "Must be a non-negative number.".
Proof.
  unfold complaint. destruct value as [n|[|c s]];
    try (destruct (_ || _)%bool; [|discriminate]);
    intros E; injection E as <-; auto.
Qed.

(** [handleSubmit] passes data on only when each of the five nutrient
    fields is filled and converts to a number that is neither NaN nor
    negative: what it passes on are these numbers, under the form's name
    or "Unnamed Item", and no error message is left.  Otherwise it passes
    nothing on and leaves a message on a nutrient field.  The form's data
    is as it was either way. *)
Theorem handleSubmit_passes_on_valid_numbers (st : FormState N) :
  match handleSubmit StringToNumber st with
  | (after, Some data) =>
      App.nd_itemName data
      = Js.str_or (App.nd_itemName (formData st)) "Unnamed Item"
      /\ App.nd_itemName data <> ""
      /\ (forall key, key <> itemName ->
            exists n,
              field key data = App.FNum n
              /\ n = Number StringToNumber (field key (formData st))
              /\ field key (formData st) <> App.FStr ""
              /\ isNaN n = false
              /\ (n <? num_of_Z 0)%js = false)
      /\ (forall key, errors after key = None)
      /\ formData after = formData st
  | (after, None) =>
      formData after = formData st
      /\ exists key,
           key <> itemName
           /\ (errors after key = Some "This field is required."
               \/ errors after key = Some "Must be a non-negative number.")
  end.
Proof.
  unfold handleSubmit, validateForm, keys. cbn [forallb newErrors field].
  destruct (complaint StringToNumber (App.nd_protein (formData st))) eqn:C1.
  { split; [reflexivity|]. exists protein. split; [discriminate|].
    simpl. rewrite C1. apply complaint_some in C1 as [->| ->]; auto. }
  destruct (complaint StringToNumber (App.nd_fat (formData st))) eqn:C2.
  { split; [reflexivity|]. exists fat. split; [discriminate|].
    simpl. rewrite C2. apply complaint_some in C2 as [->| ->]; auto. }
  destruct (complaint StringToNumber (App.nd_sugar (formData st))) eqn:C3.
  { split; [reflexivity|]. exists sugar. split; [discriminate|].
    simpl. rewrite C3. apply complaint_some in C3 as [->| ->]; auto. }
  destruct (complaint StringToNumber (App.nd_totalCarbs (formData st))) eqn:C4.
  { split; [reflexivity|]. exists totalCarbs. split; [discriminate|].
    simpl. rewrite C4. apply complaint_some in C4 as [->| ->]; auto. }
  destruct (complaint StringToNumber (App.nd_fiber (formData st))) eqn:C5.
  { split; [reflexivity|]. exists fiber. split; [discriminate|].
    simpl. rewrite C5. apply complaint_some in C5 as [->| ->]; auto. }
  simpl. split; [reflexivity|]. split; [apply str_or_nonempty; discriminate|].
  split; [|split; [|reflexivity]].
  - intros key K.
    destruct key; try contradiction; eexists; (split; [reflexivity|]);
      (split; [reflexivity|]); apply complaint_none; assumption.
  - intros key. destruct key; simpl; auto.
Qed.

End WithConversion.

(** The "AI Fill" button passes a name on only when no lookup is running
    and the name is not blank, and the page's lookup flow then starts a
    request for that very name; pressed with a blank name it passes nothing
    on and leaves a message on the name field; pressed during a lookup with
    a name, it does nothing. *)
Theorem handleAutoFillClick_asks_for_a_name (isLookingUp : bool)
  (st : FormState N) (a : App.AppState N) :
  match handleAutoFillClick isLookingUp st with
  | (after, Some asked) =>
      isLookingUp = false
      /\ asked = App.nd_itemName (formData st)
      /\ after = st
      /\ snd (Page.handleAutoFillRequest_begin asked a) = Some asked
  | (after, None) =>
      formData after = formData st
      /\ (Js.trim_is_empty (App.nd_itemName (formData st)) = true ->
          errors after itemName = Some "Please enter an item name first.")
      /\ (Js.trim_is_empty (App.nd_itemName (formData st)) = false ->
          isLookingUp = true /\ after = st)
  end.
Proof.
  unfold handleAutoFillClick, Page.handleAutoFillRequest_begin.
  destruct (Js.trim_is_empty (App.nd_itemName (formData st))) eqn:B;
    destruct isLookingUp; simpl; rewrite ?B; repeat split;
    intros; try discriminate; reflexivity.
Qed.

End FormFacts.

Section ValidNumbers.
Import NutritionForm.
#[local] Open Scope js_scope.

Lemma SFleb_same (sign : bool) (m : positive) (e : Z) :
  SFleb (S754_finite sign m e) (S754_finite sign m e) = true.
Proof.
  unfold SFleb, SFcompare. rewrite Z.compare_refl.
  change (PosDef.Pos.compare_cont Eq m m) with (Pos.compare m m).
  rewrite Pos.compare_refl. destruct sign; reflexivity.
Qed.

Lemma isNaN_binary64 (x : float) : isNaN x = PrimFloat.is_nan x.
Proof.
  unfold isNaN, PrimFloat.is_nan. simpl.
  rewrite FloatAxioms.leb_spec, FloatAxioms.eqb_spec.
  destruct (Prim2SF x) as [[|]|[|]| |sign m e]; try reflexivity.
  rewrite SFleb_same, SFeqb_same. reflexivity.
Qed.

Lemma isNaN_exact (x : Q) : isNaN x = false.
Proof.
  unfold isNaN. simpl. apply negb_false_iff, Qle_bool_iff, Qle_refl.
Qed.

(** What the form takes for a valid number: in binary64 a number that is
    at least 0 (0, -0 and Infinity included) and so not NaN; in exact
    arithmetic a number that is at least 0. *)
Lemma valid_number_binary64 (n : float) :
  isNaN n = false /\ (n <? num_of_Z 0) = false <-> (num_of_Z 0 <=? n) = true.
Proof.
  rewrite isNaN_binary64. unfold PrimFloat.is_nan. rewrite negb_false_iff.
  split.
  - intros [A B]. float_order n.
  - intros A. split; float_order n.
Qed.

Lemma valid_number_exact (n : Q) :
  isNaN n = false /\ (n <? num_of_Z 0) = false <-> (0 <= n)%Q.
Proof.
  rewrite isNaN_exact. simpl. unfold Exact.ltb. rewrite negb_false_iff.
  change (inject_Z 0) with 0%Q. rewrite Qle_bool_iff. tauto.
Qed.

(** The check of [validateForm] on a number, [isNaN(n) || n < 0], lets
    through exactly the numbers that are at least 0: in binary64 that
    includes Infinity and -0 and leaves out NaN; so a text is accepted
    exactly when it is not empty and converts to such a number. *)
Theorem validation_accepts_numbers_at_least_zero :
  (forall n : float,
      (isNaN n || (n <? num_of_Z 0)) = false <-> (num_of_Z 0 <=? n) = true)
  /\ (forall n : Q,
        (isNaN n || (n <? num_of_Z 0)) = false <-> (0 <= n)%Q)
  /\ (forall (StringToNumber : string -> float) (c : ascii) (rest : string),
        complaint StringToNumber (App.FStr (String c rest)) = None
        <-> (num_of_Z 0 <=? StringToNumber (String c rest)) = true)
  /\ (forall StringToNumber : string -> float,
        complaint StringToNumber (App.FStr EmptyString)
        = Some "This field is required."%string)
  /\ (isNaN PrimFloat.infinity || (PrimFloat.infinity <? num_of_Z 0)) = false
  /\ (isNaN PrimFloat.neg_zero || (PrimFloat.neg_zero <? num_of_Z 0)) = false
  /\ (isNaN PrimFloat.nan || (PrimFloat.nan <? num_of_Z 0)) = true.
Proof.
  assert (F : forall n : float,
             (isNaN n || (n <? num_of_Z 0)) = false
             <-> (num_of_Z 0 <=? n) = true).
  { intros n. rewrite orb_false_iff. apply valid_number_binary64. }
  split; [exact F|]. split; [|split; [|split]].
  - intros n. rewrite orb_false_iff. apply valid_number_exact.
  - intros StringToNumber c rest. rewrite <- F. unfold complaint. simpl Number.
    destruct (isNaN _ || _)%bool; split; intros E;
      reflexivity || discriminate E.
  - reflexivity.
  - repeat split; vm_compute; reflexivity.
Qed.

End ValidNumbers.

(* ================================================================== *)
(** * From the form to the cart *)

Section FormToCart.
Import CartStore Invariants.

Lemma handleSubmit_passed_on (StringToNumber : string -> Q)
  (st after : NutritionForm.FormState Q) (data : App.NutritionData Q) :
  NutritionForm.handleSubmit StringToNumber st = (after, Some data) ->
  data = NutritionForm.submittedData StringToNumber (NutritionForm.formData st)
  /\ forall key, key <> NutritionForm.itemName ->
       NutritionForm.complaint StringToNumber
         (NutritionForm.field key (NutritionForm.formData st)) = None.
Proof.
  unfold NutritionForm.handleSubmit, NutritionForm.validateForm,
    NutritionForm.keys.
  cbn [forallb NutritionForm.newErrors NutritionForm.field].
  destruct (NutritionForm.complaint _ (App.nd_protein _)) eqn:C1;
    [discriminate|].
  destruct (NutritionForm.complaint _ (App.nd_fat _)) eqn:C2; [discriminate|].
  destruct (NutritionForm.complaint _ (App.nd_sugar _)) eqn:C3; [discriminate|].
  destruct (NutritionForm.complaint _ (App.nd_totalCarbs _)) eqn:C4;
    [discriminate|].
  destruct (NutritionForm.complaint _ (App.nd_fiber _)) eqn:C5; [discriminate|].
  simpl. intros E. injection E as _ <-. split; [reflexivity|].
  intros key K. destruct key; try contradiction; assumption.
Qed.

Lemma valid_amount (StringToNumber : string -> Q) (value : App.FormValue Q) :
  NutritionForm.complaint StringToNumber value = None ->
  0 <= App.number_or_0 (App.FNum (NutritionForm.Number StringToNumber value)).
Proof.
  intros C. apply complaint_none in C as (_ & _ & C).
  simpl. apply num_or_nonnegative_exact.
  simpl in C. unfold Exact.ltb in C. apply negb_false_iff in C.
  apply Qle_bool_iff in C. exact C.
Qed.

(** In exact arithmetic, with any conversion of texts to numbers: an item
    that the form passes on and the page adds to a cart with no negative
    nutrient and no negative quantity leaves the cart so, and the scoring
    call started for the cart carries no negative nutrient. *)
Theorem submitted_items_keep_the_cart_sound
  (StringToNumber : string -> Q) (form : NutritionForm.FormState Q)
  (service : CalculationRequest Q -> App.ScoreOutcome Q) (now : Z)
  (page : Page.PageState Q) :
  sound (Page.cart page) ->
  match NutritionForm.handleSubmit StringToNumber form with
  | (_, Some data) =>
      let '(after, pending) :=
        Page.handleAnalyzeAndAddToCart service now data page in
      sound (Page.cart after)
      /\ match pending with
         | Some p => nonnegative (aggregated_input_data (requestBody p))
         | None => False
         end
  | (_, None) => True
  end.
Proof.
  intros S.
  destruct (NutritionForm.handleSubmit StringToNumber form) as [after' [data|]]
    eqn:E; [|exact I].
  apply handleSubmit_passed_on in E as [-> V].
  pose proof (handleAnalyzeAndAddToCart_cart service now
                (NutritionForm.submittedData StringToNumber
                   (NutritionForm.formData form)) page) as [C P].
  destruct (Page.handleAnalyzeAndAddToCart service now _ page)
    as [after pending].
  simpl in C, P. subst pending.
  assert (A : sound (Page.cart after)).
  { rewrite C. unfold sound. rewrite addItem_items.
    apply Forall_app. split; [exact S|].
    constructor; [|constructor]. split; [|exact I].
    pose proof (servings_positive_exact (Page.app page)) as Pos.
    unfold sound_macros, nonnegative. cbn.
    repeat split; apply Qmult_le_0_compat; try lra;
      apply (valid_amount StringToNumber);
      first [ apply (V NutritionForm.protein) | apply (V NutritionForm.fat)
            | apply (V NutritionForm.totalCarbs) | apply (V NutritionForm.fiber)
            | apply (V NutritionForm.sugar) ];
      discriminate. }
  split; [exact A|].
  rewrite addItem_pending. unfold request_for. simpl.
  apply aggregate_nonnegative. rewrite C in A. exact A.
Qed.

End FormToCart.

(* ================================================================== *)
(** * The theorems at work *)

Section AtWork.
Import CartStore Sample.
#[local] Open Scope string_scope.

(** The cart holds oats; milk is added a millisecond later and removed. *)
Lemma removeItem_undoes_addItem_witness :
  ~ In (Js.toString 1700000000001) (map (@id float) (items one_item_cart))
  /\ items (fst (removeItem (Js.toString 1700000000001)
                            (fst (addItem 1700000000001 milk one_item_cart))))
     = items one_item_cart.
Proof.
  assert (fresh : ~ In (Js.toString 1700000000001)
                       (map (@id float) (items one_item_cart))).
  { vm_compute. intros [E|[]]. discriminate E. }
  split; [exact fresh|]. apply removeItem_undoes_addItem, fresh.
Defined.

(** No item of the cart has the id "7". *)
Lemma unknown_id_only_recalculates_witness :
  ~ In "7" (map (@id float) (items one_item_cart))
  /\ updateItemQuantity "7" (g 3) one_item_cart
     = calculateTotals_begin one_item_cart
  /\ items (fst (removeItem "7" one_item_cart)) = items one_item_cart.
Proof.
  assert (fresh : ~ In "7" (map (@id float) (items one_item_cart))).
  { vm_compute. intros [E|[]]. discriminate E. }
  destruct (unknown_id_only_recalculates "7" one_item_cart fresh)
    as (U & R & _).
  split; [exact fresh|]. split; [apply U|].
  rewrite R; [reflexivity|]. vm_compute. discriminate.
Defined.

(** The anchor is changed, the cart is cleared, and the answer arrives. *)
Lemma answer_after_clearCart_witness :
  items one_item_cart <> []
  /\ (let s1 := fst (setAnchorKey "fat" one_item_cart) in
      let inFlight := snd (setAnchorKey "fat" one_item_cart) in
      let s3 := deliver echo inFlight (clearCart s1) in
      items s3 = []
      /\ option_map (@itemCount float) (cartTotals s3) = Some 1%nat).
Proof.
  assert (F : items one_item_cart <> []) by (vm_compute; discriminate).
  split; [exact F|].
  pose proof (answer_after_clearCart "fat" 1700000000001 milk one_item_cart
                (mkResponse (Some (g 20))
                   (mkMacros (g 10) (g 5) (g 20) (g 2) (g 5))
                   (mkMacros (g 10) (g 5) (g 20) (g 2) (g 5)) (g 1)
                   "fat" "#000000") F) as W.
  vm_compute in W. destruct W as (_ & _ & E3 & T3 & _).
  vm_compute. split; [exact E3|reflexivity].
Defined.

(** The quantity of the only item of a sound cart is set to -3. *)
Lemma requests_are_never_negative_exact_witness :
  Invariants.sound Scenario.cart_of_one
  /\ Invariants.sound (fst (updateItemQuantity "1" (-3 # 1) Scenario.cart_of_one)).
Proof.
  assert (S : Invariants.sound Scenario.cart_of_one).
  { constructor; [|constructor]. split; simpl.
    - repeat split; apply Qle_bool_iff; reflexivity.
    - apply Qle_bool_iff; reflexivity. }
  split; [exact S|].
  destruct (requests_are_never_negative_exact S) as (_ & _ & U & _).
  apply U.
Defined.

(** A draft whose score has arrived, with the anchor "TotalCarbs". *)
Lemma balancing_request_carries_what_the_chart_draws_witness :
  let a :=
    App.setSingleItemAnchorKey "TotalCarbs"
      (App.setIndividualItemScore (Some (g 20))
         (App.setOcrResultData (Some scanned_draft) App.initial)) in
  (Page.singleItemChart a <> None /\ App.singleItemAnchorKey a <> "")
  /\ option_map (@anchor_id float) (snd (App.fetchIndividualBalancedMacros_begin a))
     = Some "total_carbs".
Proof.
  cbv zeta.
  set (a := App.setSingleItemAnchorKey "TotalCarbs" _).
  assert (C : Page.singleItemChart a <> None) by (vm_compute; discriminate).
  assert (K : App.singleItemAnchorKey a <> "") by discriminate.
  split; [split; [exact C|exact K]|].
  destruct (Page.singleItemChart a) as [props|] eqn:P; [|contradiction].
  destruct (proj1 (balancing_request_carries_what_the_chart_draws a) props
              P K) as (request & R & _ & A & _).
  rewrite R. simpl. rewrite A. reflexivity.
Defined.

(** "12.5" is typed into the protein field of the blank form, then "1e5". *)
Lemma handleChange_filters_numeric_text_witness :
  NutritionForm.protein <> NutritionForm.itemName
  /\ NutritionForm.field NutritionForm.protein
       (NutritionForm.formData
          (NutritionForm.handleChange NutritionForm.protein "12.5"
             (@NutritionForm.blank Q)))
     = App.FStr "12.5"
  /\ NutritionForm.handleChange NutritionForm.protein "1e5"
       (@NutritionForm.blank Q)
     = NutritionForm.blank.
Proof.
  assert (K : NutritionForm.protein <> NutritionForm.itemName) by discriminate.
  split; [exact K|]. split.
  - destruct (handleChange_filters_numeric_text "12.5" (@NutritionForm.blank Q) K)
      as (_ & accepted & _).
    apply accepted. reflexivity.
  - destruct (handleChange_filters_numeric_text "1e5" (@NutritionForm.blank Q) K)
      as (_ & _ & refused).
    apply refused. reflexivity.
Defined.

(** The typed form is submitted and its item added to the cart of one. *)
Lemma submitted_items_keep_the_cart_sound_witness :
  Invariants.sound Scenario.cart_of_one
  /\ Invariants.sound
       (Page.cart
          (fst (Page.handleAnalyzeAndAddToCart Scenario.scores_20 1700000000000
                  (NutritionForm.submittedData Scenario.read
                     (NutritionForm.formData Scenario.typed_form))
                  (Page.with_cart Scenario.cart_of_one Page.initial)))).
Proof.
  assert (S : Invariants.sound Scenario.cart_of_one).
  { constructor; [|constructor]. split; simpl.
    - repeat split; apply Qle_bool_iff; reflexivity.
    - apply Qle_bool_iff; reflexivity. }
  split; [exact S|].
  pose proof (submitted_items_keep_the_cart_sound Scenario.read
                Scenario.typed_form Scenario.scores_20 1700000000000
                (Page.with_cart Scenario.cart_of_one Page.initial) S) as W.
  vm_compute in W. vm_compute. exact (proj1 W).
Defined.

Lemma pair_of_snd (A B : Type) (p : A * B) (b : B) : snd p = b -> p = (fst p, b).
Proof. destruct p; simpl; intros <-; reflexivity. Qed.

(** The typed form is submitted: its data is passed on. *)
Lemma handleSubmit_passes_on_valid_numbers_witness :
  snd (NutritionForm.handleSubmit Scenario.read Scenario.typed_form)
  = Some (App.mkNutrition "Porridge" (App.FNum 10) (App.FNum 5) (App.FNum 5)
                          (App.FNum 20) (App.FNum (25 # 10)))
  /\ Js.str_or
       (App.nd_itemName (NutritionForm.formData Scenario.typed_form))
       "Unnamed Item"
     = "Porridge".
Proof.
  assert (E : snd (NutritionForm.handleSubmit Scenario.read Scenario.typed_form)
              = Some (App.mkNutrition "Porridge" (App.FNum 10) (App.FNum 5)
                        (App.FNum 5) (App.FNum 20) (App.FNum (25 # 10))))
    by (vm_compute; reflexivity).
  split; [exact E|].
  pose proof (handleSubmit_passes_on_valid_numbers Scenario.read
                Scenario.typed_form) as W.
  rewrite (pair_of_snd _ E) in W. cbv beta iota in W.
  destruct W as (Name & _). rewrite <- Name. reflexivity.
Defined.

(** A label of two servings is scanned, then porridge is submitted twice. *)
Lemma scanned_servings_stick_witness :
  let label :=
    App.mkOcrResponse (Some "10") (Some "5") (Some "20") (Some "2") (Some "5")
                      (Some (g 2)) in
  let scanned :=
    Page.with_app (App.processCapturedImage (App.OcrScanned label) App.initial)
                  Page.initial in
  let first :=
    fst (Page.handleAnalyzeAndAddToCart page_echo 1700000000000 porridge
           scanned) in
  let second :=
    fst (Page.handleAnalyzeAndAddToCart page_down 1700000000001 porridge
           first) in
  (App.ocr_servings label = Some (g 2) /\ (g 2 >? num_of_Z 0)%js = true)
  /\ map (@macros float) (items (Page.cart second))
     = [ Some (mkMacros (g 20) (g 10) (g 40) (g 4) (g 10));
         Some (mkMacros (g 20) (g 10) (g 40) (g 4) (g 10)) ].
Proof.
  cbv zeta.
  assert (P : (g 2 >? num_of_Z 0)%js = true) by (vm_compute; reflexivity).
  split; [split; [reflexivity|exact P]|].
  destruct (@scanned_servings_stick float _
              (App.mkOcrResponse (Some "10") (Some "5") (Some "20") (Some "2")
                                 (Some "5") (Some (g 2)))
              (g 2) page_echo page_down 1700000000000 1700000000001
              porridge porridge Page.initial eq_refl P)
    as (_ & _ & _ & M).
  etransitivity; [exact M|]. vm_compute. reflexivity.
Defined.

End AtWork.

(* ================================================================== *)
(** * Further facts: the needle's course, ids, anchors, and a scan *)

Section CourseOfTheNeedle.
Import Gauge.

Lemma progress_exact (e d : Q) : 0 <= e -> e < d -> 0 <= e / d /\ e / d < 1.
Proof.
  intros P L. assert (D : 0 < d) by lra. split.
  - apply Qle_shift_div_l; [exact D|]. lra.
  - apply Qlt_shift_div_r; [exact D|]. lra.
Qed.

Lemma progress_before_exact (e d : Q) : e < 0 -> 0 < d -> e / d < 0.
Proof.
  intros Neg D. apply Qlt_shift_div_r; [exact D|]. lra.
Qed.

Lemma duration_exact (diff : Q) :
  0 <= Math_min (num_abs diff * num_of_Z 40)%js (num_of_Z 800)
  /\ (~ diff == 0 -> 0 < Math_min (num_abs diff * num_of_Z 40)%js (num_of_Z 800)).
Proof.
  simpl. unfold Exact.min.
  change (inject_Z 40) with 40. change (inject_Z 800) with 800.
  pose proof (Qabs_nonneg diff) as A.
  assert (Z : ~ diff == 0 -> 0 < Qabs diff).
  { intros NZ. destruct (Qlt_le_dec diff 0) as [Neg|Pos].
    - assert (E : Qabs diff == - diff) by (apply Qabs_neg; lra). lra.
    - assert (E : Qabs diff == diff) by (apply Qabs_pos, Pos).
      apply Qle_lt_or_eq in Pos as [Pos|Zero]; [lra|].
      exfalso. apply NZ. symmetry. exact Zero. }
  destruct (Qle_bool_reflect (Qabs diff * 40) 800) as [L|L].
  - split; [lra|]. intros NZ. specialize (Z NZ). lra.
  - split; [lra|]. intros _. lra.
Qed.

(** In exact arithmetic, for the animation the gauge starts on a score
    that is not the first.  Every value the animation's own loop passes to
    [setAnimatedScore] at a frame time that is not before the animation's
    start lies between the value the animation started from and its
    target; at a frame time before the start (a frame whose time stamp
    precedes the reading of [performance.now()]) the value lies beyond the
    starting value, on the side away from the target.  This bounds what
    the needle shows only while no other animation is running: the effect
    registers no cleanup, so a loop goes on after a later score has started
    another.  With the needle at 0, the score 20 arriving at 1000 ms and
    the score 5 at 1100 ms, the second loop writes its target 5 at 1116 ms
    and stops, while the first loop is still running, writes a value above
    5 at 1133 ms, and ends by writing 20. *)
Theorem animation_stays_between_start_and_target :
  (forall (s now : Q) (shown : option Q),
      exists a,
        snd (onScoreChange (Some s) now (mkGauge shown false)) = Some a
        /\ (forall t, now <= t ->
              (startValue a <= targetValue a ->
               startValue a <= fst (animate a t) <= targetValue a)
              /\ (targetValue a <= startValue a ->
                  targetValue a <= fst (animate a t) <= startValue a))
        /\ (forall t, t < now ->
              (startValue a < targetValue a -> fst (animate a t) < startValue a)
              /\ (targetValue a < startValue a ->
                  startValue a < fst (animate a t))))
  /\ (exists first second,
        let g0 : GaugeState Q := mkGauge (Some 0) false in
        let g1 := fst (frame first 1100 (fst (onScoreChange (Some 20) 1000 g0))) in
        snd (onScoreChange (Some 20) 1000 g0) = Some first
        /\ snd (onScoreChange (Some 5) 1100 g1) = Some second
        /\ targetValue second = 5
        /\ animate second 1116 = (5, false)
        /\ snd (animate first 1116) = true
        /\ snd (animate first 1133) = true
        /\ 5 < fst (animate first 1133)
        /\ animate first 1800 = (20, false)).
Proof.
  split.
  - intros s now shown.
    rewrite onScoreChange_later. eexists. split; [reflexivity|].
    set (start := match shown with Some v => v | None => MIN_SCORE end).
    set (target := clamp s).
    pose proof (duration_exact (target - start)) as [D0 DP].
    revert D0 DP.
    change (num_sub (N:=Q) target start) with (target - start).
    set (d := Math_min _ _). intros D0 DP.
    unfold animate. cbn [startValue targetValue diff duration startTime fst snd].
    split.
    + intros t After.
      change (num_leb (N:=Q) d (num_sub (N:=Q) t now)) with (Qle_bool d (t - now)).
      destruct (Qle_bool_reflect d (t - now)) as [F|R]; cbn [fst].
      * split; intros O; lra.
      * assert (E0 : 0 <= t - now) by lra. assert (E1 : t - now < d) by lra.
        destruct (progress_exact E0 E1) as [P0 P1].
        simpl. change (inject_Z 1) with 1.
        revert P0 P1. generalize ((t - now) / d). intros p P0 P1.
        assert (X0 : 0 <= 1 - (1 - p) * (1 - p)) by nra.
        assert (X1 : 1 - (1 - p) * (1 - p) <= 1) by nra.
        revert X0 X1. generalize (1 - (1 - p) * (1 - p)). intros x X0 X1.
        split; intros O; split; nra.
    + intros t Before.
      change (num_leb (N:=Q) d (num_sub (N:=Q) t now)) with (Qle_bool d (t - now)).
      destruct (Qle_bool_reflect d (t - now)) as [F|R]; [exfalso; lra|].
      cbn [fst]. simpl. change (inject_Z 1) with 1.
      assert (Neg : t - now < 0) by lra.
      split; intros O.
      * assert (D : 0 < d) by (apply DP; lra).
        pose proof (progress_before_exact Neg D) as P.
        revert P. generalize ((t - now) / d). intros p P.
        assert (X : 1 - (1 - p) * (1 - p) < 0) by nra.
        revert X. generalize (1 - (1 - p) * (1 - p)). intros x X. nra.
      * assert (D : 0 < d) by (apply DP; lra).
        pose proof (progress_before_exact Neg D) as P.
        revert P. generalize ((t - now) / d). intros p P.
        assert (X : 1 - (1 - p) * (1 - p) < 0) by nra.
        revert X. generalize (1 - (1 - p) * (1 - p)). intros x X. nra.
  - eexists. eexists. cbv zeta.
    split; [vm_compute; reflexivity|].
    split; [vm_compute; reflexivity|].
    split; [reflexivity|].
    split; [vm_compute; reflexivity|].
    split; [vm_compute; reflexivity|].
    split; [vm_compute; reflexivity|].
    split; vm_compute; reflexivity.
Qed.

End CourseOfTheNeedle.

Section DistinctIds.
Context {N : Type} `{JsNumber N}.
Import CartStore Invariants.

Lemma addItems_ids (events : list (Z * ItemData N)) (s : CartState N) :
  map id (items (addItems events s))
  = map id (items s) ++ map (fun event => Js.toString (fst event)) events.
Proof.
  unfold addItems. revert s.
  induction events as [|event events IH]; intros s; simpl.
  - symmetry. apply app_nil_r.
  - rewrite IH, addItem_items, map_app, <- app_assoc. reflexivity.
Qed.

Lemma NoDup_toString (readings : list Z) :
  NoDup readings -> NoDup (map Js.toString readings).
Proof.
  induction 1 as [|now readings fresh _ IH]; simpl; constructor; [|exact IH].
  intros I. apply in_map_iff in I as (other & E & I).
  apply toString_injective in E. subst other. exact (fresh I).
Qed.

(** Items added to the empty cart at clock readings that differ from one
    another get ids that differ from one another: the ids are the readings
    as decimal texts, in the order of the additions. *)
Theorem distinct_clock_readings_give_distinct_ids
  (events : list (Z * ItemData N)) :
  NoDup (map fst events) ->
  map id (items (addItems events initial))
  = map (fun event => Js.toString (fst event)) events
  /\ NoDup (map id (items (addItems events initial))).
Proof.
  intros D. rewrite addItems_ids. simpl. split; [reflexivity|].
  rewrite <- (map_map fst Js.toString). apply NoDup_toString, D.
Qed.

End DistinctIds.

Section AnchorValues.
Import App Invariants.
#[local] Open Scope string_scope.

Lemma lower_ascii_no_capital (c : ascii) :
  let n := nat_of_ascii (Js.lower_ascii c) in
  negb ((65 <=? n)%nat && (n <=? 90)%nat) = true.
Proof.
  destruct c as [[] [] [] [] [] [] [] []]; vm_compute; reflexivity.
Qed.

Lemma toLowerCase_no_capital (s : string) : no_capital (Js.toLowerCase s) = true.
Proof.
  induction s as [|c s IH]; simpl; [reflexivity|].
  rewrite IH, andb_true_r. apply lower_ascii_no_capital.
Qed.

Lemma lower_ascii_twice (c : ascii) :
  Js.lower_ascii (Js.lower_ascii c) = Js.lower_ascii c.
Proof.
  destruct c as [[] [] [] [] [] [] [] []]; vm_compute; reflexivity.
Qed.

Lemma toLowerCase_twice (s : string) :
  Js.toLowerCase (Js.toLowerCase s) = Js.toLowerCase s.
Proof.
  induction s as [|c s IH]; simpl; [reflexivity|].
  rewrite IH, lower_ascii_twice. reflexivity.
Qed.

(** The value [mapAnchorKeyToApiValue] hands to the API holds no capital
    letter, so it is never "TotalCarbs"; mapping it again changes nothing;
    and it is "total_carbs" for the key "TotalCarbs" and the key in lower
    case for any other key. *)
Theorem mapAnchorKeyToApiValue_is_lower_case (uiAnchorKey : string) :
  no_capital (mapAnchorKeyToApiValue uiAnchorKey) = true
  /\ mapAnchorKeyToApiValue uiAnchorKey <> "TotalCarbs"
  /\ mapAnchorKeyToApiValue (mapAnchorKeyToApiValue uiAnchorKey)
     = mapAnchorKeyToApiValue uiAnchorKey
  /\ (uiAnchorKey = "TotalCarbs" -> mapAnchorKeyToApiValue uiAnchorKey = "total_carbs")
  /\ (uiAnchorKey <> "TotalCarbs" ->
      mapAnchorKeyToApiValue uiAnchorKey = Js.toLowerCase uiAnchorKey).
Proof.
  assert (C : no_capital (mapAnchorKeyToApiValue uiAnchorKey) = true).
  { unfold mapAnchorKeyToApiValue.
    destruct (String.eqb uiAnchorKey "TotalCarbs");
      [reflexivity|apply toLowerCase_no_capital]. }
  assert (T : mapAnchorKeyToApiValue uiAnchorKey <> "TotalCarbs").
  { intros E. rewrite E in C. discriminate C. }
  split; [exact C|]. split; [exact T|]. split; [|split].
  - unfold mapAnchorKeyToApiValue at 1.
    apply String.eqb_neq in T. rewrite T.
    unfold mapAnchorKeyToApiValue.
    destruct (String.eqb uiAnchorKey "TotalCarbs");
      [reflexivity|apply toLowerCase_twice].
  - intros ->. reflexivity.
  - intros D. unfold mapAnchorKeyToApiValue.
    apply String.eqb_neq in D. rewrite D. reflexivity.
Qed.

End AnchorValues.

Section AfterAScan.
Context {N : Type} `{JsNumber N}.
Import CartStore App Page.
#[local] Open Scope string_scope.

(** A label scanned while a single-item score is on display: the score and
    the calculation error of the item analysed before stay as they are,
    while the draft becomes the scanned label; so the single item's chart
    is drawn for the scanned label beside the earlier item's score, and
    the balancing effect starts a request that carries the values this
    chart draws and the single-item anchor, mapped. *)
Theorem scan_keeps_the_previous_score (ocrData : OcrResponse N) (score : N)
  (a : AppState N) :
  individualItemScore a = Some score ->
  isCalculatingItem a = false ->
  singleItemAnchorKey a <> "" ->
  let after := processCapturedImage (OcrScanned ocrData) a in
  individualItemScore after = Some score
  /\ calculationItemError after = calculationItemError a
  /\ ocrError after = None
  /\ option_map (@App.itemName N) (ocrResultData after) = Some "Scanned Item"
  /\ option_map (@App.servings N) (ocrResultData after) = Some (ocr_servings ocrData)
  /\ (exists props request,
         singleItemChart after = Some props
         /\ Macro5.itemName props = Some "Scanned Item"
         /\ Macro5.anchorKey props = Some (singleItemAnchorKey a)
         /\ snd (fetchIndividualBalancedMacros_begin after) = Some request
         /\ anchor_id request = mapAnchorKeyToApiValue (singleItemAnchorKey a)
         /\ aggregated_input_data request
            = mkMacros (Macro5.actualProtein props) (Macro5.actualFat props)
                       (Macro5.actualTotalCarbs props)
                       (Macro5.actualFiber props) (Macro5.actualSugar props)).
Proof.
  intros S C K. cbv zeta.
  unfold fetchIndividualBalancedMacros_begin, singleItemChart. simpl.
  rewrite S, C. simpl.
  destruct (String.eqb_spec (singleItemAnchorKey a) "") as [E|_];
    [contradiction|]. simpl.
  repeat split. eexists. eexists. repeat split.
Qed.

End AfterAScan.

Section FurtherWitnesses.
Import CartStore Sample.
#[local] Open Scope string_scope.

(** Oats and milk, added a millisecond apart. *)
Lemma distinct_clock_readings_give_distinct_ids_witness :
  NoDup (map fst [(1700000000000%Z, oats); (1700000000001%Z, milk)])
  /\ NoDup (map (@id float)
              (items (Invariants.addItems
                        [(1700000000000%Z, oats); (1700000000001%Z, milk)]
                        initial))).
Proof.
  assert (D : NoDup (map fst [(1700000000000%Z, oats); (1700000000001%Z, milk)])).
  { simpl. constructor; [intros [E|[]]; discriminate E|].
    constructor; [intros []|constructor]. }
  split; [exact D|].
  apply (distinct_clock_readings_give_distinct_ids _ D).
Defined.

(** A label is scanned while the score 20 of an earlier item is shown. *)
Lemma scan_keeps_the_previous_score_witness :
  let before := App.setIndividualItemScore (Some (g 20)) App.initial in
  let label :=
    App.mkOcrResponse (Some "10") (Some "5") (Some "20") (Some "2") (Some "5")
                      None in
  (App.individualItemScore before = Some (g 20)
   /\ App.isCalculatingItem before = false
   /\ App.singleItemAnchorKey before <> "")
  /\ App.individualItemScore
       (App.processCapturedImage (App.OcrScanned label) before)
     = Some (g 20).
Proof.
  cbv zeta.
  assert (K : App.singleItemAnchorKey
                (App.setIndividualItemScore (Some (g 20)) App.initial) <> "")
    by discriminate.
  split; [split; [reflexivity|split; [reflexivity|exact K]]|].
  apply (@scan_keeps_the_previous_score float _
           (App.mkOcrResponse (Some "10") (Some "5") (Some "20") (Some "2")
                              (Some "5") None)
           (g 20) (App.setIndividualItemScore (Some (g 20)) App.initial)
           eq_refl eq_refl K).
Defined.

End FurtherWitnesses.
